(** * neural-trader: the signal-to-execution pipeline and the portfolio ledger

    A shallow embedding of
      - [src/portfolio/PortfolioManager.ts]  (the Portfolio Ledger),
      - [src/risk/RiskManager.ts]            (the Risk Gate),
      - [src/core/TradingEngine.ts]          (the Execution Scheduler),
    followed by the properties of the specification that concern them.

    Conventions of the embedding.

    - A JavaScript [number] that the program receives (prices, quantities,
      confidences, balances) is an exact rational [Q], and the arithmetic of
      the methods is exact.  A number that the program computes with an
      unguarded division is a [JsNum.num]: a rational, [+Infinity],
      [-Infinity] or [NaN], with the IEEE rules for the three special values
      (the sign of zero is not tracked: every zero is [+0]).
    - The program computes in binary64, which rounds.  A property of the
      embedding is stated so that rounding leaves it true: it compares,
      selects or bounds the numbers of the program.  Where rounding or
      overflow decides, the method is transcribed on Rocq's primitive floats,
      which are binary64, and the property is proved or refuted there
      ([Binary64]); an identity of exact arithmetic is proved there for the
      runs in which the operations that it involves do not round.
    - [undefined] is [None]; an optional field is an [option].
    - A [Map] is an association list in insertion order ([JsMap]), because
      the ledger iterates over its maps and the order is observable.
    - Methods are computations in the monad [M]: a reader for the outside
      world (clock, database, venue, predictor), a state holding the three
      objects, and exceptions.  What a method logs, emits, writes to the
      database or sends to the venue is appended to a journal.
    - An [async] method runs to its end without interleaving with another
      one: the scheduling of the two cycles is not modelled. *)

From Stdlib Require Import Floats.
From Stdlib Require Import QArith Qround Qabs Qminmax ZArith List String Ascii Bool.
From Stdlib Require Import DecimalString Lia Lqa.
Import ListNotations.

Set Implicit Arguments.
Set Warnings "-inexact-float".
Local Open Scope string_scope.
Local Open Scope list_scope.

(* ================================================================== *)
(** * JavaScript numbers *)

Module JsNum.

Inductive num : Type :=
  | Fin (q : Q)
  | PInf
  | NInf
  | NaN.

Definition Qltb (a b : Q) : bool :=
    match (a ?= b)%Q with Lt => true | _ => false end.
Definition Qgtb (a b : Q) : bool := Qltb b a.
Definition Qleb (a b : Q) : bool := negb (Qltb b a).
Definition Qgeb (a b : Q) : bool := negb (Qltb a b).

  (** Truthiness of a finite number: everything but zero. *)
Definition Qtruthy (q : Q) : bool := negb (Qeq_bool q 0).

  (** [x || d] on an optional finite number: [undefined] and [0] give [d]. *)
Definition Qor (x : option Q) (d : Q) : Q :=
    match x with
    | Some q => if Qtruthy q then q else d
    | None => d
    end.

  (** Truthiness of an optional finite number. *)
Definition truthyOpt (x : option Q) : bool :=
    match x with Some q => Qtruthy q | None => false end.

  (** [x && test(x)] on an optional finite number. *)
Definition guard (x : option Q) (test : Q -> bool) : bool :=
  match x with Some q => Qtruthy q && test q | None => false end.

(** [Math.round]: nearest integer, ties towards [+Infinity]. *)
Definition Qround (q : Q) : Q := inject_Z (Qfloor (q + (1 # 2))).

Definition neg (a : num) : num :=
    match a with
    | Fin q => Fin (- q)
    | PInf => NInf
    | NInf => PInf
    | NaN => NaN
    end.

Definition add (a b : num) : num :=
    match a, b with
    | NaN, _ | _, NaN => NaN
    | Fin x, Fin y => Fin (x + y)
    | PInf, NInf | NInf, PInf => NaN
    | PInf, _ | _, PInf => PInf
    | NInf, _ | _, NInf => NInf
    end.

Definition sub (a b : num) : num := add a (neg b).

  (** An infinity with the sign of [q]; [0 * Infinity] is [NaN]. *)
Definition signedInf (q : Q) (pos : bool) : num :=
    match (q ?= 0)%Q with
    | Gt => if pos then PInf else NInf
    | Lt => if pos then NInf else PInf
    | Eq => NaN
    end.

Definition mul (a b : num) : num :=
    match a, b with
    | NaN, _ | _, NaN => NaN
    | Fin x, Fin y => Fin (x * y)
    | Fin x, PInf | PInf, Fin x => signedInf x true
    | Fin x, NInf | NInf, Fin x => signedInf x false
    | PInf, PInf | NInf, NInf => PInf
    | PInf, NInf | NInf, PInf => NInf
    end.

Definition div (a b : num) : num :=
    match a, b with
    | NaN, _ | _, NaN => NaN
    | Fin x, Fin y => if Qeq_bool y 0 then signedInf x true else Fin (x / y)
    | Fin _, PInf | Fin _, NInf => Fin 0
    | PInf, Fin y => if Qltb y 0 then NInf else PInf
    | NInf, Fin y => if Qltb y 0 then PInf else NInf
    | PInf, PInf | PInf, NInf | NInf, PInf | NInf, NInf => NaN
    end.

Definition abs (a : num) : num :=
    match a with
    | Fin q => Fin (Qabs q)
    | PInf | NInf => PInf
    | NaN => NaN
    end.

  (** Comparison; [None] when an operand is [NaN]. *)
Definition cmp (a b : num) : option comparison :=
    match a, b with
    | NaN, _ | _, NaN => None
    | Fin x, Fin y => Some (x ?= y)%Q
    | PInf, PInf | NInf, NInf => Some Eq
    | PInf, _ | _, NInf => Some Gt
    | NInf, _ | _, PInf => Some Lt
    end.

Definition ltb (a b : num) : bool :=
    match cmp a b with Some Lt => true | _ => false end.
Definition gtb (a b : num) : bool := ltb b a.
Definition leb (a b : num) : bool :=
    match cmp a b with Some Lt | Some Eq => true | _ => false end.
Definition geb (a b : num) : bool := leb b a.

  (** [a === b] on numbers. *)
Definition eqb (a b : num) : bool :=
    match cmp a b with Some Eq => true | _ => false end.

  (** [Math.max(a, b)] and [Math.min(a, b)]: [NaN] as soon as an argument is. *)
Definition max (a b : num) : num :=
    match cmp a b with
    | None => NaN
    | Some Lt => b
    | Some _ => a
    end.

Definition min (a b : num) : num :=
    match cmp a b with
    | None => NaN
    | Some Gt => b
    | Some _ => a
    end.

Definition round (a : num) : num :=
    match a with
    | Fin q => Fin (Qround q)
    | other => other
    end.

Definition truthy (a : num) : bool :=
    match a with
    | Fin q => Qtruthy q
    | PInf | NInf => true
    | NaN => false
    end.

End JsNum.

Import JsNum.

(* ================================================================== *)
(** * JavaScript [Map]: an association list in insertion order *)

Class KeyEq (K : Type) : Type := key_eqb : K -> K -> bool.

#[export] Instance string_KeyEq : KeyEq string := String.eqb.

(** Keys of the balance map: an asset name, or [undefined] (the quote of a
    symbol without a slash). *)
#[export] Instance ostring_KeyEq : KeyEq (option string) :=
  fun a b =>
    match a, b with
    | Some x, Some y => String.eqb x y
    | None, None => true
    | _, _ => false
    end.

Module JsMap.
Section Ops.
Context {K V : Type} `{KeyEq K}.

Definition t : Type := list (K * V).

Definition empty : t := [].

Fixpoint get (k : K) (m : t) : option V :=
      match m with
      | [] => None
      | (k', v) :: rest => if key_eqb k k' then Some v else get k rest
      end.

Definition has (k : K) (m : t) : bool :=
      match get k m with Some _ => true | None => false end.

    (** [m.set(k, v)]: an existing key keeps its place, a new one goes last. *)
Fixpoint set (k : K) (v : V) (m : t) : t :=
      match m with
      | [] => [(k, v)]
      | (k', v') :: rest =>
          if key_eqb k k' then (k', v) :: rest else (k', v') :: set k v rest
      end.

Fixpoint delete (k : K) (m : t) : t :=
      match m with
      | [] => []
      | (k', v') :: rest =>
          if key_eqb k k' then rest else (k', v') :: delete k rest
      end.

Definition keys (m : t) : list K := map fst m.
Definition values (m : t) : list V := map snd m.

    (** The representation invariant: no key occurs twice. *)
Definition wf (m : t) : Prop := NoDup (keys m).
End Ops.
Arguments t : clear implicits.
End JsMap.

(* ================================================================== *)
(** * Strings and plain objects *)

Module JsString.

  (** [s.split('/')] as its first piece and the list of the others. *)
Fixpoint splitSlash (s : string) : string * list string :=
    match s with
    | EmptyString => (EmptyString, [])
    | String c rest =>
        let (piece, others) := splitSlash rest in
        if Ascii.eqb c "/" then (EmptyString, piece :: others)
        else (String c piece, others)
    end.

  (** [const [base, quote] = symbol.split('/')]: the base always exists, the
      quote is [undefined] when the symbol has no slash. *)
Definition baseOf (symbol : string) : option string :=
    Some (fst (splitSlash symbol)).
Definition quoteOf (symbol : string) : option string :=
    hd_error (snd (splitSlash symbol)).

Definition digit (c : ascii) : option N :=
    let n := N_of_ascii c in
    if ((48 <=? n) && (n <=? 57))%N then Some (n - 48)%N else None.

Fixpoint digits (s : string) (acc : N) : option N :=
    match s with
    | EmptyString => Some acc
    | String c rest =>
        match digit c with
        | Some d => digits rest (10 * acc + d)%N
        | None => None
        end
    end.

  (** An array index: the canonical decimal form of an integer below
      [2^32 - 1].  Such property names are enumerated first, in
      ascending order. *)
Definition arrayIndex (k : string) : option N :=
    match k with
    | EmptyString => None
    | String c rest =>
        if Ascii.eqb c "0" && negb (String.eqb rest EmptyString) then None
        else match digits k 0 with
             | Some n => if (n <? 4294967295)%N then Some n else None
             | None => None
             end
    end.

  (** Decimal form of an integer, as in a template literal. *)
Definition ofZ (z : Z) : string :=
    match z with
    | Z0 => "0"
    | Zpos p => NilEmpty.string_of_uint (Pos.to_uint p)
    | Zneg p => ("-" ++ NilEmpty.string_of_uint (Pos.to_uint p))%string
    end.

End JsString.

(** A plain object used as a record of named values, with the property
    order of [Object.entries]: array indices ascending, then the other
    names in the order of their creation. *)
Module JsObject.
Section Ops.
Context {V : Type}.

Definition t : Type := list (string * V).

    (** Insert a new array-index property [k] (of index [n]) at its place. *)
Fixpoint insertIndex (n : N) (k : string) (v : V) (o : t) : t :=
      match o with
      | [] => [(k, v)]
      | (k', v') :: rest =>
          match JsString.arrayIndex k' with
          | Some n' =>
              if (n <? n')%N then (k, v) :: o
              else (k', v') :: insertIndex n k v rest
          | None => (k, v) :: o
          end
      end.

Definition define (k : string) (v : V) (o : t) : t :=
      if JsMap.has k o then JsMap.set k v o
      else match JsString.arrayIndex k with
           | Some n => insertIndex n k v o
           | None => o ++ [(k, v)]
           end.

    (** A [Map] key as a property name: [undefined] becomes ["undefined"]. *)
Definition propertyKey (k : option string) : string :=
      match k with Some s => s | None => "undefined" end.

    (** [Object.fromEntries(map)]. *)
Definition fromEntries (m : JsMap.t (option string) V) : t :=
      fold_left (fun o kv => define (propertyKey (fst kv)) (snd kv) o) m [].

    (** [Object.entries(o)]. *)
Definition entries (o : t) : list (string * V) := o.
End Ops.
Arguments t : clear implicits.
End JsObject.

(* ================================================================== *)
(** * Data model ([src/types/index.ts]) *)

Module Macd.
Record t : Type := make { macd : Q; signal : Q; histogram : Q }.
End Macd.

Module Indicators.
Record t : Type := make { rsi : option Q; macd : option Macd.t }.
End Indicators.

Module MarketData.
Record t : Type := make {
    symbol : string;
    price : Q;
    volume : Q;
    volatility : Q;
    timestamp : Z;
    indicators : option Indicators.t
  }.
End MarketData.

Inductive Action : Type := BUY | SELL.

Definition actionName (a : Action) : string :=
  match a with BUY => "BUY" | SELL => "SELL" end.

Module Metadata.
Record t : Type := make {
    priceChange : option num;
    volume : option Q;
    volatility : option Q;
    rsi : option Q;
    macd : option Macd.t
  }.
End Metadata.

Module Signal.
Record t : Type := make {
    id : string;
    symbol : string;
    action : Action;
    price : Q;
    targetPrice : Q;
    stopLoss : Q;
    takeProfit : Q;
    confidence : Q;
    timeframe : string;
    timestamp : Z;
    metadata : option Metadata.t
  }.
End Signal.

Module Order.
Record t : Type := make {
    id : string;
    symbol : string;
    type : string;
    side : string;
    price : Q;
    amount : Q;
    status : string;
    timestamp : Z
  }.
End Order.

(** [side] is a [string] in the interface; the ledger tests it against
    ['BUY'] and treats every other value as a sell.  [timestamp] is
    optional here because [importPortfolio] stores objects of type [any]
    that lack it. *)
Module Position.
Record t : Type := make {
    id : string;
    symbol : string;
    side : string;
    entryPrice : Q;
    quantity : Q;
    currentPrice : option Q;
    value : option Q;
    unrealizedPnl : option Q;
    realizedPnl : option Q;
    stopLoss : option Q;
    takeProfit : option Q;
    timestamp : option Z
  }.

  (** [Partial<Position>]: [None] is an absent property. *)
Record partial : Type := makePartial {
    p_id : option string;
    p_symbol : option string;
    p_side : option string;
    p_entryPrice : option Q;
    p_quantity : option Q;
    p_currentPrice : option (option Q);
    p_value : option (option Q);
    p_unrealizedPnl : option (option Q);
    p_realizedPnl : option (option Q);
    p_stopLoss : option (option Q);
    p_takeProfit : option (option Q);
    p_timestamp : option (option Z)
  }.

Definition over {A : Type} (update : option A) (old : A) : A :=
    match update with Some a => a | None => old end.

  (** [{ ...position, ...updates }]. *)
Definition spread (position : t) (updates : partial) : t :=
    {| id := over (p_id updates) (id position);
       symbol := over (p_symbol updates) (symbol position);
       side := over (p_side updates) (side position);
       entryPrice := over (p_entryPrice updates) (entryPrice position);
       quantity := over (p_quantity updates) (quantity position);
       currentPrice := over (p_currentPrice updates) (currentPrice position);
       value := over (p_value updates) (value position);
       unrealizedPnl := over (p_unrealizedPnl updates) (unrealizedPnl position);
       realizedPnl := over (p_realizedPnl updates) (realizedPnl position);
       stopLoss := over (p_stopLoss updates) (stopLoss position);
       takeProfit := over (p_takeProfit updates) (takeProfit position);
       timestamp := over (p_timestamp updates) (timestamp position) |}.

Definition isBuy (position : t) : bool := String.eqb (side position) "BUY".
End Position.

Inductive Direction : Type := up | down | neutral.

Module Prediction.
Record t : Type := make {
    confidence : Q;
    direction : Direction;
    predictedPrice : Q;
    timeframe : string;
    timestamp : Z
  }.
End Prediction.

(** The record that [closePosition] hands to [recordPerformance]. *)
Module Trade.
Record t : Type := make {
    positionId : string;
    symbol : string;
    side : string;
    entryPrice : Q;
    exitPrice : Q;
    quantity : Q;
    pnl : Q;
    timestamp : Z
  }.
End Trade.

(** The object returned by [getPerformanceMetrics].  The last five
    properties exist only on the object built for a non-empty history. *)
Module Metrics.
Record t : Type := make {
    totalTrades : nat;
    winningTrades : nat;
    losingTrades : nat;
    winRate : Q;
    totalPnL : Q;
    averagePnL : Q;
    bestTrade : Q;
    worstTrade : Q;
    profitFactor : Q;
    expectancy : Q;
    averageWin : option Q;
    averageLoss : option Q;
    sharpeRatio : option Q;
    maxDrawdown : option Q;
    equityCurve : option (list Q)
  }.
End Metrics.

(** The object exchanged by [exportPortfolio] and [importPortfolio]
    ([any] in the source: every property may be missing). *)
Module PortfolioData.
Record t : Type := make {
    timestamp : option Z;
    balance : option (JsObject.t Q);
    positions : option (list Position.t);
    performance : option Metrics.t;
    recentTrades : option (list Trade.t)
  }.
End PortfolioData.

(* ================================================================== *)
(** * The journal, the outside world and the monad of methods *)

(** Values thrown: the ledger's own error, or a rejection coming from a
    collaborator (database, venue, data feed, predictor). *)
Inductive Err : Type :=
| PositionNotFound (positionId : string)
| Rejected (collaborator : string).

(** [error.message]. *)
Definition message (e : Err) : string :=
  match e with
  | PositionNotFound positionId => ("Position " ++ positionId ++ " not found")%string
  | Rejected collaborator => (collaborator ++ " rejected")%string
  end.

(** Arguments of [exchange.createOrder]. *)
Module VenueCall.
Record t : Type := make {
  symbol : string;
  type : string;
  side : string;
  amount : num;
  price : option Q;
  stopPrice : option Q
}.
End VenueCall.

Inductive Event : Type :=
| PositionUpdate (position : Position.t)
| PositionClosed (position : Position.t) (exitPrice : Q)
| SignalGenerated (signal : Signal.t)
| OrderExecuted (order : Order.t).

Inductive DbCall : Type :=
| SavePosition (position : Position.t)
| UpdatePosition (positionId : string) (updates : Position.partial)
| ClosePosition (positionId : string) (exitPrice pnl : Q)
| SaveTrade (trade : Trade.t).

Inductive Level : Type := DEBUG | INFO | WARN | ERROR.

(** The lines written through [Logger], one constructor per call site. *)
Inductive LogMsg : Type :=
| PositionAdded (positionId : string)
| FailedToAddPosition (e : Err)
| PositionClosedLine (positionId : string) (pnl : Q)
| StopLossTriggered (positionId : string)
| TakeProfitTriggered (positionId : string)
| FailedToSaveTrade (e : Err)
| PortfolioImported
| FailedToImportPortfolio (e : Err)
| MaximumDrawdownExceeded
| MaximumOpenPositionsReached
| HighCorrelationRisk (symbol : string)
| LowConfidenceSignal (symbol : string) (confidence : Q)
| HighVolatility (symbol : string) (volatility : Q)
| KellyFractionTooLow (symbol : string) (kellyFraction : num)
| SignalValidationError (e : Err)
| PositionSizeCalculated (symbol : string) (positionSize : num)
| PositionSizeCalculationError (e : Err)
| RunningPredictionCycle
| NewTradingSignal (pair : string) (action : Action)
| ErrorInPredictionCycle (pair : string) (e : Err)
| ExecutingSignals (count : nat)
| SignalExpired (symbol : string)
| PositionSizeIsZero (symbol : string)
| OrderExecutedLine (symbol : string) (orderId : string)
| ErrorExecutingSignal (symbol : string) (e : Err)
| OrderExecutionFailed (e : Err)
| ProtectionOrdersSet (symbol : string)
| FailedToSetProtectionOrders (e : Err).

Inductive Effect : Type :=
| Emit (e : Event)
| Db (c : DbCall)
| Venue (c : VenueCall.t)
| Log (level : Level) (line : LogMsg).

(** The outside world.  Every consultation happens at a moment, the number
    of consultations made before it; an answer may depend on the moment. *)
Module Env.
Record t : Type := make {
  clock : nat -> Z;                                  (* Date.now() *)
  dbRejects : nat -> DbCall -> bool;                 (* does the promise reject? *)
  createOrder : nat -> VenueCall.t -> option Order.t;  (* None: the venue throws *)
  getMarketData : nat -> string -> option MarketData.t;
  predict : nat -> MarketData.t -> option Prediction.t;
  randomSuffix : nat -> string;                      (* Math.random().toString(36).substr(2, 9) *)
  random : nat -> Q;                                 (* Math.random() *)
  sqrt : Q -> Q                                      (* Math.sqrt *)
}.
End Env.

(** The fields of [PortfolioManager]. *)
Module Ledger.
Record t : Type := make {
  positions : JsMap.t string Position.t;
  balance : JsMap.t (option string) Q;
  performanceHistory : list Trade.t
}.
End Ledger.

(** The fields of [RiskManager]. *)
Module Risk.
Record t : Type := make {
  maxPositionSize : Q;
  maxDrawdown : Q;
  riskPerTrade : Q;
  maxOpenPositions : Q;
  currentDrawdown : num;
  peakBalance : Q;
  correlationMatrix : JsMap.t string (JsMap.t string Q)
}.
End Risk.

(** The fields of [TradingEngine] that are not other objects. *)
Module Engine.
Record t : Type := make {
  isRunning : bool;
  tradingPairs : list string;
  signalQueue : list Signal.t
}.
End Engine.

Module World.
Record t : Type := make {
  portfolioManager : Ledger.t;
  riskManager : Risk.t;
  engine : Engine.t;
  moment : nat;
  journal : list Effect
}.
End World.

Inductive Outcome (A : Type) : Type :=
| Ok (a : A)
| Throw (e : Err).
Arguments Ok {A} a.
Arguments Throw {A} e.

Definition M (A : Type) : Type := Env.t -> World.t -> Outcome A * World.t.

Definition ret {A : Type} (a : A) : M A := fun _ w => (Ok a, w).

Definition bind {A B : Type} (c : M A) (k : A -> M B) : M B :=
  fun env w =>
    match c env w with
    | (Ok a, w') => k a env w'
    | (Throw e, w') => (Throw e, w')
    end.

Definition throw {A : Type} (e : Err) : M A := fun _ w => (Throw e, w).

(** [try { body } catch (error) { handler }]. *)
Definition tryCatch {A : Type} (body : M A) (handler : Err -> M A) : M A :=
  fun env w =>
    match body env w with
    | (Ok a, w') => (Ok a, w')
    | (Throw e, w') => handler e env w'
    end.

Declare Scope method_scope.
Delimit Scope method_scope with method.
Notation "x <- c ;; k" := (bind c (fun x => k))
  (at level 61, c at next level, right associativity) : method_scope.
Notation "c ;; k" := (bind c (fun _ => k))
  (at level 61, right associativity) : method_scope.
Local Open Scope method_scope.

Definition getWorld : M World.t := fun _ w => (Ok w, w).

Definition modify (f : World.t -> World.t) : M unit := fun _ w => (Ok tt, f w).

(** Ask the outside world; the moment advances. *)
Definition consult {A : Type} (oracle : Env.t -> nat -> A) : M A :=
  fun env w =>
    (Ok (oracle env (World.moment w)),
     World.make (World.portfolioManager w) (World.riskManager w) (World.engine w)
                (S (World.moment w)) (World.journal w)).

Definition record (x : Effect) : M unit :=
  modify (fun w =>
    World.make (World.portfolioManager w) (World.riskManager w) (World.engine w)
               (World.moment w) (World.journal w ++ [x])).

Definition dateNow : M Z := consult Env.clock.
Definition emit (e : Event) : M unit := record (Emit e).
Definition log (level : Level) (line : LogMsg) : M unit := record (Log level line).

(** [await this.database.f(...)]: the call is made, and may reject. *)
Definition database (c : DbCall) : M unit :=
  record (Db c) ;;
  rejects <- consult (fun env n => Env.dbRejects env n c) ;;
  if rejects then throw (Rejected "database") else ret tt.

Definition getLedger : M Ledger.t :=
  w <- getWorld ;; ret (World.portfolioManager w).

Definition modifyLedger (f : Ledger.t -> Ledger.t) : M unit :=
  modify (fun w =>
    World.make (f (World.portfolioManager w)) (World.riskManager w) (World.engine w)
               (World.moment w) (World.journal w)).

Definition getRisk : M Risk.t :=
  w <- getWorld ;; ret (World.riskManager w).

Definition modifyRisk (f : Risk.t -> Risk.t) : M unit :=
  modify (fun w =>
    World.make (World.portfolioManager w) (f (World.riskManager w)) (World.engine w)
               (World.moment w) (World.journal w)).

Definition getEngine : M Engine.t :=
  w <- getWorld ;; ret (World.engine w).

Definition modifyEngine (f : Engine.t -> Engine.t) : M unit :=
  modify (fun w =>
    World.make (World.portfolioManager w) (World.riskManager w) (f (World.engine w))
               (World.moment w) (World.journal w)).

(** A [for ... of] loop over a fixed sequence. *)
Fixpoint forEach {A : Type} (body : A -> M unit) (xs : list A) : M unit :=
  match xs with
  | [] => ret tt
  | x :: rest => body x ;; forEach body rest
  end.

(* ================================================================== *)
(** * A wider world, for the methods that hold tasks or write other lines

    [TradingEngine.start] and [stop] hold the two scheduled tasks; they,
    [closeAllPositions], [RiskManager.updateDrawdown] and
    [adjustRiskParameters] write log lines of their own.  The wider world
    adds the task handles and those lines to the world.  A line is stamped
    with the length of the journal at the time it is written, which keeps
    the order of everything written. *)

(** A task returned by [cron.schedule]: scheduled until [stop()] is called
    on it.  The scheduler that fires its callback is outside the model. *)
Inductive Task : Type := Scheduled | Halted.

Inductive Line : Type :=
| ApproachingMaximumDrawdown (currentDrawdown : num)
| RiskParametersReduced
| RiskParametersIncreased
| EngineAlreadyRunning
| StartingEngine
| EngineStarted
| EngineNotRunning
| StoppingEngine
| EngineStopped
| PositionClosedByEngine (positionId : string)
| FailedToClosePosition (positionId : string) (e : Err).

Module Wide.
Record t : Type := make {
  world : World.t;
  predictionTask : option Task;
  executionTask : option Task;
  lines : list (nat * Level * Line)
}.
End Wide.

Definition W (A : Type) : Type := Env.t -> Wide.t -> Outcome A * Wide.t.

Definition retW {A : Type} (a : A) : W A := fun _ x => (Ok a, x).

Definition bindW {A B : Type} (c : W A) (k : A -> W B) : W B :=
  fun env x =>
    match c env x with
    | (Ok a, x') => k a env x'
    | (Throw e, x') => (Throw e, x')
    end.

Definition tryCatchW {A : Type} (body : W A) (handler : Err -> W A) : W A :=
  fun env x =>
    match body env x with
    | (Ok a, x') => (Ok a, x')
    | (Throw e, x') => handler e env x'
    end.

Declare Scope wide_scope.
Delimit Scope wide_scope with wide.
Notation "x <- c ;; k" := (bindW c (fun x => k))
  (at level 61, c at next level, right associativity) : wide_scope.
Notation "c ;; k" := (bindW c (fun _ => k))
  (at level 61, right associativity) : wide_scope.

(** A method of the narrower world, run in the wider one. *)
Definition lift {A : Type} (c : M A) : W A :=
  fun env x =>
    let (outcome, w) := c env (Wide.world x) in
    (outcome, Wide.make w (Wide.predictionTask x) (Wide.executionTask x) (Wide.lines x)).

Definition logLine (level : Level) (line : Line) : W unit :=
  fun _ x =>
    (Ok tt,
     Wide.make (Wide.world x) (Wide.predictionTask x) (Wide.executionTask x)
               (Wide.lines x
                ++ [(List.length (World.journal (Wide.world x)), level, line)])).

Definition setTasks (prediction execution : option Task -> option Task) : W unit :=
  fun _ x =>
    (Ok tt,
     Wide.make (Wide.world x) (prediction (Wide.predictionTask x))
               (execution (Wide.executionTask x)) (Wide.lines x)).

Fixpoint forEachW {A : Type} (body : A -> W unit) (xs : list A) : W unit :=
  match xs with
  | [] => retW tt
  | x :: rest => bindW (body x) (fun _ => forEachW body rest)
  end.

(** ** What a method leaves alone

    [keeps P c]: from a world in which [P] holds the method [c] leads to a
    world in which [P] holds, whether it returns or throws.  [returns c]:
    the method never throws. *)

Definition keeps {A : Type} (P : World.t -> Prop) (c : M A) : Prop :=
  forall (env : Env.t) (w : World.t), P w -> P (snd (c env w)).

Definition returns {A : Type} (c : M A) : Prop :=
  forall (env : Env.t) (w : World.t), exists a : A, fst (c env w) = Ok a.

Definition keepsW {A : Type} (P : Wide.t -> Prop) (c : W A) : Prop :=
  forall (env : Env.t) (x : Wide.t), P x -> P (snd (c env x)).

Definition returnsW {A : Type} (c : W A) : Prop :=
  forall (env : Env.t) (x : Wide.t), exists a : A, fst (c env x) = Ok a.

(* ================================================================== *)
(** * [PortfolioManager] *)

Module PortfolioManager.

(** [initializeBalance]. *)
Definition initializeBalance : JsMap.t (option string) Q :=
  JsMap.set (Some "ETH") 0
    (JsMap.set (Some "BTC") 0
      (JsMap.set (Some "USDT") (10000 # 1) JsMap.empty)).

(** The object after its constructor. *)
Definition initial : Ledger.t :=
  Ledger.make JsMap.empty initializeBalance [].

Definition setPositions (f : JsMap.t string Position.t -> JsMap.t string Position.t) : M unit :=
  modifyLedger (fun l =>
    Ledger.make (f (Ledger.positions l)) (Ledger.balance l) (Ledger.performanceHistory l)).

(** [this.balance.get(asset) || 0]. *)
Definition balanceGet (asset : option string) : M Q :=
  l <- getLedger ;; ret (Qor (JsMap.get asset (Ledger.balance l)) 0).

Definition balanceSet (asset : option string) (amount : Q) : M unit :=
  modifyLedger (fun l =>
    Ledger.make (Ledger.positions l) (JsMap.set asset amount (Ledger.balance l))
                (Ledger.performanceHistory l)).

Definition setHistory (f : list Trade.t -> list Trade.t) : M unit :=
  modifyLedger (fun l =>
    Ledger.make (Ledger.positions l) (Ledger.balance l) (f (Ledger.performanceHistory l))).

Definition addPosition (position : Position.t) : M unit :=
  tryCatch
    (setPositions (JsMap.set (Position.id position) position) ;;
     let base := JsString.baseOf (Position.symbol position) in
     let quote := JsString.quoteOf (Position.symbol position) in
     currentQuote <- balanceGet quote ;;
     let cost := (Position.entryPrice position * Position.quantity position)%Q in
     (if Position.isBuy position then
        balanceSet quote (currentQuote - cost)%Q ;;
        currentBase <- balanceGet base ;;
        balanceSet base (currentBase + Position.quantity position)%Q
      else
        currentBase <- balanceGet base ;;
        balanceSet base (currentBase - Position.quantity position)%Q ;;
        balanceSet quote (currentQuote + cost)%Q) ;;
     database (SavePosition position) ;;
     emit (PositionUpdate position) ;;
     log INFO (PositionAdded (Position.id position)))
    (fun e => log ERROR (FailedToAddPosition e) ;; throw e).

Definition updatePosition (positionId : string) (updates : Position.partial) : M unit :=
  l <- getLedger ;;
  match JsMap.get positionId (Ledger.positions l) with
  | None => throw (PositionNotFound positionId)
  | Some position =>
      let updatedPosition := Position.spread position updates in
      setPositions (JsMap.set positionId updatedPosition) ;;
      database (UpdatePosition positionId updates) ;;
      emit (PositionUpdate updatedPosition)
  end.

Definition calculatePnL (position : Position.t) (currentPrice : Q) : Q :=
  let diff := (currentPrice - Position.entryPrice position)%Q in
  if Position.isBuy position
  then (diff * Position.quantity position)%Q
  else (- diff * Position.quantity position)%Q.

Definition recordPerformance (trade : Trade.t) : M unit :=
  setHistory (fun history =>
    let pushed := history ++ [trade] in
    if (1000 <? List.length pushed)%nat then tl pushed else pushed) ;;
  record (Db (SaveTrade trade)) ;;
  rejects <- consult (fun env n => Env.dbRejects env n (SaveTrade trade)) ;;
  if rejects then log ERROR (FailedToSaveTrade (Rejected "database")) else ret tt.

Definition withRealizedPnl (position : Position.t) (pnl : Q) : Position.t :=
  Position.spread position
    (Position.makePartial None None None None None None None None (Some (Some pnl))
                          None None None).

Definition closePosition (positionId : string) (exitPrice : option Q) : M unit :=
  l <- getLedger ;;
  match JsMap.get positionId (Ledger.positions l) with
  | None => throw (PositionNotFound positionId)
  | Some position =>
      let price :=
        Qor exitPrice (Qor (Position.currentPrice position) (Position.entryPrice position)) in
      let pnl := calculatePnL position price in
      let base := JsString.baseOf (Position.symbol position) in
      let quote := JsString.quoteOf (Position.symbol position) in
      let proceeds := (price * Position.quantity position)%Q in
      (if Position.isBuy position then
         currentBase <- balanceGet base ;;
         balanceSet base (currentBase - Position.quantity position)%Q ;;
         currentQuote <- balanceGet quote ;;
         balanceSet quote (currentQuote + proceeds)%Q
       else
         currentBase <- balanceGet base ;;
         balanceSet base (currentBase + Position.quantity position)%Q ;;
         currentQuote <- balanceGet quote ;;
         balanceSet quote (currentQuote - proceeds)%Q) ;;
      timestamp <- dateNow ;;
      recordPerformance
        (Trade.make positionId (Position.symbol position) (Position.side position)
                    (Position.entryPrice position) price (Position.quantity position)
                    pnl timestamp) ;;
      setPositions (JsMap.delete positionId) ;;
      database (ClosePosition positionId price pnl) ;;
      emit (PositionClosed (withRealizedPnl position pnl) price) ;;
      log INFO (PositionClosedLine positionId pnl)
  end.

Definition getOpenPositions : M (list Position.t) :=
  l <- getLedger ;; ret (JsMap.values (Ledger.positions l)).

(** The assignments at the head of the loop body of [updatePrices]. *)
Definition reprice (position : Position.t) (currentPrice : Q) : Position.t :=
  Position.spread position
    (Position.makePartial None None None None None
       (Some (Some currentPrice))
       (Some (Some (currentPrice * Position.quantity position)%Q))
       (Some (Some (calculatePnL position currentPrice)))
       None None None None).

(** The body of the loop of [updatePrices] for the entry stored under
    [key].  The iterator of a [Map] is live: an entry deleted by an
    earlier iteration is not visited. *)
Definition updatePrice (prices : JsMap.t string Q) (key : string) : M unit :=
  l <- getLedger ;;
  match JsMap.get key (Ledger.positions l) with
  | None => ret tt
  | Some position =>
      match JsMap.get (Position.symbol position) prices with
      | Some currentPrice =>
          if Qtruthy currentPrice then
            let position := reprice position currentPrice in
            setPositions (JsMap.set key position) ;;
            if guard (Position.stopLoss position) (fun stopLoss => Qleb currentPrice stopLoss)
            then
              log WARN (StopLossTriggered (Position.id position)) ;;
              closePosition (Position.id position) (Some currentPrice)
            else if guard (Position.takeProfit position)
                          (fun takeProfit => Qgeb currentPrice takeProfit)
            then
              log INFO (TakeProfitTriggered (Position.id position)) ;;
              closePosition (Position.id position) (Some currentPrice)
            else ret tt
          else ret tt
      | None => ret tt
      end
  end.

Definition updatePrices (prices : JsMap.t string Q) : M unit :=
  l <- getLedger ;;
  forEach (updatePrice prices) (JsMap.keys (Ledger.positions l)).

(** [trades.reduce((sum, t) => sum + t.pnl, 0)]. *)
Definition sumPnl (trades : list Trade.t) : Q :=
  fold_left (fun sum t => (sum + Trade.pnl t)%Q) trades 0.

(** [Math.max(...xs)] and [Math.min(...xs)] on a non-empty array; the
    source evaluates them only under [trades.length > 0]. *)
Definition maxOf (xs : list Q) : Q :=
  match xs with [] => 0 | x :: rest => fold_left Qmax rest x end.
Definition minOf (xs : list Q) : Q :=
  match xs with [] => 0 | x :: rest => fold_left Qmin rest x end.

(** [xs.length] as a number. *)
Definition len {A : Type} (xs : list A) : Q := inject_Z (Z.of_nat (List.length xs)).

(** The drawdown loop; its state is [peak], [maxDrawdown], [runningTotal]. *)
Definition drawdownStep (state : Q * Q * Q) (trade : Trade.t) : Q * Q * Q :=
  let '(peak, maxDrawdown, runningTotal) := state in
  let runningTotal := (runningTotal + Trade.pnl trade)%Q in
  let peak := if Qgtb runningTotal peak then runningTotal else peak in
  let drawdown := if Qgtb peak 0 then ((peak - runningTotal) / peak)%Q else 0 in
  let maxDrawdown := if Qgtb drawdown maxDrawdown then drawdown else maxDrawdown in
  (peak, maxDrawdown, runningTotal).

(** The equity-curve loop, from the equity reached so far. *)
Fixpoint equityFrom (equity : Q) (trades : list Trade.t) : list Q :=
  match trades with
  | [] => []
  | trade :: rest =>
      let equity := (equity + Trade.pnl trade)%Q in
      equity :: equityFrom equity rest
  end.

(** The body of [getPerformanceMetrics] on the history [trades]. *)
Definition performanceMetrics (sqrt : Q -> Q) (trades : list Trade.t) : Metrics.t :=
  if (List.length trades =? 0)%nat
  then Metrics.make 0 0 0 0 0 0 0 0 0 0 None None None None None
  else
    let winningTrades := filter (fun t => Qgtb (Trade.pnl t) 0) trades in
    let losingTrades := filter (fun t => Qltb (Trade.pnl t) 0) trades in
    let totalPnL := sumPnl trades in
    let grossProfit := sumPnl winningTrades in
    let grossLoss := Qabs (sumPnl losingTrades) in
    let returns := map Trade.pnl trades in
    let avgReturn :=
      if (0 <? List.length returns)%nat
      then (fold_left Qplus returns 0 / len returns)%Q else 0 in
    let variance :=
      if (0 <? List.length returns)%nat
      then (fold_left (fun sum ret => sum + (ret - avgReturn) * (ret - avgReturn))
                      returns 0 / len returns)%Q
      else 0 in
    let stdDev := sqrt variance in
    let sharpeRatio :=
      if Qgtb stdDev 0 then (avgReturn / stdDev * sqrt (252 # 1))%Q else 0 in
    let '(_, maxDrawdown, _) := fold_left drawdownStep trades (0, 0, 0) in
    let equityCurve := equityFrom (10000 # 1) trades in
    let hasTrades := (0 <? List.length trades)%nat in
    Metrics.make
      (List.length trades)
      (List.length winningTrades)
      (List.length losingTrades)
      (if hasTrades then (len winningTrades / len trades)%Q else 0)
      totalPnL
      (if hasTrades then (totalPnL / len trades)%Q else 0)
      (if hasTrades then maxOf (map Trade.pnl trades) else 0)
      (if hasTrades then minOf (map Trade.pnl trades) else 0)
      (if Qgtb grossLoss 0 then (grossProfit / grossLoss)%Q else 0)
      (if hasTrades then (totalPnL / len trades)%Q else 0)
      (Some (if (0 <? List.length winningTrades)%nat
             then (grossProfit / len winningTrades)%Q else 0))
      (Some (if (0 <? List.length losingTrades)%nat
             then (grossLoss / len losingTrades)%Q else 0))
      (Some sharpeRatio)
      (Some maxDrawdown)
      (Some equityCurve).

Definition getPerformanceMetrics : M Metrics.t :=
  fun env w =>
    (Ok (performanceMetrics (Env.sqrt env)
           (Ledger.performanceHistory (World.portfolioManager w))), w).

(** [xs.slice(-n)]. *)
Definition sliceLast {A : Type} (n : nat) (xs : list A) : list A :=
  skipn (List.length xs - n) xs.

(** The object literal that [exportPortfolio] builds for a position. *)
Definition exported (p : Position.t) : Position.t :=
  Position.make (Position.id p) (Position.symbol p) (Position.side p)
                (Position.entryPrice p) (Position.quantity p)
                (Position.currentPrice p) None (Position.unrealizedPnl p)
                None None None None.

Definition exportPortfolio : M PortfolioData.t :=
  positions <- getOpenPositions ;;
  metrics <- getPerformanceMetrics ;;
  timestamp <- dateNow ;;
  l <- getLedger ;;
  ret (PortfolioData.make
         (Some timestamp)
         (Some (JsObject.fromEntries (Ledger.balance l)))
         (Some (map exported positions))
         (Some metrics)
         (Some (sliceLast 20 (Ledger.performanceHistory l)))).

Definition importPortfolio (data : PortfolioData.t) : M unit :=
  tryCatch
    (modifyLedger (fun _ => Ledger.make JsMap.empty JsMap.empty []) ;;
     match PortfolioData.balance data with
     | Some object =>
         forEach (fun entry => balanceSet (Some (fst entry)) (snd entry))
                 (JsObject.entries object)
     | None => ret tt
     end ;;
     match PortfolioData.positions data with
     | Some positions =>
         forEach (fun pos => setPositions (JsMap.set (Position.id pos) pos)) positions
     | None => ret tt
     end ;;
     match PortfolioData.recentTrades data with
     | Some trades => setHistory (fun _ => trades)
     | None => ret tt
     end ;;
     log INFO PortfolioImported)
    (fun e => log ERROR (FailedToImportPortfolio e) ;; throw e).

(** [this.positions.get(positionId) || null]. *)
Definition getPositionById (positionId : string) : M (option Position.t) :=
  l <- getLedger ;; ret (JsMap.get positionId (Ledger.positions l)).

Definition getPositionsBySymbol (symbol : string) : M (list Position.t) :=
  l <- getLedger ;;
  ret (filter (fun p => String.eqb (Position.symbol p) symbol)
              (JsMap.values (Ledger.positions l))).

(** [new Map(this.balance)]: the entries, in order. *)
Definition getBalance : M (JsMap.t (option string) Q) :=
  l <- getLedger ;; ret (Ledger.balance l).

(** The body of the loop of [getTotalValue]; [`${asset}/USDT`] writes an
    [undefined] asset as ["undefined"]. *)
Definition addValue (prices : JsMap.t string Q) (total : Q) (entry : option string * Q) : Q :=
  let (asset, amount) := entry in
  if key_eqb asset (Some "USDT") || key_eqb asset (Some "USD")
  then (total + amount)%Q
  else
    let price := Qor (JsMap.get (JsObject.propertyKey asset ++ "/USDT")%string prices) 0 in
    (total + amount * price)%Q.

Definition getTotalValue (prices : JsMap.t string Q) : M Q :=
  l <- getLedger ;; ret (fold_left (addValue prices) (Ledger.balance l) 0).

(** [xs.slice(start)] for an integer [start]: a negative one counts from
    the end. *)
Definition slice {A : Type} (start : Z) (xs : list A) : list A :=
  let len := Z.of_nat (List.length xs) in
  let from := if (start <? 0)%Z then Z.max (len + start) 0 else Z.min start len in
  skipn (Z.to_nat from) xs.

(** [getTradeHistory(limit = 100)], for an integer [limit]. *)
Definition getTradeHistory (limit : option Z) : M (list Trade.t) :=
  let limit := match limit with Some n => n | None => 100%Z end in
  l <- getLedger ;; ret (slice (- limit) (Ledger.performanceHistory l)).

End PortfolioManager.

(** [RiskMetrics], with the numbers that [getRiskMetrics] computes by an
    unguarded division as [num]. *)
Module RiskMetrics.
Record t : Type := make {
  currentDrawdown : num;
  maxDrawdown : Q;
  openPositions : nat;
  maxOpenPositions : Q;
  totalExposure : num;
  exposureRatio : num;
  sharpeRatio : num;
  winRate : Q;
  profitFactor : Q;
  valueAtRisk : Q;
  beta : Q
}.
End RiskMetrics.

(* ================================================================== *)
(** * [RiskManager] *)

Module RiskManager.

(** The properties that [loadRiskParameters] reads on the configuration. *)
Module Config.
Record t : Type := make {
  maxPositionSize : option Q;
  maxDrawdown : option Q;
  riskPerTrade : option Q;
  maxOpenPositions : option Q
}.
End Config.

(** The object after its constructor. *)
Definition loadRiskParameters (config : Config.t) : Risk.t :=
  Risk.make (Qor (Config.maxPositionSize config) (10000 # 1))
            (Qor (Config.maxDrawdown config) (2 # 10))
            (Qor (Config.riskPerTrade config) (2 # 100))
            (Qor (Config.maxOpenPositions config) (10 # 1))
            (Fin 0) 0 JsMap.empty.

(** The mock methods at the end of the class. *)
Definition getAccountBalance : M Q := ret (10000 # 1).
Definition getOpenPositionsCount : M Q := ret (3 # 1).
Definition getOpenPositions : M (list Position.t) := ret [].

Definition calculateKellyFraction (signal : Signal.t) : num :=
  let winProbability := Fin (Signal.confidence signal) in
  let lossProbability := sub (Fin 1) winProbability in
  let winAmount := abs (sub (Fin (Signal.targetPrice signal)) (Fin (Signal.price signal))) in
  let lossAmount := abs (sub (Fin (Signal.price signal)) (Fin (Signal.stopLoss signal))) in
  let odds := div winAmount lossAmount in
  let kellyFraction := div (sub (mul winProbability odds) lossProbability) odds in
  max (Fin 0) (mul kellyFraction (Fin (25 # 100))).

(** [signal.metadata?.volatility]. *)
Definition metadataVolatility (signal : Signal.t) : option Q :=
  match Signal.metadata signal with
  | Some metadata => Metadata.volatility metadata
  | None => None
  end.

Definition getVolatilityMultiplier (signal : Signal.t) : Q :=
  let volatility := Qor (metadataVolatility signal) (1 # 10) in
  if Qgtb volatility (3 # 10) then 5 # 10
  else if Qgtb volatility (2 # 10) then 7 # 10
  else if Qgtb volatility (1 # 10) then 9 # 10
  else 1.

Definition highCorrelationPairs : list (list string) :=
  [["BTC"; "ETH"]; ["SOL"; "AVAX"]; ["MATIC"; "BNB"]].

(** [pair.includes(x)]. *)
Definition includes (pair : list string) (x : string) : bool :=
  existsb (String.eqb x) pair.

Definition calculateBaseCorrelation (symbol1 symbol2 : string) : Q :=
  let base1 := fst (JsString.splitSlash symbol1) in
  let base2 := fst (JsString.splitSlash symbol2) in
  if String.eqb base1 base2 then 1
  else if existsb (fun pair => includes pair base1 && includes pair base2)
                  highCorrelationPairs
       then 7 # 10
       else 3 # 10.

Definition setCorrelationMatrix
    (f : JsMap.t string (JsMap.t string Q) -> JsMap.t string (JsMap.t string Q)) : M unit :=
  modifyRisk (fun r =>
    Risk.make (Risk.maxPositionSize r) (Risk.maxDrawdown r) (Risk.riskPerTrade r)
              (Risk.maxOpenPositions r) (Risk.currentDrawdown r) (Risk.peakBalance r)
              (f (Risk.correlationMatrix r))).

(** The inner map is shared with the matrix: [correlations.set] is seen
    through [correlationMatrix.get(symbol1)]. *)
Definition getCorrelation (symbol1 symbol2 : string) : M Q :=
  r <- getRisk ;;
  (if JsMap.has symbol1 (Risk.correlationMatrix r) then ret tt
   else setCorrelationMatrix (JsMap.set symbol1 JsMap.empty)) ;;
  r <- getRisk ;;
  let correlations :=
    match JsMap.get symbol1 (Risk.correlationMatrix r) with
    | Some inner => inner
    | None => JsMap.empty
    end in
  match JsMap.get symbol2 correlations with
  | Some correlation => ret correlation
  | None =>
      let baseCorrelation := calculateBaseCorrelation symbol1 symbol2 in
      setCorrelationMatrix
        (JsMap.set symbol1 (JsMap.set symbol2 baseCorrelation correlations)) ;;
      ret baseCorrelation
  end.

(** The loop of [checkCorrelationRisk]. *)
Fixpoint maxCorrelationOver (symbol : string) (openPositions : list Position.t)
    (maxCorrelation : Q) : M Q :=
  match openPositions with
  | [] => ret maxCorrelation
  | position :: rest =>
      correlation <- getCorrelation symbol (Position.symbol position) ;;
      maxCorrelationOver symbol rest (Qmax maxCorrelation (Qabs correlation))
  end.

Definition checkCorrelationRisk (symbol : string) : M Q :=
  openPositions <- getOpenPositions ;;
  maxCorrelationOver symbol openPositions 0.

Definition validateSignal (signal : Signal.t) : M bool :=
  tryCatch
    (r <- getRisk ;;
     if gtb (Risk.currentDrawdown r) (Fin (Risk.maxDrawdown r)) then
       log WARN MaximumDrawdownExceeded ;; ret false
     else
       openPositions <- getOpenPositionsCount ;;
       if Qgeb openPositions (Risk.maxOpenPositions r) then
         log WARN MaximumOpenPositionsReached ;; ret false
       else
         correlationRisk <- checkCorrelationRisk (Signal.symbol signal) ;;
         if Qgtb correlationRisk (8 # 10) then
           log WARN (HighCorrelationRisk (Signal.symbol signal)) ;; ret false
         else if Qltb (Signal.confidence signal) (65 # 100) then
           log WARN (LowConfidenceSignal (Signal.symbol signal) (Signal.confidence signal)) ;;
           ret false
         else
           let volatility := Qor (metadataVolatility signal) 0 in
           if Qgtb volatility (5 # 10) then
             log WARN (HighVolatility (Signal.symbol signal) volatility) ;; ret false
           else
             let kellyFraction := calculateKellyFraction signal in
             if ltb kellyFraction (Fin (1 # 100)) then
               log WARN (KellyFractionTooLow (Signal.symbol signal) kellyFraction) ;;
               ret false
             else ret true)
    (fun e => log ERROR (SignalValidationError e) ;; ret false).

(** The factor by which [calculatePositionSize] scales the base size:
    [Math.min(kellyFraction, 0.25)], with [kellyFraction] the value of
    [calculateKellyFraction]. *)
Definition kellyMultiplier (signal : Signal.t) : num :=
  min (calculateKellyFraction signal) (Fin (25 # 100)).

(** [stopLossPercentage], which the source computes and never reads, is
    left out. *)
Definition calculatePositionSize (signal : Signal.t) : M num :=
  tryCatch
    (accountBalance <- getAccountBalance ;;
     r <- getRisk ;;
     let riskAmount := (accountBalance * Risk.riskPerTrade r)%Q in
     let stopLossDistance := Qabs (Signal.price signal - Signal.stopLoss signal) in
     let positionSize := div (Fin riskAmount) (Fin stopLossDistance) in
     let positionSize := mul positionSize (kellyMultiplier signal) in
     let volatilityMultiplier := getVolatilityMultiplier signal in
     let positionSize := mul positionSize (Fin volatilityMultiplier) in
     let positionSize := min positionSize (Fin (Risk.maxPositionSize r)) in
     let minimumSize := Fin (10 # 1) in
     if ltb positionSize minimumSize then ret (Fin 0)
     else
       let positionSize := div (round (mul positionSize (Fin (100 # 1)))) (Fin (100 # 1)) in
       log INFO (PositionSizeCalculated (Signal.symbol signal) positionSize) ;;
       ret positionSize)
    (fun e => log ERROR (PositionSizeCalculationError e) ;; ret (Fin 0)).

(** [Array(n).fill(0).map(() => f())]. *)
Fixpoint generate {A : Type} (n : nat) (f : M A) : M (list A) :=
  match n with
  | O => ret []
  | S n' => x <- f ;; rest <- generate n' f ;; ret (x :: rest)
  end.

(** The mock source of completed trades; a trade is its [profit]. *)
Definition getCompletedTrades : M (list Q) :=
  generate 100 (r <- consult Env.random ;; ret ((r - (45 # 100)) * (100 # 1))%Q).

(** The body of [calculateProfitFactor] once [trades] is known. *)
Definition profitFactorOf (trades : list Q) : Q :=
  let grossProfit := fold_left Qplus (filter (fun profit => Qgtb profit 0) trades) 0 in
  let grossLoss := Qabs (fold_left Qplus (filter (fun profit => Qltb profit 0) trades) 0) in
  if Qgtb grossLoss 0 then (grossProfit / grossLoss)%Q else grossProfit.

Definition calculateProfitFactor : M Q :=
  trades <- getCompletedTrades ;; ret (profitFactorOf trades).

(** The mock source of historical returns. *)
Definition getHistoricalReturns : M (list Q) :=
  generate 30 (r <- consult Env.random ;; ret ((r - (5 # 10)) * (1 # 10))%Q).

(** [Math.sqrt] on a computed number. *)
Definition sqrtNum (sqrt : Q -> Q) (x : num) : num :=
  match x with
  | Fin q => if Qltb q 0 then NaN else Fin (sqrt q)
  | PInf => PInf
  | NInf | NaN => NaN
  end.

(** The body of [calculateSharpeRatio] once [returns] is known. *)
Definition sharpeRatioOf (sqrt : Q -> Q) (returns : list Q) : num :=
  let length := Fin (inject_Z (Z.of_nat (List.length returns))) in
  let avgReturn := div (Fin (fold_left Qplus returns 0)) length in
  let riskFreeRate := div (Fin (2 # 100)) (Fin (365 # 1)) in
  let variance :=
    div (fold_left (fun sum ret =>
                      let deviation := sub (Fin ret) avgReturn in
                      add sum (mul deviation deviation))
                   returns (Fin 0))
        length in
  let stdDev := sqrtNum sqrt variance in
  if gtb stdDev (Fin 0) then div (sub avgReturn riskFreeRate) stdDev else Fin 0.

Definition calculateSharpeRatio : M num :=
  returns <- getHistoricalReturns ;;
  fun env w => (Ok (sharpeRatioOf (Env.sqrt env) returns), w).

(** The body of [calculateWinRate] once [trades] is known. *)
Definition winRateOf (trades : list Q) : Q :=
  if (List.length trades =? 0)%nat then 0
  else
    let wins := List.length (filter (fun profit => Qgtb profit 0) trades) in
    (inject_Z (Z.of_nat wins) / inject_Z (Z.of_nat (List.length trades)))%Q.

Definition calculateWinRate : M Q :=
  trades <- getCompletedTrades ;; ret (winRateOf trades).

(** [returns.sort((a, b) => a - b)]: ascending, equal numbers in their
    original order. *)
Fixpoint insertAscending (x : Q) (sorted : list Q) : list Q :=
  match sorted with
  | [] => [x]
  | y :: rest => if Qleb x y then x :: sorted else y :: insertAscending x rest
  end.

Definition sortAscending (xs : list Q) : list Q :=
  fold_right insertAscending [] xs.

(** [returns[index] || 0]. *)
Definition elementOr0 (xs : list Q) (index : Z) : Q :=
  if (index <? 0)%Z then 0 else Qor (nth_error xs (Z.to_nat index)) 0.

(** The body of [calculateVaR] once [returns] is known. *)
Definition valueAtRiskOf (confidence : Q) (returns : list Q) : Q :=
  let sorted := sortAscending returns in
  let index := Qfloor ((1 - confidence) * inject_Z (Z.of_nat (List.length sorted))) in
  elementOr0 sorted index.

(** [calculateVaR(confidence = 0.95)]. *)
Definition calculateVaR (confidence : option Q) : M Q :=
  let confidence := match confidence with Some c => c | None => 95 # 100 end in
  returns <- getHistoricalReturns ;; ret (valueAtRiskOf confidence returns).

Definition calculateBeta : M Q := ret 1.

(** [pos.value] in [sum + pos.value]: a missing value makes the sum [NaN]. *)
Definition valueOf (position : Position.t) : num :=
  match Position.value position with Some v => Fin v | None => NaN end.

Definition getRiskMetrics : M RiskMetrics.t :=
  openPositions <- getOpenPositions ;;
  let totalExposure := fold_left (fun sum pos => add sum (valueOf pos)) openPositions (Fin 0) in
  accountBalance <- getAccountBalance ;;
  r <- getRisk ;;
  sharpeRatio <- calculateSharpeRatio ;;
  winRate <- calculateWinRate ;;
  profitFactor <- calculateProfitFactor ;;
  valueAtRisk <- calculateVaR None ;;
  beta <- calculateBeta ;;
  ret (RiskMetrics.make
         (Risk.currentDrawdown r)
         (Risk.maxDrawdown r)
         (List.length openPositions)
         (Risk.maxOpenPositions r)
         totalExposure
         (div totalExposure (Fin accountBalance))
         sharpeRatio winRate profitFactor valueAtRisk beta).

Definition updateDrawdown (currentBalance : Q) : W unit :=
  (r <- lift getRisk ;;
   let peakBalance :=
     if Qgtb currentBalance (Risk.peakBalance r) then currentBalance
     else Risk.peakBalance r in
   let currentDrawdown := div (Fin (peakBalance - currentBalance)) (Fin peakBalance) in
   lift (modifyRisk (fun r =>
     Risk.make (Risk.maxPositionSize r) (Risk.maxDrawdown r) (Risk.riskPerTrade r)
               (Risk.maxOpenPositions r) currentDrawdown peakBalance
               (Risk.correlationMatrix r))) ;;
   if gtb currentDrawdown (Fin (Risk.maxDrawdown r * (8 # 10)))
   then logLine WARN (ApproachingMaximumDrawdown currentDrawdown)
   else retW tt)%wide.

(** [Math.floor]. *)
Definition floor (q : Q) : Q := inject_Z (Qfloor q).

Definition adjustRiskParameters (metrics : RiskMetrics.t) : W unit :=
  (r <- lift getRisk ;;
   if gtb (RiskMetrics.currentDrawdown metrics) (Fin (Risk.maxDrawdown r * (5 # 10)))
   then
     lift (modifyRisk (fun r =>
       Risk.make (Risk.maxPositionSize r) (Risk.maxDrawdown r)
                 (Risk.riskPerTrade r * (5 # 10))
                 (Qmax (3 # 1) (floor (Risk.maxOpenPositions r * (5 # 10))))
                 (Risk.currentDrawdown r) (Risk.peakBalance r)
                 (Risk.correlationMatrix r))) ;;
     logLine WARN RiskParametersReduced
   else if Qgtb (RiskMetrics.winRate metrics) (6 # 10)
           && Qgtb (RiskMetrics.profitFactor metrics) (2 # 1)
   then
     lift (modifyRisk (fun r =>
       Risk.make (Risk.maxPositionSize r) (Risk.maxDrawdown r)
                 (Qmin (3 # 100) (Risk.riskPerTrade r * (11 # 10)))
                 (Qmin (15 # 1) (Risk.maxOpenPositions r + 1))
                 (Risk.currentDrawdown r) (Risk.peakBalance r)
                 (Risk.correlationMatrix r))) ;;
     logLine INFO RiskParametersIncreased
   else retW tt)%wide.

End RiskManager.

(* ================================================================== *)
(** * [TradingEngine] *)

Module TradingEngine.

(** [setupTradingPairs]. *)
Definition setupTradingPairs : list string :=
  ["BTC/USDT"; "ETH/USDT"; "BNB/USDT"; "SOL/USDT"; "ADA/USDT";
   "XRP/USDT"; "DOT/USDT"; "DOGE/USDT"; "AVAX/USDT"; "MATIC/USDT"].

(** The object after its constructor. *)
Definition initial : Engine.t := Engine.make false setupTradingPairs [].

Definition setSignalQueue (f : list Signal.t -> list Signal.t) : M unit :=
  modifyEngine (fun e =>
    Engine.make (Engine.isRunning e) (Engine.tradingPairs e) (f (Engine.signalQueue e))).

Definition generateSignalId : M string :=
  now <- dateNow ;;
  suffix <- consult Env.randomSuffix ;;
  ret ("sig_" ++ JsString.ofZ now ++ "_" ++ suffix)%string.

Definition calculateStopLoss (price : Q) (direction : Direction) : Q :=
  let stopLossPercentage := 2 # 100 in
  match direction with
  | up => (price * (1 - stopLossPercentage))%Q
  | _ => (price * (1 + stopLossPercentage))%Q
  end.

Definition calculateTakeProfit (price : Q) (direction : Direction) : Q :=
  let takeProfitPercentage := 5 # 100 in
  match direction with
  | up => (price * (1 + takeProfitPercentage))%Q
  | _ => (price * (1 - takeProfitPercentage))%Q
  end.

Definition analyzeSignal (pair : string) (prediction : Prediction.t)
    (marketData : MarketData.t) : M (option Signal.t) :=
  let confidence := Prediction.confidence prediction in
  let direction := Prediction.direction prediction in
  let predictedPrice := Prediction.predictedPrice prediction in
  let timeframe := Prediction.timeframe prediction in
  let confidenceThreshold := 65 # 100 in
  if Qltb confidence confidenceThreshold then ret None
  else
    let currentPrice := MarketData.price marketData in
    let priceChange :=
      mul (div (Fin (predictedPrice - currentPrice)) (Fin currentPrice)) (Fin (100 # 1)) in
    if ltb (abs priceChange) (Fin 1) then ret None
    else
      id <- generateSignalId ;;
      timestamp <- dateNow ;;
      ret (Some (Signal.make
        id
        pair
        (match direction with up => BUY | _ => SELL end)
        currentPrice
        predictedPrice
        (calculateStopLoss currentPrice direction)
        (calculateTakeProfit currentPrice direction)
        confidence
        timeframe
        timestamp
        (Some (Metadata.make
           (Some priceChange)
           (Some (MarketData.volume marketData))
           (Some (MarketData.volatility marketData))
           (match MarketData.indicators marketData with
            | Some indicators => Indicators.rsi indicators
            | None => None
            end)
           (match MarketData.indicators marketData with
            | Some indicators => Indicators.macd indicators
            | None => None
            end))))).

(** An awaited call to a collaborator that answers or throws. *)
Definition await {A : Type} (collaborator : string) (oracle : Env.t -> nat -> option A) : M A :=
  answer <- consult oracle ;;
  match answer with
  | Some a => ret a
  | None => throw (Rejected collaborator)
  end.

(** The body of the loop of [runPredictionCycle]. *)
Definition predictPair (pair : string) : M unit :=
  tryCatch
    (marketData <- await "dataFeedManager" (fun env n => Env.getMarketData env n pair) ;;
     prediction <- await "neuralPredictor" (fun env n => Env.predict env n marketData) ;;
     signal <- analyzeSignal pair prediction marketData ;;
     match signal with
     | Some signal =>
         validated <- RiskManager.validateSignal signal ;;
         if validated then
           setSignalQueue (fun queue => queue ++ [signal]) ;;
           emit (SignalGenerated signal) ;;
           log INFO (NewTradingSignal pair (Signal.action signal))
         else ret tt
     | None => ret tt
     end)
    (fun e => log ERROR (ErrorInPredictionCycle pair e)).

Definition runPredictionCycle : M unit :=
  e <- getEngine ;;
  if negb (Engine.isRunning e) then ret tt
  else
    log DEBUG RunningPredictionCycle ;;
    forEach predictPair (Engine.tradingPairs e).

(** [this.exchangeManager.getExchange('binance')] followed by
    [exchange.createOrder(...)].  The journal records the call as the engine
    makes it.  The answer [None] of the outside world stands for whatever
    makes the call throw: the venue refuses the order, or no exchange is
    registered under the name, in which case [getExchange] throws and
    nothing reaches a venue.  An answer [Some order] is the answer of a
    registered exchange. *)
Definition createOrder (call : VenueCall.t) : M Order.t :=
  record (Venue call) ;;
  await "exchange" (fun env n => Env.createOrder env n call).

(** [signal.action === 'BUY' ? 'sell' : 'buy']. *)
Definition closingSide (action : Action) : string :=
  match action with BUY => "sell" | SELL => "buy" end.

(** [signal.action.toLowerCase()]. *)
Definition openingSide (action : Action) : string :=
  match action with BUY => "buy" | SELL => "sell" end.

Definition setProtectionOrders (signal : Signal.t) (amount : num) (orderId : string) : M unit :=
  tryCatch
    (createOrder (VenueCall.make (Signal.symbol signal) "stop_loss"
                    (closingSide (Signal.action signal)) amount
                    (Some (Signal.stopLoss signal)) (Some (Signal.stopLoss signal))) ;;
     createOrder (VenueCall.make (Signal.symbol signal) "take_profit"
                    (closingSide (Signal.action signal)) amount
                    (Some (Signal.takeProfit signal)) (Some (Signal.takeProfit signal))) ;;
     log DEBUG (ProtectionOrdersSet (Signal.symbol signal)))
    (fun e => log ERROR (FailedToSetProtectionOrders e)).

Definition executeOrder (signal : Signal.t) (amount : num) : M (option Order.t) :=
  tryCatch
    (order <- createOrder (VenueCall.make (Signal.symbol signal) "limit"
                             (openingSide (Signal.action signal)) amount
                             (Some (Signal.price signal)) None) ;;
     (if negb (String.eqb (Order.id order) "")
      then setProtectionOrders signal amount (Order.id order)
      else ret tt) ;;
     ret (Some order))
    (fun e => log ERROR (OrderExecutionFailed e) ;; ret None).

(** Whether [Date.now() - signal.timestamp > 300000]. *)
Definition expired (now : Z) (signal : Signal.t) : bool :=
  (now - Signal.timestamp signal >? 300000)%Z.

(** The body of the loop of [executeSignals] for the dequeued [signal]. *)
Definition executeSignal (signal : Signal.t) : M unit :=
  tryCatch
    (now <- dateNow ;;
     if expired now signal then
       log WARN (SignalExpired (Signal.symbol signal))
     else
       positionSize <- RiskManager.calculatePositionSize signal ;;
       if eqb positionSize (Fin 0) then
         log WARN (PositionSizeIsZero (Signal.symbol signal))
       else
         order <- executeOrder signal positionSize ;;
         match order with
         | Some order =>
             timestamp <- dateNow ;;
             PortfolioManager.addPosition
               (Position.make (Order.id order) (Signal.symbol signal)
                  (actionName (Signal.action signal))
                  (Order.price order) (Order.amount order)
                  None None None None
                  (Some (Signal.stopLoss signal)) (Some (Signal.takeProfit signal))
                  (Some timestamp)) ;;
             log INFO (OrderExecutedLine (Signal.symbol signal) (Order.id order)) ;;
             emit (OrderExecuted order)
         | None => ret tt
         end)
    (fun e => log ERROR (ErrorExecutingSignal (Signal.symbol signal) e)).

(** The [while] loop of [executeSignals]: each turn shifts the head of the
    queue and runs the body, which never touches the queue. *)
Fixpoint drain (queue : list Signal.t) : M unit :=
  match queue with
  | [] => ret tt
  | signal :: rest =>
      setSignalQueue (fun _ => rest) ;;
      executeSignal signal ;;
      drain rest
  end.

Definition executeSignals : M unit :=
  e <- getEngine ;;
  if negb (Engine.isRunning e) || (List.length (Engine.signalQueue e) =? 0)%nat
  then ret tt
  else
    log DEBUG (ExecutingSignals (List.length (Engine.signalQueue e))) ;;
    drain (Engine.signalQueue e).

(** [position.side === 'BUY' ? 'sell' : 'buy']. *)
Definition liquidationSide (position : Position.t) : string :=
  if Position.isBuy position then "sell" else "buy".

(** The engine's own [closePosition(position)]. *)
Definition closePosition (position : Position.t) : W unit :=
  (lift (createOrder (VenueCall.make (Position.symbol position) "market"
                        (liquidationSide position) (Fin (Position.quantity position))
                        None None)) ;;
   lift (PortfolioManager.closePosition (Position.id position) None) ;;
   logLine INFO (PositionClosedByEngine (Position.id position)))%wide.

Definition closeAllPositions : W unit :=
  (positions <- lift PortfolioManager.getOpenPositions ;;
   forEachW (fun position =>
               tryCatchW (closePosition position)
                         (fun e => logLine ERROR
                                     (FailedToClosePosition (Position.id position) e)))
            positions)%wide.

Definition setRunning (running : bool) : M unit :=
  modifyEngine (fun e =>
    Engine.make running (Engine.tradingPairs e) (Engine.signalQueue e)).

(** [start()]: the two tasks are scheduled, and one prediction cycle is
    run at once. *)
Definition start : W unit :=
  (e <- lift getEngine ;;
   if Engine.isRunning e then logLine WARN EngineAlreadyRunning
   else
     logLine INFO StartingEngine ;;
     lift (setRunning true) ;;
     setTasks (fun _ => Some Scheduled) (fun task => task) ;;
     setTasks (fun task => task) (fun _ => Some Scheduled) ;;
     lift runPredictionCycle ;;
     logLine INFO EngineStarted)%wide.

(** [task.stop()] on a task that exists. *)
Definition halt (task : option Task) : option Task :=
  match task with Some _ => Some Halted | None => None end.

Definition stop : W unit :=
  (e <- lift getEngine ;;
   if negb (Engine.isRunning e) then logLine WARN EngineNotRunning
   else
     logLine INFO StoppingEngine ;;
     lift (setRunning false) ;;
     setTasks halt (fun task => task) ;;
     setTasks (fun task => task) halt ;;
     closeAllPositions ;;
     logLine INFO EngineStopped)%wide.

(** The object returned by [getStatus]. *)
Record Status : Type := makeStatus {
  statusIsRunning : bool;
  statusTradingPairs : list string;
  pendingSignals : nat;
  openPositions : list Position.t;
  performance : Metrics.t
}.

Definition getStatus : M Status :=
  e <- getEngine ;;
  positions <- PortfolioManager.getOpenPositions ;;
  metrics <- PortfolioManager.getPerformanceMetrics ;;
  ret (makeStatus (Engine.isRunning e) (Engine.tradingPairs e)
                  (List.length (Engine.signalQueue e)) positions metrics).

End TradingEngine.

(* ================================================================== *)
(** * Binary64: the arithmetic of the machine

    A JavaScript [number] is an IEEE 754 binary64 float: [+], [-], [*] and
    [/] return the float nearest to their exact result.  Rocq's primitive
    floats are binary64 and compute in the same way.  This module
    transcribes on them the methods whose properties depend on rounding or
    on overflow: the position lifecycle of the ledger and the Kelly
    fraction. *)

Module Binary64.

(** The smallest positive normal float.  From it upwards a float carries
    53 significant bits. *)
Definition smallestNormal : Q := Qpower 2 (-1022).

(** The value of a float; [None] for [NaN] and the infinities. *)
Definition value (x : float) : option Q :=
  match Prim2SF x with
  | S754_zero _ => Some 0%Q
  | S754_finite negative m e =>
      Some ((if negative then Zneg m # 1 else Zpos m # 1) * Qpower 2 e)%Q
  | S754_infinity _ => None
  | S754_nan => None
  end.

(** Truthiness: [NaN] and the zeros are falsy. *)
Definition truthy (x : float) : bool :=
  negb (PrimFloat.is_nan x || PrimFloat.is_zero x).

(** [x || d] on a number that may be [undefined]. *)
Definition orElse (x : option float) (d : float) : float :=
  match x with
  | Some v => if truthy v then v else d
  | None => d
  end.

(** [Math.max(a, b)] and [Math.min(a, b)]. *)
Definition max (a b : float) : float :=
  if PrimFloat.is_nan a || PrimFloat.is_nan b then PrimFloat.nan
  else if (a <? b)%float then b else a.
Definition min (a b : float) : float :=
  if PrimFloat.is_nan a || PrimFloat.is_nan b then PrimFloat.nan
  else if (b <? a)%float then b else a.

(** The properties of a position that the lifecycle reads. *)
Module Position.
Record t : Type := make {
  id : string;
  symbol : string;
  side : string;
  entryPrice : float;
  quantity : float;
  currentPrice : option float
}.
Definition isBuy (position : t) : bool := String.eqb (side position) "BUY".
End Position.

(** The record that [closePosition] hands to [recordPerformance], without
    its timestamp. *)
Module Trade.
Record t : Type := make {
  positionId : string;
  symbol : string;
  side : string;
  entryPrice : float;
  exitPrice : float;
  quantity : float;
  pnl : float
}.
End Trade.

(** The fields of [PortfolioManager]. *)
Module Ledger.
Record t : Type := make {
  positions : JsMap.t string Position.t;
  balance : JsMap.t (option string) float;
  performanceHistory : list Trade.t
}.
End Ledger.

(** The position lifecycle of [PortfolioManager].  What a method writes
    to the database, emits and logs is left out: it comes after the updates
    of the fields and leaves them as they are, also when the database
    rejects the write. *)
Module PortfolioManager.

Definition initializeBalance : JsMap.t (option string) float :=
  JsMap.set (Some "ETH") 0%float
    (JsMap.set (Some "BTC") 0%float
      (JsMap.set (Some "USDT") 10000%float JsMap.empty)).

(** The object after its constructor. *)
Definition initial : Ledger.t :=
  Ledger.make JsMap.empty initializeBalance [].

Definition calculatePnL (position : Position.t) (currentPrice : float) : float :=
  let diff := (currentPrice - Position.entryPrice position)%float in
  if Position.isBuy position
  then (diff * Position.quantity position)%float
  else (- diff * Position.quantity position)%float.

Definition addPosition (position : Position.t) (l : Ledger.t) : Ledger.t :=
  let positions := JsMap.set (Position.id position) position (Ledger.positions l) in
  let base := JsString.baseOf (Position.symbol position) in
  let quote := JsString.quoteOf (Position.symbol position) in
  let currentQuote := orElse (JsMap.get quote (Ledger.balance l)) 0%float in
  let cost := (Position.entryPrice position * Position.quantity position)%float in
  let balance :=
    if Position.isBuy position then
      let balance := JsMap.set quote (currentQuote - cost)%float (Ledger.balance l) in
      let currentBase := orElse (JsMap.get base balance) 0%float in
      JsMap.set base (currentBase + Position.quantity position)%float balance
    else
      let currentBase := orElse (JsMap.get base (Ledger.balance l)) 0%float in
      let balance :=
        JsMap.set base (currentBase - Position.quantity position)%float (Ledger.balance l) in
      JsMap.set quote (currentQuote + cost)%float balance in
  Ledger.make positions balance (Ledger.performanceHistory l).

Definition recordPerformance (trade : Trade.t) (history : list Trade.t) : list Trade.t :=
  let pushed := history ++ [trade] in
  if (1000 <? List.length pushed)%nat then tl pushed else pushed.

(** [closePosition] on an unknown id throws before it has changed
    anything. *)
Definition closePosition (positionId : string) (exitPrice : option float) (l : Ledger.t)
    : Ledger.t :=
  match JsMap.get positionId (Ledger.positions l) with
  | None => l
  | Some position =>
      let price :=
        orElse exitPrice
               (orElse (Position.currentPrice position) (Position.entryPrice position)) in
      let pnl := calculatePnL position price in
      let base := JsString.baseOf (Position.symbol position) in
      let quote := JsString.quoteOf (Position.symbol position) in
      let proceeds := (price * Position.quantity position)%float in
      let currentBase := orElse (JsMap.get base (Ledger.balance l)) 0%float in
      let balance :=
        if Position.isBuy position then
          let balance :=
            JsMap.set base (currentBase - Position.quantity position)%float
                      (Ledger.balance l) in
          let currentQuote := orElse (JsMap.get quote balance) 0%float in
          JsMap.set quote (currentQuote + proceeds)%float balance
        else
          let balance :=
            JsMap.set base (currentBase + Position.quantity position)%float
                      (Ledger.balance l) in
          let currentQuote := orElse (JsMap.get quote balance) 0%float in
          JsMap.set quote (currentQuote - proceeds)%float balance in
      Ledger.make
        (JsMap.delete positionId (Ledger.positions l))
        balance
        (recordPerformance
           (Trade.make positionId (Position.symbol position) (Position.side position)
                       (Position.entryPrice position) price (Position.quantity position)
                       pnl)
           (Ledger.performanceHistory l))
  end.

(** The body of the loop of [getTotalValue]. *)
Definition addValue (prices : JsMap.t string float) (total : float)
    (entry : option string * float) : float :=
  let (asset, amount) := entry in
  if key_eqb asset (Some "USDT") || key_eqb asset (Some "USD")
  then (total + amount)%float
  else
    let price :=
      orElse (JsMap.get (JsObject.propertyKey asset ++ "/USDT")%string prices) 0%float in
    (total + amount * price)%float.

Definition getTotalValue (prices : JsMap.t string float) (l : Ledger.t) : float :=
  fold_left (addValue prices) (Ledger.balance l) 0%float.

End PortfolioManager.

(** The Kelly fraction of [RiskManager], on the four properties of the
    signal that it reads. *)
Module RiskManager.

Definition calculateKellyFraction (confidence price targetPrice stopLoss : float) : float :=
  let winProbability := confidence in
  let lossProbability := (1 - winProbability)%float in
  let winAmount := PrimFloat.abs (targetPrice - price)%float in
  let lossAmount := PrimFloat.abs (price - stopLoss)%float in
  let odds := (winAmount / lossAmount)%float in
  let kellyFraction := ((winProbability * odds - lossProbability) / odds)%float in
  max 0%float (kellyFraction * 0.25)%float.

(** The factor [Math.min(kellyFraction, 0.25)] of [calculatePositionSize]. *)
Definition kellyMultiplier (kellyFraction : float) : float :=
  min kellyFraction 0.25%float.

End RiskManager.

(** Bookkeeping for the conservation property: the operations of the
    lifecycle are run and the balance of the quote asset is observed. *)
Module Audit.

Inductive Op : Type :=
| Open (position : Position.t)
| Close (positionId : string) (exitPrice : option float).

Definition perform (op : Op) (l : Ledger.t) : Ledger.t :=
  match op with
  | Open position => PortfolioManager.addPosition position l
  | Close positionId exitPrice => PortfolioManager.closePosition positionId exitPrice l
  end.

(** The balance of [asset] as the ledger reads it. *)
Definition balanceOf (asset : option string) (l : Ledger.t) : float :=
  orElse (JsMap.get asset (Ledger.balance l)) 0%float.

(** The change of the balance of [asset] between two states, when both
    balances are numbers. *)
Definition change (asset : option string) (before after : Ledger.t) : option Q :=
  match value (balanceOf asset before), value (balanceOf asset after) with
  | Some b, Some a => Some (a - b)%Q
  | _, _ => None
  end.

(** The sum of two observed changes. *)
Definition plus (a b : option Q) : option Q :=
  match a, b with
  | Some x, Some y => Some (x + y)%Q
  | _, _ => None
  end.

(** What the audit remembers: for every open position, the change of its
    quote balance observed when it was opened; and, for every record of
    the closed-trade history, the sum of the changes of the quote balance
    observed at the opening and at the closing of its position. *)
Record t : Type := make {
  opened : JsMap.t string (option Q);
  attributed : list (option Q)
}.

Definition empty : t := make JsMap.empty [].

(** The history keeps its last 1000 records; so does the audit. *)
Definition pushBounded (x : option Q) (xs : list (option Q)) : list (option Q) :=
  let pushed := xs ++ [x] in
  if (1000 <? List.length pushed)%nat then tl pushed else pushed.

(** One operation, observed. *)
Definition step (state : Ledger.t * t) (op : Op) : Ledger.t * t :=
  let (l, audit) := state in
  let l' := perform op l in
  match op with
  | Open position =>
      let quote := JsString.quoteOf (Position.symbol position) in
      (l', make (JsMap.set (Position.id position) (change quote l l') (opened audit))
                (attributed audit))
  | Close positionId _ =>
      match JsMap.get positionId (Ledger.positions l) with
      | Some position =>
          let quote := JsString.quoteOf (Position.symbol position) in
          let atOpening :=
            match JsMap.get positionId (opened audit) with
            | Some c => c
            | None => Some 0%Q
            end in
          (l', make (JsMap.delete positionId (opened audit))
                    (pushBounded (plus atOpening (change quote l l')) (attributed audit)))
      | None => (l', audit)
      end
  end.

Definition run (ops : list Op) (l : Ledger.t) : Ledger.t * t :=
  fold_left step ops (l, empty).

(** The positions opened by a sequence trade two different assets. *)
Definition tradesTwoAssets (op : Op) : Prop :=
  match op with
  | Open position =>
      JsString.baseOf (Position.symbol position) <> JsString.quoteOf (Position.symbol position)
  | Close _ _ => True
  end.

(** [result], computed from [x] and [y], is the exact [op] of their
    values: the three are numbers and nothing was rounded. *)
Definition exact (op : Q -> Q -> Q) (x y result : float) : bool :=
  match value x, value y, value result with
  | Some a, Some b, Some r => Qeq_bool r (op a b)
  | _, _, _ => false
  end.

(** The operations by which [addPosition] moves the quote balance are
    exact. *)
Definition exactOpening (l : Ledger.t) (position : Position.t) : bool :=
  let quote := JsString.quoteOf (Position.symbol position) in
  let currentQuote := balanceOf quote l in
  let cost := (Position.entryPrice position * Position.quantity position)%float in
  exact Qmult (Position.entryPrice position) (Position.quantity position) cost
  && (if Position.isBuy position
      then exact Qminus currentQuote cost (currentQuote - cost)%float
      else exact Qplus currentQuote cost (currentQuote + cost)%float).

(** The operations of [calculatePnL] are exact. *)
Definition exactProfit (position : Position.t) (currentPrice : float) : bool :=
  let diff := (currentPrice - Position.entryPrice position)%float in
  exact Qminus currentPrice (Position.entryPrice position) diff
  && (if Position.isBuy position
      then exact Qmult diff (Position.quantity position)
                 (diff * Position.quantity position)%float
      else exact Qminus 0%float diff (- diff)%float
           && exact Qmult (- diff)%float (Position.quantity position)
                    (- diff * Position.quantity position)%float).

(** The operations by which [closePosition] computes the profit and moves
    the quote balance are exact. *)
Definition exactClosing (l : Ledger.t) (position : Position.t) (exitPrice : option float)
    : bool :=
  let price :=
    orElse exitPrice
           (orElse (Position.currentPrice position) (Position.entryPrice position)) in
  let base := JsString.baseOf (Position.symbol position) in
  let quote := JsString.quoteOf (Position.symbol position) in
  let proceeds := (price * Position.quantity position)%float in
  let currentBase := balanceOf base l in
  let currentQuote :=
    orElse (JsMap.get quote
              (JsMap.set base
                 (if Position.isBuy position
                  then (currentBase - Position.quantity position)%float
                  else (currentBase + Position.quantity position)%float)
                 (Ledger.balance l))) 0%float in
  exactProfit position price
  && exact Qmult price (Position.quantity position) proceeds
  && (if Position.isBuy position
      then exact Qplus currentQuote proceeds (currentQuote + proceeds)%float
      else exact Qminus currentQuote proceeds (currentQuote - proceeds)%float).

(** The operation by which [addPosition] moves the base balance is
    exact. *)
Definition exactDelivery (l : Ledger.t) (position : Position.t) : bool :=
  let base := JsString.baseOf (Position.symbol position) in
  let quote := JsString.quoteOf (Position.symbol position) in
  let currentQuote := balanceOf quote l in
  let cost := (Position.entryPrice position * Position.quantity position)%float in
  if Position.isBuy position then
    let currentBase :=
      orElse (JsMap.get base (JsMap.set quote (currentQuote - cost)%float
                                        (Ledger.balance l))) 0%float in
    exact Qplus currentBase (Position.quantity position)
          (currentBase + Position.quantity position)%float
  else
    let currentBase := balanceOf base l in
    exact Qminus currentBase (Position.quantity position)
          (currentBase - Position.quantity position)%float.

(** The operations of [getTotalValue] on the balance map [balance], from
    the running [total], are exact. *)
Fixpoint exactValuation (prices : JsMap.t string float)
    (balance : JsMap.t (option string) float) (total : float) : bool :=
  match balance with
  | [] => true
  | (asset, amount) :: rest =>
      (if key_eqb asset (Some "USDT") || key_eqb asset (Some "USD")
       then exact Qplus total amount (total + amount)%float
       else
         let price :=
           orElse (JsMap.get (JsObject.propertyKey asset ++ "/USDT")%string prices)
                  0%float in
         exact Qmult amount price (amount * price)%float
         && exact Qplus total (amount * price)%float (total + amount * price)%float)
      && exactValuation prices rest (PortfolioManager.addValue prices total (asset, amount))
  end.

(** The value of a float, 0 for what is not a number. *)
Definition valueOr0 (x : float) : Q :=
  match value x with Some q => q | None => 0%Q end.

(** The weight of an asset in the total value: 1 for a stable asset, its
    price otherwise. *)
Definition weight (prices : JsMap.t string float) (asset : option string) : Q :=
  if key_eqb asset (Some "USDT") || key_eqb asset (Some "USD") then 1%Q
  else valueOr0
         (orElse (JsMap.get (JsObject.propertyKey asset ++ "/USDT")%string prices) 0%float).

(** The balances, weighted. *)
Fixpoint worth (prices : JsMap.t string float) (balance : JsMap.t (option string) float)
    : Q :=
  match balance with
  | [] => 0%Q
  | (asset, amount) :: rest => (valueOr0 amount * weight prices asset + worth prices rest)%Q
  end.

Definition exactOp (l : Ledger.t) (op : Op) : bool :=
  match op with
  | Open position => exactOpening l position
  | Close positionId exitPrice =>
      match JsMap.get positionId (Ledger.positions l) with
      | Some position => exactClosing l position exitPrice
      | None => true
      end
  end.

(** No operation of the sequence rounds where the profit or a quote
    balance is computed. *)
Fixpoint roundsNowhere (ops : list Op) (l : Ledger.t) : bool :=
  match ops with
  | [] => true
  | op :: rest => exactOp l op && roundsNowhere rest (perform op l)
  end.

(** The profit of [trade] is the number [c]. *)
Definition conserved (trade : Trade.t) (c : option Q) : Prop :=
  match value (Trade.pnl trade), c with
  | Some pnl, Some x => (pnl == x)%Q
  | _, _ => False
  end.

(** The sum of the recorded profits, and of the observed changes. *)
Definition sumPnl (history : list Trade.t) : option Q :=
  fold_left (fun sum trade => plus sum (value (Trade.pnl trade))) history (Some 0%Q).
Definition total (changes : list (option Q)) : option Q :=
  fold_left plus changes (Some 0%Q).

(** Two sums are the same number. *)
Definition same (a b : option Q) : Prop :=
  match a, b with
  | Some x, Some y => (x == y)%Q
  | _, _ => False
  end.

(** The change of its quote balance that opening [position] stands for:
    the cost is paid by a buy and received by a sell. *)
Definition openingChange (position : Position.t) (c : Q) : Prop :=
  exists entryPrice quantity : Q,
    value (Position.entryPrice position) = Some entryPrice
    /\ value (Position.quantity position) = Some quantity
    /\ (c == if Position.isBuy position
             then - (entryPrice * quantity) else entryPrice * quantity)%Q.

(** The invariant of an audited run. *)
Definition consistent (state : Ledger.t * t) : Prop :=
  let (l, audit) := state in
  JsMap.wf (Ledger.positions l)
  /\ (forall (key : string) (position : Position.t),
        JsMap.get key (Ledger.positions l) = Some position ->
        JsString.baseOf (Position.symbol position)
          <> JsString.quoteOf (Position.symbol position)
        /\ exists c : Q, JsMap.get key (opened audit) = Some (Some c)
                         /\ openingChange position c)
  /\ Forall2 conserved (Ledger.performanceHistory l) (attributed audit).

End Audit.

End Binary64.

(* ================================================================== *)
(** * Bookkeeping for the conservation property, in the exact embedding

    Specification-level definitions: they run the ledger's own methods
    and observe its balance map, and add nothing to the embedding. *)

Module Audit.

(** An operation of the ledger's position lifecycle. *)
Inductive Op : Type :=
| Open (position : Position.t)
| Close (positionId : string) (exitPrice : option Q).

Definition perform (op : Op) : M unit :=
  match op with
  | Open position => PortfolioManager.addPosition position
  | Close positionId exitPrice => PortfolioManager.closePosition positionId exitPrice
  end.

(** The balance of [asset] as the ledger reads it. *)
Definition balanceOf (asset : option string) (w : World.t) : Q :=
  Qor (JsMap.get asset (Ledger.balance (World.portfolioManager w))) 0.

(** The change of the balance of [asset] between two states. *)
Definition change (asset : option string) (before after : World.t) : Q :=
  (balanceOf asset after - balanceOf asset before)%Q.

(** What the audit remembers: for every open position, the change of its
    quote balance observed when it was opened; and, for every record of
    the closed-trade history, the sum of the changes of the quote balance
    observed at the opening and at the closing of its position. *)
Record t : Type := make {
  opened : JsMap.t string Q;
  attributed : list Q
}.

Definition empty : t := make JsMap.empty [].

(** The history keeps its last 1000 records; so does the audit. *)
Definition pushBounded (x : Q) (xs : list Q) : list Q :=
  let pushed := xs ++ [x] in
  if (1000 <? List.length pushed)%nat then tl pushed else pushed.

(** One operation, observed.  A method that throws is caught by its
    caller and the sequence goes on. *)
Definition step (env : Env.t) (state : World.t * t) (op : Op) : World.t * t :=
  let (w, audit) := state in
  let w' := snd (perform op env w) in
  match op with
  | Open position =>
      let quote := JsString.quoteOf (Position.symbol position) in
      (w', make (JsMap.set (Position.id position) (change quote w w') (opened audit))
                (attributed audit))
  | Close positionId _ =>
      match JsMap.get positionId (Ledger.positions (World.portfolioManager w)) with
      | Some position =>
          let quote := JsString.quoteOf (Position.symbol position) in
          let atOpening :=
            match JsMap.get positionId (opened audit) with Some c => c | None => 0 end in
          (w', make (JsMap.delete positionId (opened audit))
                    (pushBounded (atOpening + change quote w w')%Q (attributed audit)))
      | None => (w', audit)
      end
  end.

Definition run (env : Env.t) (ops : list Op) (w : World.t) : World.t * t :=
  fold_left (step env) ops (w, empty).

(** The positions opened by a sequence trade two different assets. *)
Definition tradesTwoAssets (op : Op) : Prop :=
  match op with
  | Open position =>
      JsString.baseOf (Position.symbol position) <> JsString.quoteOf (Position.symbol position)
  | Close _ _ => True
  end.

(** The sum of a list of changes. *)
Definition total (xs : list Q) : Q := fold_left Qplus xs 0.

(** The change of its quote balance that opening [position] stands for:
    the cost is paid by a buy and received by a sell. *)
Definition openingChange (position : Position.t) : Q :=
  let cost := (Position.entryPrice position * Position.quantity position)%Q in
  if Position.isBuy position then (- cost)%Q else cost.

(** The invariant of an audited run. *)
Definition consistent (state : World.t * t) : Prop :=
  let (w, audit) := state in
  JsMap.wf (Ledger.positions (World.portfolioManager w))
  /\ (forall (key : string) (position : Position.t),
        JsMap.get key (Ledger.positions (World.portfolioManager w)) = Some position ->
        JsString.baseOf (Position.symbol position)
          <> JsString.quoteOf (Position.symbol position)
        /\ exists c : Q, JsMap.get key (opened audit) = Some c
                         /\ (c == openingChange position)%Q)
  /\ Forall2 (fun trade c => (Trade.pnl trade == c)%Q)
             (Ledger.performanceHistory (World.portfolioManager w)) (attributed audit).

End Audit.

(* ================================================================== *)
(** * Sessions: sequences of calls to the ledger

    Specification-level definitions, as [Audit] is: they run the ledger's
    own methods. *)

Module Session.

(** A call to one of the methods of the ledger that change it. *)
Inductive Op : Type :=
| Add (position : Position.t)
| Update (positionId : string) (updates : Position.partial)
| Close (positionId : string) (exitPrice : option Q)
| Prices (prices : JsMap.t string Q)
| Import (data : PortfolioData.t).

Definition perform (op : Op) : M unit :=
  match op with
  | Add position => PortfolioManager.addPosition position
  | Update positionId updates => PortfolioManager.updatePosition positionId updates
  | Close positionId exitPrice => PortfolioManager.closePosition positionId exitPrice
  | Prices prices => PortfolioManager.updatePrices prices
  | Import data => PortfolioManager.importPortfolio data
  end.

(** The history that [data] carries. *)
Definition imported (data : PortfolioData.t) : list Trade.t :=
  match PortfolioData.recentTrades data with
  | Some trades => trades
  | None => []
  end.

(** A call of [importPortfolio] carries at most 1000 closed trades. *)
Definition importsWithinBound (op : Op) : Prop :=
  match op with
  | Import data => (List.length (imported data) <= 1000)%nat
  | _ => True
  end.

(** The calls made one after the other by a caller that catches what a
    call throws and goes on. *)
Definition run (env : Env.t) (ops : list Op) (w : World.t) : World.t :=
  fold_left (fun w op => snd (perform op env w)) ops w.

End Session.

(** Well-formedness of a ledger for the export/import round trip. *)
Module Wellformed.

(** Every position is stored under its own [id], once. *)
Definition positions (l : Ledger.t) : Prop :=
  JsMap.wf (Ledger.positions l)
  /\ Forall (fun entry => Position.id (snd entry) = fst entry) (Ledger.positions l).

(** Every balance is stored, once, under an asset name that is not an
    array index. *)
Definition balance (l : Ledger.t) : Prop :=
  JsMap.wf (Ledger.balance l)
  /\ Forall (fun entry => exists asset, fst entry = Some asset
                                      /\ JsString.arrayIndex asset = None)
            (Ledger.balance l).

End Wellformed.

(* ================================================================== *)
(** * The position size as the specification words it

    Position sizing, section 4.2: the risk amount is the account balance
    times the risk per trade; the base size is the risk amount divided by
    the distance to the stop; it is multiplied by the smaller of the Kelly
    fraction and 0.25, then by the volatility multiplier, capped at the
    maximum position size, set to 0 below the minimum size of 10, and
    rounded to two decimals. *)


(* ================================================================== *)
(** * Scenarios: concrete worlds on which the properties are exercised *)

Module Scenario.

(** The risk parameters of a configuration that sets none of them. *)
Definition defaults : Risk.t :=
  RiskManager.loadRiskParameters (RiskManager.Config.make None None None None).

(** The three objects after their constructors, the engine started. *)
Definition started : World.t :=
  World.make PortfolioManager.initial defaults
             (Engine.make true TradingEngine.setupTradingPairs []) 0 [].

(** A started world whose ledger holds the single open position [p] and
    the closed trades [history]. *)
Definition holding (p : Position.t) (history : list Trade.t) : World.t :=
  World.make (Ledger.make [(Position.id p, p)] PortfolioManager.initializeBalance history)
             defaults (Engine.make true TradingEngine.setupTradingPairs []) 0 [].

(** A short position on BTC/USDT entered at 100, with the protective
    levels that the engine computes for a sell: stop 102, target 95. *)
Definition shortBtc : Position.t :=
  Position.make "p1" "BTC/USDT" "SELL" (100 # 1) 1 None None None None
                (Some (102 # 1)) (Some (95 # 1)) (Some 1700000000000%Z).

(** A long position on BTC/USDT entered at 100: stop 98, target 105. *)
Definition longBtc : Position.t :=
  Position.make "p1" "BTC/USDT" "BUY" (100 # 1) 1 None None None None
                (Some (98 # 1)) (Some (105 # 1)) (Some 1700000000000%Z).

Definition btcMarket : MarketData.t :=
  MarketData.make "BTC/USDT" (100 # 1) (1000 # 1) (5 # 100) 1700000000000%Z None.

(** The amount of an order as the venue reports it back. *)
Definition filled (amount : num) : Q :=
  match amount with Fin q => q | _ => 0 end.

(** An outside world in which time advances by one second per reading,
    the database never rejects, the venue answers every order as the paper
    exchange of [ExchangeManager] does, the feed knows BTC/USDT only, and
    the predictor answers [direction] with confidence 0.8 and the price
    [predictedPrice]. *)
Definition outside (direction : Direction) (predictedPrice : Q) : Env.t :=
  Env.make
    (fun n => 1700000000000 + 1000 * Z.of_nat n)%Z
    (fun _ _ => false)
    (fun n call =>
       Some (Order.make ("paper_" ++ JsString.ofZ (Z.of_nat n))%string
                        (VenueCall.symbol call) (VenueCall.type call) (VenueCall.side call)
                        (Qor (VenueCall.price call) 0) (filled (VenueCall.amount call))
                        (if String.eqb (VenueCall.type call) "market" then "closed" else "open")
                        1700000000000%Z))
    (fun _ pair => if String.eqb pair "BTC/USDT" then Some btcMarket else None)
    (fun _ _ => Some (Prediction.make (8 # 10) direction predictedPrice "1h" 1700000000000%Z))
    (fun _ => "k3j9x2m1q")
    (fun _ => 1 # 2)
    (fun q => q).

Definition calm : Env.t := outside up (105 # 1).

(** A buy signal on BTC/USDT at 100 with target 105 and stop 98, issued
    at [timestamp]. *)
Definition buyBtc (timestamp : Z) : Signal.t :=
  Signal.make "sig_1" "BTC/USDT" BUY (100 # 1) (105 # 1) (98 # 1) (105 # 1)
              (8 # 10) "1h" timestamp None.

(** The same signal, issued 1000 seconds before the first clock reading. *)
Definition staleSignal : Signal.t := buyBtc 1699999000000%Z.

(** A short position whose symbol names the same asset twice. *)
Definition sameAsset : Position.t :=
  Position.make "x1" "USDT/USDT" "SELL" 1 (5 # 1) None None None None None None
                (Some 1700000000000%Z).

(** Opening that position and closing it at its entry price. *)
Definition sameAssetRun : World.t * Audit.t :=
  Audit.run calm [Audit.Open sameAsset; Audit.Close "x1" None] started.

(** A long and a short position opened, the long one closed at 110 and
    the short one at 90. *)
Definition roundTrips : list Audit.Op :=
  [Audit.Open longBtc;
   Audit.Open (Position.make "p2" "ETH/USDT" "SELL" (100 # 1) (2 # 1) None None None None
                             None None (Some 1700000000000%Z));
   Audit.Close "p1" (Some (110 # 1));
   Audit.Close "p2" (Some (90 # 1))].

(** A trade of the history, by its profit. *)
Definition tradeOf (pnl : Q) : Trade.t :=
  Trade.make "t" "BTC/USDT" "BUY" (100 # 1) (100 + pnl)%Q 1 pnl 1700000000000%Z.

(** Twenty-one closed trades, with profits 1, 2, ..., 21. *)
Definition longHistory : list Trade.t :=
  map (fun n => tradeOf (inject_Z (Z.of_nat n))) (seq 1 21).

(** A ledger with the short position open and twenty-one closed trades. *)
Definition seasoned : World.t := holding shortBtc longHistory.

(** That ledger exported, and the exported object imported. *)
Definition reimported : World.t :=
  match PortfolioManager.exportPortfolio calm seasoned with
  | (Ok data, w) => snd (PortfolioManager.importPortfolio data calm w)
  | (Throw _, w) => w
  end.

End Scenario.

(* ================================================================== *)
(** * Further scenarios and observations *)

Module Cases.

(** The orders sent to the venue, in the order of the journal. *)
Fixpoint venueCalls (journal : list Effect) : list VenueCall.t :=
  match journal with
  | [] => []
  | Venue call :: rest => call :: venueCalls rest
  | _ :: rest => venueCalls rest
  end.

(** A world without tasks and without lines of the wider log. *)
Definition wide (w : World.t) : Wide.t := Wide.make w None None [].


(** A signal on a market quoted at 0: its stop and its target levels are
    at its price. *)
Definition flat : Signal.t :=
  Signal.make "sig_0" "BTC/USDT" BUY 0 (105 # 1) 0 0 (8 # 10) "1h" 1700000000000%Z None.

(** A ledger that holds a long position and a full history of 1000
    closed trades. *)
Definition brimful : World.t :=
  Scenario.holding Scenario.longBtc (repeat (Scenario.tradeOf 1) 1000).

(** Closing that position at 110, importing an object that carries two
    closed trades and the position, and a sweep that takes its profit. *)
Definition busy : list Session.Op :=
  [Session.Close "p1" (Some (110 # 1));
   Session.Import
     (PortfolioData.make None None (Some [Scenario.longBtc]) None
        (Some [Scenario.tradeOf 1; Scenario.tradeOf (2 # 1)]));
   Session.Prices [("BTC/USDT", 110 # 1)]].

(** In binary64: a long position of 1.5 BTC opened at 100.25 and a short
    one of 0.75 ETH opened at 2000.125, the long one closed at 110.5 and the
    short one at 1990.5. *)
Definition fractional : list Binary64.Audit.Op :=
  [Binary64.Audit.Open
     (Binary64.Position.make "p1" "BTC/USDT" "BUY" 100.25%float 1.5%float None);
   Binary64.Audit.Open
     (Binary64.Position.make "p2" "ETH/USDT" "SELL" 2000.125%float 0.75%float None);
   Binary64.Audit.Close "p1" (Some 110.5%float);
   Binary64.Audit.Close "p2" (Some 1990.5%float)].

(** In binary64: a long position of 3 BTC opened at 0.1 and closed at
    0.3. *)
Definition dimes : list Binary64.Audit.Op :=
  [Binary64.Audit.Open
     (Binary64.Position.make "p1" "BTC/USDT" "BUY" 0.1%float 3%float None);
   Binary64.Audit.Close "p1" (Some 0.3%float)].

(** In binary64: a short position of 5 units opened at 1 on a symbol that
    names the same asset twice, and closed at its entry price. *)
Definition sameAsset : list Binary64.Audit.Op :=
  [Binary64.Audit.Open
     (Binary64.Position.make "x1" "USDT/USDT" "SELL" 1%float 5%float None);
   Binary64.Audit.Close "x1" None].

(** The started world after [updateDrawdown] has seen a balance of
    10000: the peak is 10000. *)
Definition atPeak : Wide.t :=
  snd (RiskManager.updateDrawdown (10000 # 1) Scenario.calm (wide Scenario.started)).

(** Metrics whose drawdown is 15%. *)
Definition inDrawdown : RiskMetrics.t :=
  RiskMetrics.make (Fin (15 # 100)) (2 # 10) 0 (10 # 1) (Fin 0) (Fin 0) (Fin 0)
                   (1 # 2) 1 0 1.

(** A forecast 5% above the market of [Scenario.btcMarket]. *)
Definition rising : Prediction.t :=
  Prediction.make (8 # 10) up (105 # 1) "1h" 1700000000000%Z.

(** The signal that [analyzeSignal] generates from it in [Scenario.calm]. *)
Definition generated : Signal.t :=
  match fst (TradingEngine.analyzeSignal "BTC/USDT" rising Scenario.btcMarket
               Scenario.calm Scenario.started) with
  | Ok (Some signal) => signal
  | _ => Scenario.buyBtc 0
  end.

(** What a prediction cycle that starts in [w] may have done when it is
    in [w']: appended signals of confidence 0.65 at least to the queue. *)
Definition predicting (w w' : World.t) : Prop :=
  World.portfolioManager w' = World.portfolioManager w
  /\ World.riskManager w' = World.riskManager w
  /\ Engine.isRunning (World.engine w') = Engine.isRunning (World.engine w)
  /\ Engine.tradingPairs (World.engine w') = Engine.tradingPairs (World.engine w)
  /\ exists added : list Signal.t,
       Engine.signalQueue (World.engine w') = Engine.signalQueue (World.engine w) ++ added
       /\ Forall (fun signal => (65 # 100 <= Signal.confidence signal)%Q) added.

(** What an execution cycle that starts in [w] may have done when it is
    in [w'] with the queue [queue]: opened positions. *)
Definition executing (w : World.t) (queue : list Signal.t) (w' : World.t) : Prop :=
  Ledger.performanceHistory (World.portfolioManager w')
    = Ledger.performanceHistory (World.portfolioManager w)
  /\ World.riskManager w' = World.riskManager w
  /\ Engine.isRunning (World.engine w') = Engine.isRunning (World.engine w)
  /\ Engine.tradingPairs (World.engine w') = Engine.tradingPairs (World.engine w)
  /\ Engine.signalQueue (World.engine w') = queue
  /\ forall key : string,
       JsMap.has key (Ledger.positions (World.portfolioManager w)) = true ->
       JsMap.has key (Ledger.positions (World.portfolioManager w')) = true.

End Cases.

(* ================================================================== *)
(** * Properties *)

(** ** Comparisons of rationals *)

Lemma Qltb_true (a b : Q) : Qltb a b = true <-> (a < b)%Q.
Proof.
  unfold Qltb. rewrite Qlt_alt. destruct (a ?= b)%Q; split; congruence.
Qed.

Lemma Qltb_false (a b : Q) : Qltb a b = false <-> (b <= a)%Q.
Proof.
  rewrite <- not_true_iff_false, Qltb_true. split.
  - apply Qnot_lt_le.
  - apply Qle_not_lt.
Qed.

Lemma Qgtb_true (a b : Q) : Qgtb a b = true <-> (b < a)%Q.
Proof. apply Qltb_true. Qed.

Lemma Qgtb_false (a b : Q) : Qgtb a b = false <-> (a <= b)%Q.
Proof. apply Qltb_false. Qed.

Lemma Qleb_true (a b : Q) : Qleb a b = true <-> (a <= b)%Q.
Proof. unfold Qleb. rewrite negb_true_iff. apply Qltb_false. Qed.

Lemma Qgeb_true (a b : Q) : Qgeb a b = true <-> (b <= a)%Q.
Proof. unfold Qgeb. rewrite negb_true_iff. apply Qltb_false. Qed.

Lemma Qtruthy_true (q : Q) : Qtruthy q = true <-> ~ (q == 0)%Q.
Proof.
  unfold Qtruthy. rewrite negb_true_iff, <- not_true_iff_false, Qeq_bool_iff.
  reflexivity.
Qed.

Lemma Qtruthy_false (q : Q) : Qtruthy q = false <-> (q == 0)%Q.
Proof.
  unfold Qtruthy. rewrite negb_false_iff. apply Qeq_bool_iff.
Qed.

(** [x || 0] is [x] as a number. *)
Lemma Qor_zero (q : Q) : (Qor (Some q) 0 == q)%Q.
Proof.
  unfold Qor. destruct (Qtruthy q) eqn:E.
  - reflexivity.
  - apply Qtruthy_false in E. symmetry. exact E.
Qed.

(** ** Finite numbers *)

Lemma Qabs_pos (x : Q) : ~ (x == 0)%Q -> (0 < Qabs x)%Q.
Proof.
  intros Hx. apply Qabs_case; intros H.
  - destruct (Qeq_dec x 0) as [E|E]; [contradiction|].
    apply Qle_lteq in H. destruct H as [H|H]; [exact H | symmetry in H; contradiction].
  - destruct (Qeq_dec x 0) as [E|E]; [contradiction|].
    apply Qle_lteq in H. destruct H as [H|H]; [lra | contradiction].
Qed.

Lemma Qeq_bool_false_of_pos (x : Q) : (0 < x)%Q -> Qeq_bool x 0 = false.
Proof.
  intros H. apply not_true_iff_false. rewrite Qeq_bool_iff. lra.
Qed.



Lemma div_Fin (a b : Q) : (0 < b)%Q -> div (Fin a) (Fin b) = Fin (a / b).
Proof.
  intros H. unfold div. rewrite (Qeq_bool_false_of_pos H). reflexivity.
Qed.

Lemma ltb_Fin (a b : Q) : ltb (Fin a) (Fin b) = Qltb a b.
Proof. reflexivity. Qed.

(** ** Facts about maps *)

Lemma string_key_spec (a b : string) : key_eqb a b = true <-> a = b.
Proof. apply String.eqb_eq. Qed.

Lemma ostring_key_spec (a b : option string) : key_eqb a b = true <-> a = b.
Proof.
  destruct a as [x|], b as [y|]; cbn; unfold key_eqb, ostring_KeyEq.
  - rewrite String.eqb_eq. split; [intros ->; reflexivity | intros [= ->]; reflexivity].
  - split; discriminate.
  - split; discriminate.
  - split; reflexivity.
Qed.

Section MapFacts.
Context {K V : Type} `{KeyEq K}.
Hypothesis key_spec : forall a b : K, key_eqb a b = true <-> a = b.

Lemma key_eqb_refl (k : K) : key_eqb k k = true.
Proof. apply key_spec. reflexivity. Qed.

Lemma key_eqb_neq (a b : K) : a <> b -> key_eqb a b = false.
Proof.
  intros Hne. apply not_true_iff_false. rewrite key_spec. exact Hne.
Qed.

Lemma get_set_same (k : K) (v : V) (m : JsMap.t K V) :
  JsMap.get k (JsMap.set k v m) = Some v.
Proof.
  induction m as [|[k' v'] rest IH]; cbn.
  - rewrite key_eqb_refl. reflexivity.
  - destruct (key_eqb k k') eqn:E; cbn; rewrite E; [reflexivity | exact IH].
Qed.

Lemma get_set_other (k k' : K) (v : V) (m : JsMap.t K V) :
  k <> k' -> JsMap.get k (JsMap.set k' v m) = JsMap.get k m.
Proof.
  intros Hne. induction m as [|[k0 v0] rest IH]; cbn.
  - rewrite (key_eqb_neq Hne). reflexivity.
  - destruct (key_eqb k' k0) eqn:E; cbn.
    + apply key_spec in E. subst k0. rewrite (key_eqb_neq Hne). reflexivity.
    + rewrite IH. reflexivity.
Qed.

Lemma get_delete_other (k k' : K) (m : JsMap.t K V) :
  k <> k' -> JsMap.get k (JsMap.delete k' m) = JsMap.get k m.
Proof.
  intros Hne. induction m as [|[k0 v0] rest IH]; cbn; [reflexivity|].
  destruct (key_eqb k' k0) eqn:E; cbn.
  - apply key_spec in E. subst k0. rewrite (key_eqb_neq Hne). reflexivity.
  - rewrite IH. reflexivity.
Qed.

Lemma get_None_iff (k : K) (m : JsMap.t K V) :
  JsMap.get k m = None <-> ~ In k (JsMap.keys m).
Proof.
  induction m as [|[k0 v0] rest IH]; cbn.
  - split; [intros _ [] | reflexivity].
  - destruct (key_eqb k k0) eqn:E.
    + apply key_spec in E. subst k0. split; [discriminate | intros Hn; exfalso; auto].
    + rewrite IH. split.
      * intros Hn [Heq|Hin]; [|auto]. subst k0. rewrite key_eqb_refl in E. discriminate.
      * intros Hn Hin. apply Hn. right. exact Hin.
Qed.

Lemma keys_delete_incl (k k' : K) (m : JsMap.t K V) :
  In k (JsMap.keys (JsMap.delete k' m)) -> In k (JsMap.keys m).
Proof.
  induction m as [|[k0 v0] rest IH]; cbn; [tauto|].
  destruct (key_eqb k' k0); cbn; [tauto|].
  intros [Heq|Hin]; [left; exact Heq | right; apply IH; exact Hin].
Qed.

Lemma keys_set (k : K) (v : V) (m : JsMap.t K V) :
  JsMap.keys (JsMap.set k v m)
  = if JsMap.has k m then JsMap.keys m else JsMap.keys m ++ [k].
Proof.
  unfold JsMap.has, JsMap.keys. induction m as [|[k0 v0] rest IH]; cbn; [reflexivity|].
  destruct (key_eqb k k0) eqn:E; cbn; [reflexivity|].
  rewrite IH. destruct (JsMap.get k rest); reflexivity.
Qed.

Lemma wf_set (k : K) (v : V) (m : JsMap.t K V) :
  JsMap.wf m -> JsMap.wf (JsMap.set k v m).
Proof.
  unfold JsMap.wf. intros Hwf. rewrite keys_set. unfold JsMap.has.
  destruct (JsMap.get k m) eqn:E; [exact Hwf|].
  apply get_None_iff in E.
  apply NoDup_app; [exact Hwf | constructor; [intros [] | constructor] |].
  intros x Hin [Heq|[]]. subst x. contradiction.
Qed.

Lemma wf_delete (k : K) (m : JsMap.t K V) :
  JsMap.wf m -> JsMap.wf (JsMap.delete k m).
Proof.
  unfold JsMap.wf. induction m as [|[k0 v0] rest IH]; cbn; [tauto|].
  intros Hwf. inversion Hwf as [|? ? Hnotin Hrest]; subst.
  destruct (key_eqb k k0); cbn; [exact Hrest|].
  constructor; [|apply IH; exact Hrest].
  intros Hin. apply Hnotin. apply (keys_delete_incl _ _ _ Hin).
Qed.

Lemma get_delete_same (k : K) (m : JsMap.t K V) :
  JsMap.wf m -> JsMap.get k (JsMap.delete k m) = None.
Proof.
  unfold JsMap.wf. induction m as [|[k0 v0] rest IH]; cbn; [reflexivity|].
  intros Hwf. inversion Hwf as [|? ? Hnotin Hrest]; subst.
  destruct (key_eqb k k0) eqn:E; cbn.
  - apply key_spec in E. subst k0. apply get_None_iff. exact Hnotin.
  - rewrite E. apply IH. exact Hrest.
Qed.

(** Setting a key that the map does not hold appends the entry. *)
Lemma set_fresh (k : K) (v : V) (m : JsMap.t K V) :
  ~ In k (JsMap.keys m) -> JsMap.set k v m = m ++ [(k, v)].
Proof.
  induction m as [|[k0 v0] rest IH]; cbn; [reflexivity|].
  intros Hnotin. rewrite key_eqb_neq by (intros ->; apply Hnotin; left; reflexivity).
  rewrite IH by (intros Hin; apply Hnotin; right; exact Hin). reflexivity.
Qed.

(** A map rebuilt entry by entry from a duplicate-free list is that list. *)
Lemma rebuild (entries acc : JsMap.t K V) :
  NoDup (JsMap.keys acc ++ JsMap.keys entries) ->
  fold_left (fun m entry => JsMap.set (fst entry) (snd entry) m) entries acc
  = acc ++ entries.
Proof.
  revert acc. induction entries as [|[k v] rest IH]; intros acc Hnodup; cbn.
  - rewrite app_nil_r. reflexivity.
  - cbn in Hnodup.
    assert (Hfresh : ~ In k (JsMap.keys acc)).
    { intros Hin. apply NoDup_remove_2 in Hnodup. apply Hnodup.
      apply in_or_app. left. exact Hin. }
    rewrite (set_fresh _ _ _ Hfresh). rewrite IH.
    + rewrite <- app_assoc. reflexivity.
    + unfold JsMap.keys. rewrite map_app. cbn. rewrite <- app_assoc. exact Hnodup.
Qed.

End MapFacts.

(** ** Errors of the ledger *)

(** C10.  [closePosition] and [updatePosition] called with an id that
    the map of open positions does not hold throw the error whose message
    is [Position <id> not found], and the world they leave is the world they
    found: positions, balances, history, journal and clock readings. *)
Theorem unknown_position_is_rejected_before_any_mutation :
  forall (env : Env.t) (w : World.t) (positionId : string)
         (exitPrice : option Q) (updates : Position.partial),
    JsMap.get positionId (Ledger.positions (World.portfolioManager w)) = None ->
    PortfolioManager.closePosition positionId exitPrice env w
      = (Throw (PositionNotFound positionId), w)
    /\ PortfolioManager.updatePosition positionId updates env w
      = (Throw (PositionNotFound positionId), w)
    /\ message (PositionNotFound positionId)
      = ("Position " ++ positionId ++ " not found")%string.
Proof.
  intros env w positionId exitPrice updates Hmissing.
  unfold PortfolioManager.closePosition, PortfolioManager.updatePosition.
  unfold bind, getLedger, getWorld, ret. cbn.
  rewrite Hmissing. repeat split; reflexivity.
Qed.

Lemma unknown_position_witness :
  JsMap.get "p2"
    (Ledger.positions (World.portfolioManager (Scenario.holding Scenario.longBtc []))) = None
  /\ PortfolioManager.closePosition "p2" None Scenario.calm
        (Scenario.holding Scenario.longBtc [])
      = (Throw (PositionNotFound "p2"), Scenario.holding Scenario.longBtc [])
  /\ PortfolioManager.updatePosition "p2"
        (Position.makePartial None None None None None None None None None
                              (Some (Some (99 # 1))) None None)
        Scenario.calm (Scenario.holding Scenario.longBtc [])
      = (Throw (PositionNotFound "p2"), Scenario.holding Scenario.longBtc [])
  /\ message (PositionNotFound "p2") = "Position p2 not found".
Proof.
  split; [reflexivity|].
  apply (unknown_position_is_rejected_before_any_mutation
           Scenario.calm (Scenario.holding Scenario.longBtc []) "p2").
  reflexivity.
Defined.

(** ** Performance metrics *)

(** C3.  On an empty history [getPerformanceMetrics] returns the object
    of its early return: ten properties, all zero.  The properties
    [averageWin], [averageLoss], [sharpeRatio], [maxDrawdown] and
    [equityCurve], which the object built for a non-empty history always
    carries, are absent from it. *)
Theorem empty_history_metrics_lack_five_properties :
  forall (env : Env.t) (positions : JsMap.t string Position.t)
         (balance : JsMap.t (option string) Q) (risk : Risk.t) (engine : Engine.t)
         (moment : nat) (journal : list Effect),
    let w := World.make (Ledger.make positions balance []) risk engine moment journal in
    PortfolioManager.getPerformanceMetrics env w
      = (Ok (Metrics.make 0 0 0 0 0 0 0 0 0 0 None None None None None), w)
    /\ forall (trade : Trade.t) (trades : list Trade.t),
         let m := PortfolioManager.performanceMetrics (Env.sqrt env) (trade :: trades) in
         Metrics.averageWin m <> None /\ Metrics.averageLoss m <> None
         /\ Metrics.sharpeRatio m <> None /\ Metrics.maxDrawdown m <> None
         /\ Metrics.equityCurve m <> None.
Proof.
  intros env positions balance risk engine moment journal w. split.
  - reflexivity.
  - intros trade trades m. subst m.
    unfold PortfolioManager.performanceMetrics.
    change (List.length (trade :: trades) =? 0)%nat with false. cbv iota.
    destruct (fold_left PortfolioManager.drawdownStep (trade :: trades) (0, 0, 0))
      as [[peak maxDrawdown] runningTotal].
    cbn [Metrics.averageWin Metrics.averageLoss Metrics.sharpeRatio
         Metrics.maxDrawdown Metrics.equityCurve].
    repeat split; discriminate.
Qed.

(** C6.  With one winning trade of 50 and no losing trade, the profit
    factor returned by [getPerformanceMetrics] is 0 although the gross
    profit is 50; [RiskManager.calculateProfitFactor] returns the gross
    profit on the same trades. *)
Theorem profit_factor_without_losses_is_zero :
  forall (sqrt : Q -> Q),
    let history := [Scenario.tradeOf (50 # 1)] in
    Metrics.profitFactor (PortfolioManager.performanceMetrics sqrt history) = 0
    /\ (PortfolioManager.sumPnl
          (filter (fun t => Qgtb (Trade.pnl t) 0) history) == 50 # 1)%Q
    /\ filter (fun t => Qltb (Trade.pnl t) 0) history = []
    /\ (RiskManager.profitFactorOf (map Trade.pnl history) == 50 # 1)%Q.
Proof.
  intros sqrt history. subst history. repeat split.
Qed.

(** On every list of profits [profitFactorOf] is the specified profit
    factor: the quotient when there is a loss, the gross profit otherwise. *)
Lemma profitFactorOf_spec (trades : list Q) :
  let grossProfit := fold_left Qplus (filter (fun profit => Qgtb profit 0) trades) 0 in
  let grossLoss := Qabs (fold_left Qplus (filter (fun profit => Qltb profit 0) trades) 0) in
  ((0 < grossLoss)%Q -> RiskManager.profitFactorOf trades = (grossProfit / grossLoss)%Q)
  /\ (~ (0 < grossLoss)%Q -> RiskManager.profitFactorOf trades = grossProfit).
Proof.
  intros grossProfit grossLoss. unfold RiskManager.profitFactorOf.
  fold grossProfit. fold grossLoss.
  destruct (Qgtb grossLoss 0) eqn:E.
  - apply Qgtb_true in E. split; [reflexivity | contradiction].
  - apply Qgtb_false in E. split; [intro H; exfalso; apply (Qle_not_lt _ _ E H) | reflexivity].
Qed.

Lemma sumPnl_from (trades : list Trade.t) (a : Q) :
  (fold_left (fun sum t => (sum + Trade.pnl t)%Q) trades a
   == a + PortfolioManager.sumPnl trades)%Q.
Proof.
  unfold PortfolioManager.sumPnl. revert a.
  induction trades as [|t rest IH]; intros a; cbn.
  - ring.
  - rewrite IH. rewrite (IH (0 + Trade.pnl t)%Q). ring.
Qed.

Lemma losses_sum_below_zero (trades : list Trade.t) :
  trades <> [] ->
  Forall (fun t => (Trade.pnl t < 0)%Q) trades ->
  (PortfolioManager.sumPnl trades < 0)%Q.
Proof.
  intros Hne Hall. induction Hall as [|t rest Ht Hrest IH]; [contradiction|].
  unfold PortfolioManager.sumPnl. cbn. rewrite sumPnl_from.
  destruct rest as [|t' rest'].
  - cbn. lra.
  - assert (H : (PortfolioManager.sumPnl (t' :: rest') < 0)%Q) by (apply IH; discriminate).
    lra.
Qed.

(** On a non-empty history the profit factor of [getPerformanceMetrics]
    is the gross profit over the gross loss when some trade lost, and 0
    when none did. *)
Lemma ledger_profit_factor (sqrt : Q -> Q) (trades : list Trade.t) :
  trades <> [] ->
  let winning := filter (fun t => Qgtb (Trade.pnl t) 0) trades in
  let losing := filter (fun t => Qltb (Trade.pnl t) 0) trades in
  let grossProfit := PortfolioManager.sumPnl winning in
  let grossLoss := Qabs (PortfolioManager.sumPnl losing) in
  let m := PortfolioManager.performanceMetrics sqrt trades in
  (losing <> [] -> (0 < grossLoss)%Q
                   /\ Metrics.profitFactor m = (grossProfit / grossLoss)%Q)
  /\ (losing = [] -> Metrics.profitFactor m = 0).
Proof.
  intros Hne winning losing grossProfit grossLoss m.
  assert (Hm : Metrics.profitFactor m
               = if Qgtb grossLoss 0 then (grossProfit / grossLoss)%Q else 0).
  { subst m. unfold PortfolioManager.performanceMetrics.
    destruct trades as [|t rest]; [contradiction|].
    change (List.length (t :: rest) =? 0)%nat with false. cbv iota.
    destruct (fold_left PortfolioManager.drawdownStep (t :: rest) (0, 0, 0))
      as [[peak maxDrawdown] runningTotal].
    reflexivity. }
  rewrite Hm. split.
  - intros Hlosing.
    assert (Hneg : (PortfolioManager.sumPnl losing < 0)%Q).
    { apply losses_sum_below_zero; [exact Hlosing|].
      apply Forall_forall. intros t Hin. apply filter_In in Hin.
      apply Qltb_true. apply Hin. }
    assert (Hpos : (0 < grossLoss)%Q).
    { subst grossLoss. apply Qabs_pos. lra. }
    split; [exact Hpos|].
    apply Qgtb_true in Hpos. rewrite Hpos. reflexivity.
  - intros Hnone. subst grossLoss. rewrite Hnone. reflexivity.
Qed.

(** ** The ledger after an opening and after a closing *)

Lemma addPosition_ledger (position : Position.t) (env : Env.t) (w : World.t) :
  let l := World.portfolioManager w in
  let base := JsString.baseOf (Position.symbol position) in
  let quote := JsString.quoteOf (Position.symbol position) in
  let currentQuote := Qor (JsMap.get quote (Ledger.balance l)) 0 in
  let cost := (Position.entryPrice position * Position.quantity position)%Q in
  World.portfolioManager (snd (PortfolioManager.addPosition position env w))
  = Ledger.make
      (JsMap.set (Position.id position) position (Ledger.positions l))
      (if Position.isBuy position then
         let paid := JsMap.set quote (currentQuote - cost)%Q (Ledger.balance l) in
         JsMap.set base (Qor (JsMap.get base paid) 0 + Position.quantity position)%Q paid
       else
         let delivered :=
           JsMap.set base (Qor (JsMap.get base (Ledger.balance l)) 0
                           - Position.quantity position)%Q (Ledger.balance l) in
         JsMap.set quote (currentQuote + cost)%Q delivered)
      (Ledger.performanceHistory l).
Proof.
  intros l base quote currentQuote cost. subst l base quote currentQuote cost.
  unfold PortfolioManager.addPosition, tryCatch, PortfolioManager.setPositions,
    PortfolioManager.balanceGet, PortfolioManager.balanceSet, database, emit, log,
    record, consult, getLedger, getWorld, modifyLedger, modify, throw.
  destruct (Position.isBuy position);
    cbv beta iota zeta delta [bind ret];
    cbn [World.portfolioManager World.riskManager World.engine World.moment World.journal
         Ledger.positions Ledger.balance Ledger.performanceHistory];
    destruct (Env.dbRejects env _ _); reflexivity.
Qed.

Lemma closePosition_ledger (positionId : string) (exitPrice : option Q)
    (position : Position.t) (env : Env.t) (w : World.t) :
  let l := World.portfolioManager w in
  JsMap.get positionId (Ledger.positions l) = Some position ->
  let base := JsString.baseOf (Position.symbol position) in
  let quote := JsString.quoteOf (Position.symbol position) in
  let price :=
    Qor exitPrice (Qor (Position.currentPrice position) (Position.entryPrice position)) in
  let pnl := PortfolioManager.calculatePnL position price in
  let proceeds := (price * Position.quantity position)%Q in
  let pushed :=
    Ledger.performanceHistory l
    ++ [Trade.make positionId (Position.symbol position) (Position.side position)
          (Position.entryPrice position) price (Position.quantity position) pnl
          (Env.clock env (World.moment w))] in
  World.portfolioManager (snd (PortfolioManager.closePosition positionId exitPrice env w))
  = Ledger.make
      (JsMap.delete positionId (Ledger.positions l))
      (if Position.isBuy position then
         let delivered :=
           JsMap.set base (Qor (JsMap.get base (Ledger.balance l)) 0
                           - Position.quantity position)%Q (Ledger.balance l) in
         JsMap.set quote (Qor (JsMap.get quote delivered) 0 + proceeds)%Q delivered
       else
         let received :=
           JsMap.set base (Qor (JsMap.get base (Ledger.balance l)) 0
                           + Position.quantity position)%Q (Ledger.balance l) in
         JsMap.set quote (Qor (JsMap.get quote received) 0 - proceeds)%Q received)
      (if (1000 <? List.length pushed)%nat then tl pushed else pushed).
Proof.
  intros l Hget base quote price pnl proceeds pushed.
  subst l base quote price pnl proceeds pushed.
  unfold PortfolioManager.closePosition.
  unfold bind at 1. unfold getLedger, getWorld. cbv beta iota zeta delta [bind ret].
  rewrite Hget.
  unfold PortfolioManager.recordPerformance, PortfolioManager.setHistory, tryCatch,
    PortfolioManager.setPositions, PortfolioManager.balanceGet,
    PortfolioManager.balanceSet, database, emit, log, dateNow,
    record, consult, getLedger, getWorld, modifyLedger, modify, throw.
  destruct (Position.isBuy position);
    cbv beta iota zeta delta [bind ret];
    cbn [World.portfolioManager World.riskManager World.engine World.moment World.journal
         Ledger.positions Ledger.balance Ledger.performanceHistory];
    repeat match goal with
           | |- context [Env.dbRejects env ?n ?c] => destruct (Env.dbRejects env n c)
           end; reflexivity.
Qed.

Lemma closePosition_unknown (positionId : string) (exitPrice : option Q)
    (env : Env.t) (w : World.t) :
  JsMap.get positionId (Ledger.positions (World.portfolioManager w)) = None ->
  snd (PortfolioManager.closePosition positionId exitPrice env w) = w.
Proof.
  intros Hget. unfold PortfolioManager.closePosition.
  unfold bind, getLedger, getWorld, ret. cbn. rewrite Hget. reflexivity.
Qed.

(** ** Protective exits *)

(** C1.  A short position entered at 100 with its stop at 102 and its
    target at 95 receives the price 101, which crosses neither level in the
    direction of a short.  [updatePrices] applies the orientation of a long
    ([price <= stopLoss]), reports a stop loss and closes the position. *)
Theorem short_position_is_stopped_by_the_long_orientation :
  forall (env : Env.t),
    let w := snd (PortfolioManager.updatePrices [("BTC/USDT", 101 # 1)] env
                    (Scenario.holding Scenario.shortBtc [])) in
    Ledger.positions (World.portfolioManager w) = []
    /\ map Trade.positionId (Ledger.performanceHistory (World.portfolioManager w)) = ["p1"]
    /\ map Trade.exitPrice (Ledger.performanceHistory (World.portfolioManager w)) = [101 # 1]
    /\ hd_error (World.journal w) = Some (Log WARN (StopLossTriggered "p1")).
Proof.
  intros [clock dbRejects createOrder getMarketData predict randomSuffix random sqrt].
  vm_compute.
  repeat match goal with
         | |- context [dbRejects ?n ?c] => destruct (dbRejects n c)
         end; repeat split.
Qed.

(** What [updatePrices] decides for a position stored under its id when
    its symbol has a new, non-zero price: the position is closed exactly
    when the price is at or below a non-zero [stopLoss], or at or above a
    non-zero [takeProfit].  The side of the position takes no part in the
    decision. *)
Lemma protective_exit_ignores_the_side (env : Env.t) (w : World.t)
    (prices : JsMap.t string Q) (key : string) (position : Position.t) (price : Q) :
  JsMap.wf (Ledger.positions (World.portfolioManager w)) ->
  JsMap.get key (Ledger.positions (World.portfolioManager w)) = Some position ->
  Position.id position = key ->
  JsMap.get (Position.symbol position) prices = Some price ->
  Qtruthy price = true ->
  JsMap.has key
    (Ledger.positions
       (World.portfolioManager (snd (PortfolioManager.updatePrice prices key env w))))
  = negb (guard (Position.stopLoss position) (fun stopLoss => Qleb price stopLoss)
          || guard (Position.takeProfit position) (fun takeProfit => Qgeb price takeProfit)).
Proof.
  intros Hwf Hget Hid Hprice Htruthy.
  unfold PortfolioManager.updatePrice.
  unfold bind at 1. unfold getLedger, getWorld. cbv beta iota zeta delta [bind ret].
  rewrite Hget, Hprice, Htruthy.
  unfold PortfolioManager.setPositions, modifyLedger, modify.
  cbn [Position.stopLoss Position.takeProfit Position.id PortfolioManager.reprice
       Position.spread Position.over Position.p_stopLoss Position.p_takeProfit
       Position.p_id].
  rewrite Hid.
  set (repriced := PortfolioManager.reprice position price).
  assert (Hclosed : forall (w1 : World.t),
             Ledger.positions (World.portfolioManager w1)
             = JsMap.set key repriced (Ledger.positions (World.portfolioManager w)) ->
             JsMap.has key
               (Ledger.positions
                  (World.portfolioManager
                     (snd (PortfolioManager.closePosition key (Some price) env w1))))
             = false).
  { intros w1 Hw1.
    assert (Hin : JsMap.get key (Ledger.positions (World.portfolioManager w1))
                  = Some repriced).
    { rewrite Hw1. apply (get_set_same string_key_spec). }
    rewrite (@closePosition_ledger key (Some price) repriced env w1 Hin).
    cbn [Ledger.positions]. unfold JsMap.has.
    rewrite (get_delete_same string_key_spec); [reflexivity|].
    rewrite Hw1. apply (wf_set string_key_spec). exact Hwf. }
  destruct (guard (Position.stopLoss position) (fun stopLoss => Qleb price stopLoss)).
  - cbn [orb negb]. unfold log, record, modify.
    cbv beta iota zeta delta [bind ret]. apply Hclosed. reflexivity.
  - destruct (guard (Position.takeProfit position)
                    (fun takeProfit => Qgeb price takeProfit)).
    + cbn [orb negb]. unfold log, record, modify.
      cbv beta iota zeta delta [bind ret]. apply Hclosed. reflexivity.
    + cbn [orb negb snd World.portfolioManager Ledger.positions]. unfold JsMap.has.
      rewrite (get_set_same string_key_spec). reflexivity.
Qed.

(** ** Signal generation *)

(** C4.  A forecast of direction [neutral] with confidence 0.7 and a
    predicted price 1.5% below the market passes both gates, and
    [analyzeSignal] answers with a signal, of action [SELL], whose stop and
    target are those of a short. *)
Theorem neutral_forecast_yields_a_sell_signal :
  forall (env : Env.t) (w : World.t),
    let forecast :=
      Prediction.make (7 # 10) neutral (985 # 10) "1h" 1700000000000%Z in
    exists signal : Signal.t,
      fst (TradingEngine.analyzeSignal "BTC/USDT" forecast Scenario.btcMarket env w)
        = Ok (Some signal)
      /\ Signal.action signal = SELL
      /\ Signal.symbol signal = "BTC/USDT"
      /\ (Signal.stopLoss signal == 102 # 1)%Q
      /\ (Signal.takeProfit signal == 95 # 1)%Q.
Proof.
  intros env w forecast. subst forecast.
  eexists. split.
  - unfold TradingEngine.analyzeSignal. cbn. reflexivity.
  - cbn. repeat split.
Qed.

(** The action of every generated signal: [BUY] for [up], [SELL] for
    [down] and for [neutral] alike. *)
Lemma analyzeSignal_action (pair : string) (prediction : Prediction.t)
    (marketData : MarketData.t) (env : Env.t) (w : World.t) (signal : Signal.t) :
  fst (TradingEngine.analyzeSignal pair prediction marketData env w) = Ok (Some signal) ->
  Signal.action signal
    = match Prediction.direction prediction with up => BUY | _ => SELL end.
Proof.
  unfold TradingEngine.analyzeSignal.
  destruct (Qltb _ _); [cbn; discriminate|].
  destruct (ltb _ _); [cbn; discriminate|].
  cbn. intros H. injection H as <-. reflexivity.
Qed.

(** ** No pyramiding *)

(** The verdict of the Risk Gate does not depend on the ledger. *)
Lemma validateSignal_ignores_the_ledger (signal : Signal.t) (env : Env.t) (w : World.t)
    (ledger : Ledger.t) :
  fst (RiskManager.validateSignal signal env w)
  = fst (RiskManager.validateSignal signal env
           (World.make ledger (World.riskManager w) (World.engine w)
                       (World.moment w) (World.journal w))).
Proof.
  unfold RiskManager.validateSignal, tryCatch, getRisk, getWorld,
    RiskManager.getOpenPositionsCount, RiskManager.checkCorrelationRisk,
    RiskManager.getOpenPositions.
  cbv beta iota zeta delta [bind ret RiskManager.maxCorrelationOver World.riskManager].
  destruct (gtb _ _); [reflexivity|].
  destruct (Qgeb _ _); [reflexivity|].
  destruct (Qgtb 0 _); [reflexivity|].
  destruct (Qltb _ _); [reflexivity|].
  destruct (Qgtb _ _); [reflexivity|].
  destruct (ltb _ _); reflexivity.
Qed.

(** C5.  The ledger holds an open long position on BTC/USDT.  A buy
    signal for BTC/USDT is accepted by [validateSignal]; the prediction
    cycle queues it and the execution cycle registers a second open long
    position on BTC/USDT. *)
Theorem second_long_position_on_the_same_instrument :
  let w0 := Scenario.holding Scenario.longBtc [] in
  let w1 := snd (TradingEngine.runPredictionCycle Scenario.calm w0) in
  let w2 := snd (TradingEngine.executeSignals Scenario.calm w1) in
  map (fun p => (Position.symbol p, Position.side p))
      (JsMap.values (Ledger.positions (World.portfolioManager w0)))
    = [("BTC/USDT", "BUY")]
  /\ (forall env : Env.t,
        fst (RiskManager.validateSignal (Scenario.buyBtc 1700000000000%Z) env w0) = Ok true)
  /\ map (fun s => (Signal.symbol s, Signal.action s)) (Engine.signalQueue (World.engine w1))
    = [("BTC/USDT", BUY)]
  /\ map (fun p => (Position.symbol p, Position.side p))
         (JsMap.values (Ledger.positions (World.portfolioManager w2)))
    = [("BTC/USDT", "BUY"); ("BTC/USDT", "BUY")].
Proof.
  repeat split.
Qed.

(** ** Binary64: the order of the floats *)


Lemma SFcompare_refl (a : spec_float) :
  a <> S754_nan -> SFcompare a a = Some Eq.
Proof.
  destruct a as [s|s| |s m e]; cbn; intros H; try reflexivity.
  - destruct s; reflexivity.
  - contradiction.
  - destruct s; rewrite Z.compare_refl, Pos.compare_cont_refl; reflexivity.
Qed.

Lemma is_nan_spec (x : float) :
  PrimFloat.is_nan x = true <-> Prim2SF x = S754_nan.
Proof.
  unfold PrimFloat.is_nan. rewrite FloatAxioms.eqb_spec. unfold SFeqb. split.
  - destruct (Prim2SF x) as [s|s| |s m e] eqn:E; try reflexivity;
      rewrite SFcompare_refl by discriminate; discriminate.
  - intros ->. reflexivity.
Qed.






(** ** The Kelly fraction *)






(** Where it is a number, the Kelly fraction of binary64 is the exact one
    rounded: at 100 with the target at 103.75, the stop at 96.75 and a
    confidence of 0.8125, it is the float below 0.1625, and 13/80 in the
    exact embedding. *)
Example kelly_fraction_is_rounded :
  Binary64.RiskManager.calculateKellyFraction 0.8125%float 100%float 103.75%float
                                              96.75%float
  = 0.16249999999999998%float
  /\ exists k : Q,
       RiskManager.calculateKellyFraction
         (Signal.make "sig_1" "BTC/USDT" BUY (100 # 1) (415 # 4) (387 # 4) (105 # 1)
                      (13 # 16) "1h" 1700000000000%Z None) = Fin k
       /\ (k == 13 # 80)%Q.
Proof.
  split; [vm_compute; reflexivity|].
  eexists. split; [vm_compute; reflexivity | reflexivity].
Qed.

(** The sizing scenario of the specification (balance 10000, risk 2%,
    price 100, stop 98, target 105, confidence 0.8): the Kelly fraction is
    0.25 * 0.72 = 0.18 and the size 100 * 0.18 = 18. *)
Example sizing_scenario :
  forall (env : Env.t),
    cmp (RiskManager.calculateKellyFraction Scenario.staleSignal) (Fin (18 # 100)) = Some Eq
    /\ exists size : Q,
         fst (RiskManager.calculatePositionSize Scenario.staleSignal env Scenario.started)
           = Ok (Fin size)
         /\ (size == 18 # 1)%Q.
Proof.
  intros env. split; [reflexivity|].
  eexists. split; reflexivity.
Qed.

(** ** Staleness *)

Lemma expired_iff (now : Z) (signal : Signal.t) :
  TradingEngine.expired now signal = true <-> (now - Signal.timestamp signal > 300000)%Z.
Proof.
  unfold TradingEngine.expired. rewrite Z.gtb_lt. lia.
Qed.

(** The body of the execution loop on an expired signal. *)
Lemma executeSignal_expired (env : Env.t) (w : World.t) (signal : Signal.t) :
  TradingEngine.expired (Env.clock env (World.moment w)) signal = true ->
  TradingEngine.executeSignal signal env w
  = (Ok tt,
     World.make (World.portfolioManager w) (World.riskManager w) (World.engine w)
                (S (World.moment w))
                (World.journal w ++ [Log WARN (SignalExpired (Signal.symbol signal))])).
Proof.
  intros Hstale.
  unfold TradingEngine.executeSignal, tryCatch, bind, dateNow, consult.
  rewrite Hstale. reflexivity.
Qed.

(** C9.  A signal dequeued more than 300000 ms after its timestamp is
    dropped by the body of the execution loop: the body returns normally,
    and the world it leaves differs from the world it found by one reading
    of the clock and one warning in the log.  No position size is computed
    (the Risk Gate logs nothing), no order reaches the venue (the journal
    gains no venue call) and the ledger is untouched.  The loop then goes on
    with the rest of the queue. *)
Theorem stale_signal_is_discarded :
  forall (env : Env.t) (w : World.t) (signal : Signal.t) (rest : list Signal.t),
    (Env.clock env (World.moment w) - Signal.timestamp signal > 300000)%Z ->
    let after (e : Engine.t) :=
      World.make (World.portfolioManager w) (World.riskManager w) e
                 (S (World.moment w))
                 (World.journal w ++ [Log WARN (SignalExpired (Signal.symbol signal))]) in
    TradingEngine.executeSignal signal env w = (Ok tt, after (World.engine w))
    /\ TradingEngine.drain (signal :: rest) env w
       = TradingEngine.drain rest env
           (after (Engine.make (Engine.isRunning (World.engine w))
                               (Engine.tradingPairs (World.engine w)) rest)).
Proof.
  intros env w signal rest Hstale after.
  apply expired_iff in Hstale.
  split.
  - apply executeSignal_expired. exact Hstale.
  - cbn [TradingEngine.drain]. unfold bind at 1.
    unfold TradingEngine.setSignalQueue, modifyEngine, modify.
    unfold bind at 1. rewrite executeSignal_expired by exact Hstale. reflexivity.
Qed.

(** A cycle over a queue whose signals are all expired when their turn
    comes (the i-th signal is dequeued at the i-th reading of the clock):
    the queue is emptied, one warning is logged per signal, and neither the
    ledger nor the venue is touched. *)
Lemma expired_queue_is_drained_without_orders (env : Env.t) (queue : list Signal.t) :
  forall w : World.t,
    (forall (i : nat) (signal : Signal.t),
        nth_error queue i = Some signal ->
        TradingEngine.expired (Env.clock env (World.moment w + i)) signal = true) ->
    TradingEngine.drain queue env w
    = (Ok tt,
       World.make (World.portfolioManager w) (World.riskManager w)
         (match queue with
          | [] => World.engine w
          | _ :: _ => Engine.make (Engine.isRunning (World.engine w))
                                  (Engine.tradingPairs (World.engine w)) []
          end)
         (World.moment w + List.length queue)
         (World.journal w
          ++ map (fun signal => Log WARN (SignalExpired (Signal.symbol signal))) queue)).
Proof.
  induction queue as [|signal rest IH]; intros w Hstale.
  - cbn. rewrite Nat.add_0_r, app_nil_r. destruct w; reflexivity.
  - cbn [TradingEngine.drain]. unfold bind at 1.
    unfold TradingEngine.setSignalQueue, modifyEngine, modify.
    unfold bind at 1. rewrite executeSignal_expired.
    + rewrite IH.
      * cbn [World.portfolioManager World.riskManager World.engine World.moment
             World.journal Engine.isRunning Engine.tradingPairs List.length map].
        rewrite <- app_assoc, <- plus_n_Sm. cbn [app].
        destruct rest; reflexivity.
      * intros i s Hi. cbn [World.moment].
        specialize (Hstale (S i) s Hi). rewrite <- plus_n_Sm in Hstale. exact Hstale.
    + cbn [World.moment]. specialize (Hstale 0%nat signal eq_refl).
      rewrite Nat.add_0_r in Hstale. exact Hstale.
Qed.

Lemma stale_signal_witness :
  (Env.clock Scenario.calm (World.moment Scenario.started)
     - Signal.timestamp Scenario.staleSignal > 300000)%Z
  /\ TradingEngine.executeSignal Scenario.staleSignal Scenario.calm Scenario.started
     = (Ok tt,
        World.make (World.portfolioManager Scenario.started)
                   (World.riskManager Scenario.started)
                   (World.engine Scenario.started) 1
                   [Log WARN (SignalExpired "BTC/USDT")]).
Proof.
  assert (H : (Env.clock Scenario.calm (World.moment Scenario.started)
               - Signal.timestamp Scenario.staleSignal > 300000)%Z) by reflexivity.
  split; [exact H|].
  exact (proj1 (stale_signal_is_discarded Scenario.calm Scenario.started
                  Scenario.staleSignal [] H)).
Defined.

(** ** Conservation of realized profit and loss *)

Lemma balance_after_set (asset : option string) (v : Q)
    (m : JsMap.t (option string) Q) :
  (Qor (JsMap.get asset (JsMap.set asset v m)) 0 == v)%Q.
Proof.
  rewrite (get_set_same ostring_key_spec). apply Qor_zero.
Qed.

(** Opening a position over two different assets changes the balance of
    its quote asset by the cost: paid by a buy, received by a sell. *)
Lemma change_at_opening (position : Position.t) (env : Env.t) (w : World.t) :
  JsString.baseOf (Position.symbol position) <> JsString.quoteOf (Position.symbol position) ->
  (Audit.change (JsString.quoteOf (Position.symbol position)) w
     (snd (PortfolioManager.addPosition position env w))
   == Audit.openingChange position)%Q.
Proof.
  intros Htwo. unfold Audit.change, Audit.balanceOf, Audit.openingChange.
  rewrite addPosition_ledger. cbn [Ledger.balance].
  destruct (Position.isBuy position); cbv zeta.
  - rewrite (get_set_other ostring_key_spec) by (intros E; apply Htwo; symmetry; exact E).
    rewrite balance_after_set. ring.
  - rewrite balance_after_set. ring.
Qed.

(** Closing it changes that balance by the proceeds, and the profit
    recorded is the sum of the two changes. *)
Lemma change_at_closing (positionId : string) (exitPrice : option Q)
    (position : Position.t) (env : Env.t) (w : World.t) :
  JsMap.get positionId (Ledger.positions (World.portfolioManager w)) = Some position ->
  JsString.baseOf (Position.symbol position) <> JsString.quoteOf (Position.symbol position) ->
  let price :=
    Qor exitPrice (Qor (Position.currentPrice position) (Position.entryPrice position)) in
  (PortfolioManager.calculatePnL position price
   == Audit.openingChange position
      + Audit.change (JsString.quoteOf (Position.symbol position)) w
          (snd (PortfolioManager.closePosition positionId exitPrice env w)))%Q.
Proof.
  intros Hget Htwo price.
  unfold Audit.change, Audit.balanceOf, Audit.openingChange, PortfolioManager.calculatePnL.
  rewrite (@closePosition_ledger positionId exitPrice position env w Hget).
  cbn [Ledger.balance]. fold price.
  destruct (Position.isBuy position); cbv zeta.
  - rewrite balance_after_set.
    rewrite (get_set_other ostring_key_spec) by (intros E; apply Htwo; symmetry; exact E).
    ring.
  - rewrite balance_after_set.
    rewrite (get_set_other ostring_key_spec) by (intros E; apply Htwo; symmetry; exact E).
    ring.
Qed.

Lemma Forall2_pushBounded (history : list Trade.t) (changes : list Q)
    (trade : Trade.t) (c : Q) :
  Forall2 (fun t x => (Trade.pnl t == x)%Q) history changes ->
  (Trade.pnl trade == c)%Q ->
  Forall2 (fun t x => (Trade.pnl t == x)%Q)
    (if (1000 <? List.length (history ++ [trade]))%nat
     then tl (history ++ [trade]) else history ++ [trade])
    (Audit.pushBounded c changes).
Proof.
  intros Hall Hlast. unfold Audit.pushBounded.
  assert (Hpushed : Forall2 (fun t x => (Trade.pnl t == x)%Q)
                            (history ++ [trade]) (changes ++ [c])).
  { apply Forall2_app; [exact Hall | constructor; [exact Hlast | constructor]]. }
  rewrite <- (Forall2_length Hpushed).
  destruct (1000 <? List.length (history ++ [trade]))%nat; [|exact Hpushed].
  destruct Hpushed; [constructor | assumption].
Qed.

Lemma audit_step_consistent (env : Env.t) (state : World.t * Audit.t) (op : Audit.Op) :
  Audit.tradesTwoAssets op ->
  Audit.consistent state ->
  Audit.consistent (Audit.step env state op).
Proof.
  destruct state as [w audit]. intros Htwo (Hwf & Hopen & Hhistory).
  destruct op as [position | positionId exitPrice]; cbn [Audit.step Audit.perform].
  - (* addPosition *)
    cbn in Htwo. unfold Audit.consistent.
    rewrite addPosition_ledger.
    cbn [Ledger.positions Ledger.performanceHistory Audit.opened Audit.attributed].
    split; [apply (wf_set string_key_spec); exact Hwf|].
    split; [|exact Hhistory].
    intros key p Hget.
    destruct (string_dec key (Position.id position)) as [->|Hne].
    + rewrite (get_set_same string_key_spec) in Hget. injection Hget as <-.
      split; [exact Htwo|].
      eexists. split; [apply (get_set_same string_key_spec)|].
      apply change_at_opening. exact Htwo.
    + rewrite (get_set_other string_key_spec) in Hget by exact Hne.
      rewrite (get_set_other string_key_spec) by exact Hne.
      apply Hopen. exact Hget.
  - (* closePosition *)
    destruct (JsMap.get positionId (Ledger.positions (World.portfolioManager w)))
      as [position|] eqn:Hget.
    + destruct (Hopen positionId position Hget) as (Hassets & c & Hc & Hceq).
      unfold Audit.consistent.
      rewrite (@closePosition_ledger positionId exitPrice position env w Hget).
      cbn [Ledger.positions Ledger.performanceHistory Audit.opened Audit.attributed].
      split; [apply wf_delete; exact Hwf|].
      split.
      * intros key p Hkey.
        destruct (string_dec key positionId) as [->|Hne].
        -- rewrite (get_delete_same string_key_spec) in Hkey by exact Hwf. discriminate.
        -- rewrite (get_delete_other string_key_spec) in Hkey by exact Hne.
           rewrite (get_delete_other string_key_spec) by exact Hne.
           apply Hopen. exact Hkey.
      * rewrite Hc. apply Forall2_pushBounded; [exact Hhistory|].
        cbn [Trade.pnl]. rewrite Hceq.
        apply change_at_closing; assumption.
    + rewrite (closePosition_unknown positionId exitPrice env w Hget).
      unfold Audit.consistent. auto.
Qed.

Lemma audit_run_consistent (env : Env.t) (ops : list Audit.Op) (state : World.t * Audit.t) :
  Forall Audit.tradesTwoAssets ops ->
  Audit.consistent state ->
  Audit.consistent (fold_left (Audit.step env) ops state).
Proof.
  intros Hops. revert state. induction Hops as [|op ops Hop _ IH]; intros state Hstate.
  - exact Hstate.
  - cbn. apply IH. apply audit_step_consistent; assumption.
Qed.

Lemma sums_agree (history : list Trade.t) (changes : list Q) :
  Forall2 (fun t x => (Trade.pnl t == x)%Q) history changes ->
  forall a b : Q, (a == b)%Q ->
    (fold_left (fun sum t => (sum + Trade.pnl t)%Q) history a
     == fold_left Qplus changes b)%Q.
Proof.
  induction 1 as [|t x history changes Htx _ IH]; intros a b Hab; cbn.
  - exact Hab.
  - apply IH. rewrite Hab, Htx. reflexivity.
Qed.

(** In the exact embedding the property needs one hypothesis only.  Take
    a ledger without open positions or closed trades, and any finite
    sequence of [addPosition] and [closePosition] calls in which every
    position opened has a symbol whose base and quote assets differ.  Then
    every record of the resulting closed-trade history carries, as its
    profit, the sum of the two changes that the opening and the closing of
    its position made to the balance of its quote asset, whatever the
    database answers. *)
Lemma exact_ledger_conserves_the_realized_pnl :
  forall (env : Env.t) (ops : list Audit.Op) (w : World.t),
    Ledger.positions (World.portfolioManager w) = [] ->
    Ledger.performanceHistory (World.portfolioManager w) = [] ->
    Forall Audit.tradesTwoAssets ops ->
    let final := Audit.run env ops w in
    Forall2 (fun trade c => (Trade.pnl trade == c)%Q)
            (Ledger.performanceHistory (World.portfolioManager (fst final)))
            (Audit.attributed (snd final))
    /\ (PortfolioManager.sumPnl (Ledger.performanceHistory (World.portfolioManager (fst final)))
        == Audit.total (Audit.attributed (snd final)))%Q.
Proof.
  intros env ops w Hpositions Hhistory Hops final.
  assert (Hfinal : Audit.consistent final).
  { apply audit_run_consistent; [exact Hops|].
    unfold Audit.consistent, Audit.empty. rewrite Hpositions, Hhistory.
    cbn [Audit.opened Audit.attributed].
    split; [constructor|]. split; [intros key p Hget; discriminate Hget | constructor]. }
  destruct final as [w' audit]. destruct Hfinal as (_ & _ & Hall).
  split; [exact Hall|].
  apply sums_agree; [exact Hall | reflexivity].
Qed.

Example exact_round_trips :
  (PortfolioManager.sumPnl
     (Ledger.performanceHistory
        (World.portfolioManager
           (fst (Audit.run Scenario.calm Scenario.roundTrips Scenario.started))))
   == Audit.total
        (Audit.attributed
           (snd (Audit.run Scenario.calm Scenario.roundTrips Scenario.started))))%Q.
Proof.
  assert (Hops : Forall Audit.tradesTwoAssets Scenario.roundTrips).
  { repeat constructor; cbn; discriminate. }
  exact (proj2 (@exact_ledger_conserves_the_realized_pnl Scenario.calm
                  Scenario.roundTrips Scenario.started eq_refl eq_refl Hops)).
Qed.

(** Without the hypothesis on the symbol the property fails there too: a
    short USDT/USDT position of 5 units is opened at 1 and closed at 1.  The
    recorded profit is 0; the opening raised the balance of USDT by 5 and
    the closing left it there. *)
Example single_asset_in_exact_arithmetic :
  map Trade.pnl
      (Ledger.performanceHistory (World.portfolioManager (fst Scenario.sameAssetRun)))
    = [(- (1 - 1) * (5 # 1))%Q]
  /\ (PortfolioManager.sumPnl
        (Ledger.performanceHistory (World.portfolioManager (fst Scenario.sameAssetRun)))
      == 0)%Q
  /\ (Audit.total (Audit.attributed (snd Scenario.sameAssetRun)) == 5 # 1)%Q
  /\ ~ (PortfolioManager.sumPnl
          (Ledger.performanceHistory (World.portfolioManager (fst Scenario.sameAssetRun)))
        == Audit.total (Audit.attributed (snd Scenario.sameAssetRun)))%Q.
Proof.
  split; [reflexivity|]. split; [reflexivity|]. split; [reflexivity|].
  intros H. vm_compute in H. discriminate H.
Qed.

(** ** Binary64: the values of the numbers *)

(** A float that compares equal to 0 is a zero. *)
Lemma value_of_zero (x : float) :
  PrimFloat.is_zero x = true -> Binary64.value x = Some 0%Q.
Proof.
  unfold PrimFloat.is_zero. rewrite FloatAxioms.eqb_spec. unfold Binary64.value.
  change (Prim2SF PrimFloat.zero) with (S754_zero false).
  destruct (Prim2SF x) as [s|s| |s m e]; cbn; try discriminate; try reflexivity.
  - destruct s; discriminate.
  - destruct s; discriminate.
Qed.

(** [x || 0] is [x] as a number. *)
Lemma value_orElse (x : float) (q : Q) :
  Binary64.value x = Some q ->
  exists q' : Q, Binary64.value (Binary64.orElse (Some x) 0%float) = Some q'
                 /\ (q' == q)%Q.
Proof.
  intros Hx. unfold Binary64.orElse, Binary64.truthy.
  destruct (PrimFloat.is_nan x) eqn:Enan.
  - apply is_nan_spec in Enan. unfold Binary64.value in Hx. rewrite Enan in Hx.
    discriminate Hx.
  - cbn [orb]. destruct (PrimFloat.is_zero x) eqn:Ezero; cbn [negb].
    + apply value_of_zero in Ezero. rewrite Ezero in Hx. injection Hx as <-.
      exists 0%Q. split; reflexivity.
    + exists q. split; [exact Hx | reflexivity].
Qed.

Lemma exact_spec (op : Q -> Q -> Q) (x y result : float) :
  Binary64.Audit.exact op x y result = true ->
  exists a b r : Q,
    Binary64.value x = Some a /\ Binary64.value y = Some b
    /\ Binary64.value result = Some r /\ (r == op a b)%Q.
Proof.
  unfold Binary64.Audit.exact.
  destruct (Binary64.value x) as [a|]; [|discriminate].
  destruct (Binary64.value y) as [b|]; [|discriminate].
  destruct (Binary64.value result) as [r|]; [|discriminate].
  intros H. apply Qeq_bool_iff in H. exists a, b, r. repeat split. exact H.
Qed.

(** The balance that [set] has written, as the ledger reads it. *)
Lemma balance_written (asset : option string) (x : float) (q : Q)
    (m : JsMap.t (option string) float) :
  Binary64.value x = Some q ->
  exists q' : Q,
    Binary64.value (Binary64.orElse (JsMap.get asset (JsMap.set asset x m)) 0%float)
    = Some q'
    /\ (q' == q)%Q.
Proof.
  intros Hx. rewrite (get_set_same ostring_key_spec). apply value_orElse. exact Hx.
Qed.

(** ** Binary64: conservation of the realized profit *)


(** Opening a position over two different assets, when nothing rounds,
    changes the balance of its quote asset by the cost. *)
Lemma binary64_change_at_opening (position : Binary64.Position.t) (l : Binary64.Ledger.t) :
  JsString.baseOf (Binary64.Position.symbol position)
    <> JsString.quoteOf (Binary64.Position.symbol position) ->
  Binary64.Audit.exactOpening l position = true ->
  exists c : Q,
    Binary64.Audit.change (JsString.quoteOf (Binary64.Position.symbol position)) l
      (Binary64.PortfolioManager.addPosition position l) = Some c
    /\ Binary64.Audit.openingChange position c.
Proof.
  intros Htwo Hexact. unfold Binary64.Audit.exactOpening in Hexact.
  apply andb_true_iff in Hexact. destruct Hexact as [Hcost Hquote].
  apply exact_spec in Hcost. destruct Hcost as (ve & vq & vcost & He & Hq & Hcost & Hcosteq).
  unfold Binary64.Audit.change, Binary64.Audit.openingChange.
  unfold Binary64.PortfolioManager.addPosition. cbv zeta.
  unfold Binary64.Audit.balanceOf in *. cbn [Binary64.Ledger.balance].
  destruct (Binary64.Position.isBuy position).
  - apply exact_spec in Hquote.
    destruct Hquote as (vcq & vcost' & r & Hcq & Hcost' & Hr & Hreq).
    rewrite Hcost in Hcost'. injection Hcost' as <-.
    rewrite Hcq.
    rewrite (get_set_other ostring_key_spec) by (intros E; apply Htwo; symmetry; exact E).
    destruct (@balance_written (JsString.quoteOf (Binary64.Position.symbol position))
                _ _ (Binary64.Ledger.balance l) Hr) as (q' & Hq' & Hq'eq).
    rewrite Hq'. eexists. split; [reflexivity|].
    exists ve, vq. split; [exact He|]. split; [exact Hq|].
    rewrite Hq'eq, Hreq, Hcosteq. unfold Qminus. ring.
  - apply exact_spec in Hquote.
    destruct Hquote as (vcq & vcost' & r & Hcq & Hcost' & Hr & Hreq).
    rewrite Hcost in Hcost'. injection Hcost' as <-.
    rewrite Hcq.
    match goal with
    | |- context [JsMap.set ?k ?v (JsMap.set ?k0 ?v0 ?m)] =>
        destruct (@balance_written k _ _ (JsMap.set k0 v0 m) Hr) as (q' & Hq' & Hq'eq)
    end.
    rewrite Hq'. eexists. split; [reflexivity|].
    exists ve, vq. split; [exact He|]. split; [exact Hq|].
    rewrite Hq'eq, Hreq, Hcosteq. ring.
Qed.

(** Closing it, when nothing rounds, changes that balance by the
    proceeds, and the profit recorded is the sum of the two changes. *)
Lemma binary64_change_at_closing (positionId : string) (exitPrice : option float)
    (position : Binary64.Position.t) (l : Binary64.Ledger.t) (atOpening : Q) :
  JsMap.get positionId (Binary64.Ledger.positions l) = Some position ->
  JsString.baseOf (Binary64.Position.symbol position)
    <> JsString.quoteOf (Binary64.Position.symbol position) ->
  Binary64.Audit.exactClosing l position exitPrice = true ->
  Binary64.Audit.openingChange position atOpening ->
  let price :=
    Binary64.orElse exitPrice
      (Binary64.orElse (Binary64.Position.currentPrice position)
                       (Binary64.Position.entryPrice position)) in
  exists atClosing pnl : Q,
    Binary64.Audit.change (JsString.quoteOf (Binary64.Position.symbol position)) l
      (Binary64.PortfolioManager.closePosition positionId exitPrice l) = Some atClosing
    /\ Binary64.value (Binary64.PortfolioManager.calculatePnL position price) = Some pnl
    /\ (pnl == atOpening + atClosing)%Q.
Proof.
  intros Hget Htwo Hexact (ve & vq & He & Hq & Hopening) price.
  unfold Binary64.Audit.exactClosing in Hexact. fold price in Hexact. cbv zeta in Hexact.
  unfold Binary64.Audit.balanceOf in Hexact.
  assert (Hother : forall (v : float) (m : JsMap.t (option string) float),
             JsMap.get (JsString.quoteOf (Binary64.Position.symbol position))
                       (JsMap.set (JsString.baseOf (Binary64.Position.symbol position)) v m)
             = JsMap.get (JsString.quoteOf (Binary64.Position.symbol position)) m).
  { intros v m. apply (get_set_other ostring_key_spec).
    intros E. apply Htwo. symmetry. exact E. }
  rewrite Hother in Hexact.
  apply andb_true_iff in Hexact. destruct Hexact as [Hexact Hquote].
  apply andb_true_iff in Hexact. destruct Hexact as [Hexact Hproceeds].
  unfold Binary64.Audit.exactProfit in Hexact. cbv zeta in Hexact.
  apply andb_true_iff in Hexact. destruct Hexact as [Hdiff Hpnl].
  apply exact_spec in Hdiff.
  destruct Hdiff as (vprice & ve' & vdiff & Hprice & He' & Hvdiff & Hdiffeq).
  rewrite He in He'. injection He' as <-.
  apply exact_spec in Hproceeds.
  destruct Hproceeds as (vprice' & vq' & vproceeds & Hprice' & Hq' & Hvproceeds & Hproceedseq).
  rewrite Hprice in Hprice'. injection Hprice' as <-.
  rewrite Hq in Hq'. injection Hq' as <-.
  unfold Binary64.Audit.change, Binary64.Audit.balanceOf.
  unfold Binary64.PortfolioManager.closePosition. rewrite Hget. fold price. cbv zeta.
  cbn [Binary64.Ledger.balance].
  unfold Binary64.PortfolioManager.calculatePnL. fold price.
  destruct (Binary64.Position.isBuy position).
  - apply exact_spec in Hpnl.
    destruct Hpnl as (vdiff' & vq' & vpnl & Hvdiff' & Hq' & Hvpnl & Hpnleq).
    rewrite Hvdiff in Hvdiff'. injection Hvdiff' as <-.
    rewrite Hq in Hq'. injection Hq' as <-.
    apply exact_spec in Hquote.
    destruct Hquote as (vcq & vproceeds' & r & Hcq & Hvproceeds' & Hr & Hreq).
    rewrite Hvproceeds in Hvproceeds'. injection Hvproceeds' as <-.
    rewrite Hcq. rewrite Hother.
    match goal with
    | |- context [JsMap.set ?k ?v (JsMap.set ?k0 ?v0 ?m)] =>
        destruct (@balance_written k _ _ (JsMap.set k0 v0 m) Hr) as (q' & Hq' & Hq'eq)
    end.
    rewrite Hq'. exists (q' - vcq)%Q, vpnl.
    split; [reflexivity|]. split; [exact Hvpnl|].
    rewrite Hpnleq, Hdiffeq, Hopening, Hq'eq, Hreq, Hproceedseq. ring.
  - apply andb_true_iff in Hpnl. destruct Hpnl as [Hneg Hpnl].
    apply exact_spec in Hneg.
    destruct Hneg as (vzero & vdiff' & vneg & Hzero & Hvdiff' & Hvneg & Hnegeq).
    rewrite Hvdiff in Hvdiff'. injection Hvdiff' as <-.
    assert (Hzero' : Binary64.value 0%float = Some 0%Q) by reflexivity.
    rewrite Hzero' in Hzero. injection Hzero as <-.
    apply exact_spec in Hpnl.
    destruct Hpnl as (vneg' & vq' & vpnl & Hvneg' & Hq' & Hvpnl & Hpnleq).
    rewrite Hvneg in Hvneg'. injection Hvneg' as <-.
    rewrite Hq in Hq'. injection Hq' as <-.
    apply exact_spec in Hquote.
    destruct Hquote as (vcq & vproceeds' & r & Hcq & Hvproceeds' & Hr & Hreq).
    rewrite Hvproceeds in Hvproceeds'. injection Hvproceeds' as <-.
    rewrite Hcq. rewrite Hother.
    match goal with
    | |- context [JsMap.set ?k ?v (JsMap.set ?k0 ?v0 ?m)] =>
        destruct (@balance_written k _ _ (JsMap.set k0 v0 m) Hr) as (q' & Hq' & Hq'eq)
    end.
    rewrite Hq'. exists (q' - vcq)%Q, vpnl.
    split; [reflexivity|]. split; [exact Hvpnl|].
    rewrite Hpnleq, Hnegeq, Hdiffeq, Hopening, Hq'eq, Hreq, Hproceedseq. ring.
Qed.

Lemma binary64_pushBounded (history : list Binary64.Trade.t) (changes : list (option Q))
    (trade : Binary64.Trade.t) (c : option Q) :
  Forall2 Binary64.Audit.conserved history changes ->
  Binary64.Audit.conserved trade c ->
  Forall2 Binary64.Audit.conserved
    (Binary64.PortfolioManager.recordPerformance trade history)
    (Binary64.Audit.pushBounded c changes).
Proof.
  intros Hall Hlast.
  unfold Binary64.PortfolioManager.recordPerformance, Binary64.Audit.pushBounded.
  assert (Hpushed : Forall2 Binary64.Audit.conserved (history ++ [trade]) (changes ++ [c])).
  { apply Forall2_app; [exact Hall | constructor; [exact Hlast | constructor]]. }
  cbv zeta. rewrite <- (Forall2_length Hpushed).
  destruct (1000 <? List.length (history ++ [trade]))%nat; [|exact Hpushed].
  destruct Hpushed; [constructor | assumption].
Qed.

Lemma binary64_step_consistent (state : Binary64.Ledger.t * Binary64.Audit.t)
    (op : Binary64.Audit.Op) :
  Binary64.Audit.tradesTwoAssets op ->
  Binary64.Audit.exactOp (fst state) op = true ->
  Binary64.Audit.consistent state ->
  Binary64.Audit.consistent (Binary64.Audit.step state op).
Proof.
  destruct state as [l audit]. cbn [fst]. intros Htwo Hexact (Hwf & Hopen & Hhistory).
  destruct op as [position | positionId exitPrice];
    cbn [Binary64.Audit.step Binary64.Audit.perform Binary64.Audit.exactOp] in *.
  - (* addPosition *)
    destruct (binary64_change_at_opening position l Htwo Hexact) as (c & Hc & Hopening).
    rewrite Hc. unfold Binary64.Audit.consistent.
    unfold Binary64.PortfolioManager.addPosition. cbv zeta.
    cbn [Binary64.Ledger.positions Binary64.Ledger.performanceHistory
         Binary64.Audit.opened Binary64.Audit.attributed].
    split; [apply (wf_set string_key_spec); exact Hwf|].
    split; [|exact Hhistory].
    intros key p Hget.
    destruct (string_dec key (Binary64.Position.id position)) as [->|Hne].
    + rewrite (get_set_same string_key_spec) in Hget. injection Hget as <-.
      split; [exact Htwo|].
      exists c. split; [apply (get_set_same string_key_spec) | exact Hopening].
    + rewrite (get_set_other string_key_spec) in Hget by exact Hne.
      rewrite (get_set_other string_key_spec) by exact Hne.
      apply Hopen. exact Hget.
  - (* closePosition *)
    destruct (JsMap.get positionId (Binary64.Ledger.positions l)) as [position|] eqn:Hget.
    + destruct (Hopen positionId position Hget) as (Hassets & c & Hc & Hopening).
      destruct (@binary64_change_at_closing positionId exitPrice position l c
                  Hget Hassets Hexact Hopening) as (atClosing & pnl & Hchange & Hpnl & Heq).
      rewrite Hc, Hchange. unfold Binary64.Audit.consistent.
      unfold Binary64.PortfolioManager.closePosition. rewrite Hget. cbv zeta.
      cbn [Binary64.Ledger.positions Binary64.Ledger.performanceHistory
           Binary64.Audit.opened Binary64.Audit.attributed Binary64.Audit.plus].
      split; [apply wf_delete; exact Hwf|].
      split.
      * intros key p Hkey.
        destruct (string_dec key positionId) as [->|Hne].
        -- rewrite (get_delete_same string_key_spec) in Hkey by exact Hwf. discriminate.
        -- rewrite (get_delete_other string_key_spec) in Hkey by exact Hne.
           rewrite (get_delete_other string_key_spec) by exact Hne.
           apply Hopen. exact Hkey.
      * apply binary64_pushBounded; [exact Hhistory|].
        unfold Binary64.Audit.conserved. cbn [Binary64.Trade.pnl].
        rewrite Hpnl. exact Heq.
    + unfold Binary64.PortfolioManager.closePosition. rewrite Hget.
      unfold Binary64.Audit.consistent. auto.
Qed.

Lemma binary64_step_performs (state : Binary64.Ledger.t * Binary64.Audit.t)
    (op : Binary64.Audit.Op) :
  fst (Binary64.Audit.step state op) = Binary64.Audit.perform op (fst state).
Proof.
  destruct state as [l audit], op as [position | positionId exitPrice];
    cbn [Binary64.Audit.step fst]; [reflexivity|].
  destruct (JsMap.get positionId (Binary64.Ledger.positions l)); reflexivity.
Qed.

Lemma binary64_run_consistent (ops : list Binary64.Audit.Op) :
  forall state : Binary64.Ledger.t * Binary64.Audit.t,
    Forall Binary64.Audit.tradesTwoAssets ops ->
    Binary64.Audit.roundsNowhere ops (fst state) = true ->
    Binary64.Audit.consistent state ->
    Binary64.Audit.consistent (fold_left Binary64.Audit.step ops state).
Proof.
  induction ops as [|op rest IH]; intros state Hops Hexact Hstate; [exact Hstate|].
  cbn [fold_left]. cbn [Binary64.Audit.roundsNowhere] in Hexact.
  apply andb_true_iff in Hexact. destruct Hexact as [Hop Hrest].
  inversion Hops as [|? ? Htwo Hothers]; subst.
  apply IH; [exact Hothers | rewrite binary64_step_performs; exact Hrest |].
  apply binary64_step_consistent; assumption.
Qed.

Lemma binary64_sums_agree (history : list Binary64.Trade.t) (changes : list (option Q)) :
  Forall2 Binary64.Audit.conserved history changes ->
  forall a b : Q, (a == b)%Q ->
    Binary64.Audit.same
      (fold_left (fun sum trade =>
                    Binary64.Audit.plus sum (Binary64.value (Binary64.Trade.pnl trade)))
                 history (Some a))
      (fold_left Binary64.Audit.plus changes (Some b)).
Proof.
  induction 1 as [|trade c history changes Hc _ IH]; intros a b Hab; cbn [fold_left].
  - exact Hab.
  - unfold Binary64.Audit.conserved in Hc.
    destruct (Binary64.value (Binary64.Trade.pnl trade)) as [pnl|]; [|contradiction].
    destruct c as [x|]; [|contradiction].
    cbn [Binary64.Audit.plus]. apply IH. rewrite Hab, Hc. reflexivity.
Qed.

(** C7 (amended).  In binary64.  Take a ledger without open positions
    or closed trades, and any finite sequence of [addPosition] and
    [closePosition] calls in which every position opened has a symbol whose
    base and quote assets differ, and in which nothing rounds where a profit
    or a quote balance is computed: the cost, the proceeds, the difference of
    the prices, the profit and the new quote balance are the exact results.
    Then every record of the resulting closed-trade history carries, as its
    profit, the sum of the two changes that the opening and the closing of
    its position made to the balance of its quote asset; and the sum of the
    recorded profits is the sum of those changes.  This holds for buys and
    sells. *)
Theorem realized_pnl_is_conserved :
  forall (ops : list Binary64.Audit.Op) (l : Binary64.Ledger.t),
    Binary64.Ledger.positions l = [] ->
    Binary64.Ledger.performanceHistory l = [] ->
    Forall Binary64.Audit.tradesTwoAssets ops ->
    Binary64.Audit.roundsNowhere ops l = true ->
    let final := Binary64.Audit.run ops l in
    Forall2 Binary64.Audit.conserved
            (Binary64.Ledger.performanceHistory (fst final))
            (Binary64.Audit.attributed (snd final))
    /\ Binary64.Audit.same
         (Binary64.Audit.sumPnl (Binary64.Ledger.performanceHistory (fst final)))
         (Binary64.Audit.total (Binary64.Audit.attributed (snd final))).
Proof.
  intros ops l Hpositions Hhistory Hops Hexact final.
  assert (Hfinal : Binary64.Audit.consistent final).
  { apply binary64_run_consistent; [exact Hops | exact Hexact |].
    unfold Binary64.Audit.consistent, Binary64.Audit.empty. rewrite Hpositions, Hhistory.
    cbn [Binary64.Audit.opened Binary64.Audit.attributed].
    split; [constructor|]. split; [intros key p Hget; discriminate Hget | constructor]. }
  destruct final as [l' audit]. destruct Hfinal as (_ & _ & Hall).
  split; [exact Hall|].
  apply binary64_sums_agree; [exact Hall | reflexivity].
Qed.

Lemma realized_pnl_witness :
  Binary64.Ledger.positions Binary64.PortfolioManager.initial = []
  /\ Binary64.Ledger.performanceHistory Binary64.PortfolioManager.initial = []
  /\ Forall Binary64.Audit.tradesTwoAssets Cases.fractional
  /\ Binary64.Audit.roundsNowhere Cases.fractional Binary64.PortfolioManager.initial = true
  /\ Binary64.Audit.same
       (Binary64.Audit.sumPnl
          (Binary64.Ledger.performanceHistory
             (fst (Binary64.Audit.run Cases.fractional Binary64.PortfolioManager.initial))))
       (Binary64.Audit.total
          (Binary64.Audit.attributed
             (snd (Binary64.Audit.run Cases.fractional Binary64.PortfolioManager.initial)))).
Proof.
  assert (Hops : Forall Binary64.Audit.tradesTwoAssets Cases.fractional).
  { repeat constructor; cbn; discriminate. }
  assert (Hexact : Binary64.Audit.roundsNowhere Cases.fractional
                     Binary64.PortfolioManager.initial = true).
  { vm_compute. reflexivity. }
  split; [reflexivity|]. split; [reflexivity|]. split; [exact Hops|].
  split; [exact Hexact|].
  exact (proj2 (@realized_pnl_is_conserved Cases.fractional
                  Binary64.PortfolioManager.initial eq_refl eq_refl Hops Hexact)).
Defined.

(** Without either hypothesis the property fails.

    On a single asset: a short USDT/USDT position of 5 units is opened at 1
    and closed at 1.  Nothing rounds.  The recorded profit is 0; the opening
    raised the balance of USDT by 5 and the closing left it there.

    Under rounding: a long position of 3 BTC/USDT is opened at 0.1 on the
    balances of the constructor and closed at 0.3.  The recorded profit is
    the float nearest to 0.6, and the balance of USDT goes from 10000 to the
    float nearest to 10000.6: it has changed by 329853488333 / 549755813888,
    which is not the profit. *)
Lemma conservation_fails_on_a_single_asset_and_under_rounding :
  (let final := Binary64.Audit.run Cases.sameAsset Binary64.PortfolioManager.initial in
   Binary64.Audit.roundsNowhere Cases.sameAsset Binary64.PortfolioManager.initial = true
   /\ map Binary64.Trade.pnl (Binary64.Ledger.performanceHistory (fst final))
      = [(- 0)%float]
   /\ Binary64.Audit.same
        (Binary64.Audit.sumPnl (Binary64.Ledger.performanceHistory (fst final))) (Some 0%Q)
   /\ Binary64.Audit.same
        (Binary64.Audit.total (Binary64.Audit.attributed (snd final))) (Some (5 # 1)%Q)
   /\ ~ Binary64.Audit.same
          (Binary64.Audit.sumPnl (Binary64.Ledger.performanceHistory (fst final)))
          (Binary64.Audit.total (Binary64.Audit.attributed (snd final))))
  /\ (let final := Binary64.Audit.run Cases.dimes Binary64.PortfolioManager.initial in
      Forall Binary64.Audit.tradesTwoAssets Cases.dimes
      /\ Binary64.Audit.roundsNowhere Cases.dimes Binary64.PortfolioManager.initial = false
      /\ Binary64.Audit.balanceOf (Some "USDT") Binary64.PortfolioManager.initial
         = 10000%float
      /\ Binary64.Audit.balanceOf (Some "USDT") (fst final) = 10000.6%float
      /\ map Binary64.Trade.pnl (Binary64.Ledger.performanceHistory (fst final))
         = [0.6%float]
      /\ Binary64.Audit.same
           (Binary64.Audit.sumPnl (Binary64.Ledger.performanceHistory (fst final)))
           (Some (5404319552844595 # 9007199254740992)%Q)
      /\ Binary64.Audit.same
           (Binary64.Audit.total (Binary64.Audit.attributed (snd final)))
           (Some (329853488333 # 549755813888)%Q)
      /\ ~ Binary64.Audit.same
             (Binary64.Audit.sumPnl (Binary64.Ledger.performanceHistory (fst final)))
             (Binary64.Audit.total (Binary64.Audit.attributed (snd final)))).
Proof.
  split; cbv zeta.
  - split; [vm_compute; reflexivity|]. split; [vm_compute; reflexivity|].
    split; [vm_compute; reflexivity|]. split; [vm_compute; reflexivity|].
    intros H. vm_compute in H. discriminate H.
  - split; [repeat constructor; cbn; discriminate|].
    split; [vm_compute; reflexivity|]. split; [vm_compute; reflexivity|].
    split; [vm_compute; reflexivity|]. split; [vm_compute; reflexivity|].
    split; [vm_compute; reflexivity|]. split; [vm_compute; reflexivity|].
    intros H. vm_compute in H. discriminate H.
Qed.

(** ** Export and import *)

Lemma forEach_balanceSet (entries : list (string * Q)) (env : Env.t) (w : World.t) :
  forEach (fun entry => PortfolioManager.balanceSet (Some (fst entry)) (snd entry))
          entries env w
  = (Ok tt,
     World.make
       (Ledger.make (Ledger.positions (World.portfolioManager w))
          (fold_left (fun m entry => JsMap.set (Some (fst entry)) (snd entry) m) entries
                     (Ledger.balance (World.portfolioManager w)))
          (Ledger.performanceHistory (World.portfolioManager w)))
       (World.riskManager w) (World.engine w) (World.moment w) (World.journal w)).
Proof.
  revert w. induction entries as [|entry rest IH]; intros w.
  - destruct w as [[positions balance history] risk engine moment journal]. reflexivity.
  - cbn [forEach fold_left]. unfold bind at 1.
    unfold PortfolioManager.balanceSet at 1, modifyLedger, modify.
    rewrite IH. reflexivity.
Qed.

Lemma forEach_setPositions (imported : list Position.t) (env : Env.t) (w : World.t) :
  forEach (fun pos => PortfolioManager.setPositions (JsMap.set (Position.id pos) pos))
          imported env w
  = (Ok tt,
     World.make
       (Ledger.make
          (fold_left (fun m pos => JsMap.set (Position.id pos) pos m) imported
                     (Ledger.positions (World.portfolioManager w)))
          (Ledger.balance (World.portfolioManager w))
          (Ledger.performanceHistory (World.portfolioManager w)))
       (World.riskManager w) (World.engine w) (World.moment w) (World.journal w)).
Proof.
  revert w. induction imported as [|pos rest IH]; intros w.
  - destruct w as [[positions balance history] risk engine moment journal]. reflexivity.
  - cbn [forEach fold_left]. unfold bind at 1.
    unfold PortfolioManager.setPositions at 1, modifyLedger, modify.
    rewrite IH. reflexivity.
Qed.

(** What [importPortfolio] does with a complete object. *)
Lemma importPortfolio_complete (timestamp : option Z) (balance : JsObject.t Q)
    (positions : list Position.t) (performance : option Metrics.t)
    (recentTrades : list Trade.t) (env : Env.t) (w : World.t) :
  PortfolioManager.importPortfolio
    (PortfolioData.make timestamp (Some balance) (Some positions) performance
                        (Some recentTrades)) env w
  = (Ok tt,
     World.make
       (Ledger.make
          (fold_left (fun m pos => JsMap.set (Position.id pos) pos m) positions JsMap.empty)
          (fold_left (fun m entry => JsMap.set (Some (fst entry)) (snd entry) m)
                     (JsObject.entries balance) JsMap.empty)
          recentTrades)
       (World.riskManager w) (World.engine w) (World.moment w)
       (World.journal w ++ [Log INFO PortfolioImported])).
Proof.
  unfold PortfolioManager.importPortfolio, tryCatch.
  cbn [PortfolioData.balance PortfolioData.positions PortfolioData.recentTrades].
  unfold bind at 1. unfold modifyLedger at 1, modify at 1.
  unfold bind at 1. rewrite forEach_balanceSet.
  unfold bind at 1. rewrite forEach_setPositions.
  reflexivity.
Qed.

Lemma define_fresh (k : string) (v : Q) (o : JsObject.t Q) :
  JsString.arrayIndex k = None ->
  ~ In k (JsMap.keys o) ->
  JsObject.define k v o = o ++ [(k, v)].
Proof.
  intros Hplain Hfresh. unfold JsObject.define, JsMap.has.
  apply (get_None_iff string_key_spec) in Hfresh. rewrite Hfresh, Hplain. reflexivity.
Qed.

(** The entry of the exported object for an entry of the balance map. *)
Lemma fromEntries_plain (balance : JsMap.t (option string) Q) (acc : JsObject.t Q) :
  Forall (fun entry => exists asset, fst entry = Some asset
                                     /\ JsString.arrayIndex asset = None) balance ->
  NoDup (map Some (JsMap.keys acc) ++ JsMap.keys balance) ->
  fold_left (fun o kv => JsObject.define (JsObject.propertyKey (fst kv)) (snd kv) o)
            balance acc
  = acc ++ map (fun entry => (JsObject.propertyKey (fst entry), snd entry)) balance.
Proof.
  intros Hplain. revert acc.
  induction Hplain as [|[key amount] rest (asset & Hkey & Hindex) _ IH]; intros acc Hnodup.
  - cbn. rewrite app_nil_r. reflexivity.
  - cbn in Hkey. subst key. cbn [fold_left fst snd map JsObject.propertyKey].
    cbn in Hnodup.
    assert (Hfresh : ~ In asset (JsMap.keys acc)).
    { intros Hin. apply NoDup_remove_2 in Hnodup. apply Hnodup.
      apply in_or_app. left. apply in_map. exact Hin. }
    rewrite (@define_fresh asset amount acc Hindex Hfresh). rewrite IH.
    + rewrite <- app_assoc. reflexivity.
    + unfold JsMap.keys. rewrite map_app, map_app. cbn.
      rewrite <- app_assoc. exact Hnodup.
Qed.

Lemma reimport_balance (balance acc : JsMap.t (option string) Q) :
  Forall (fun entry => exists asset, fst entry = Some asset
                                     /\ JsString.arrayIndex asset = None) balance ->
  fold_left (fun m entry => JsMap.set (Some (fst entry)) (snd entry) m)
            (map (fun entry => (JsObject.propertyKey (fst entry), snd entry)) balance) acc
  = fold_left (fun m entry => JsMap.set (fst entry) (snd entry) m) balance acc.
Proof.
  intros Hplain. revert acc.
  induction Hplain as [|[key amount] rest (asset & Hkey & _) _ IH]; intros acc.
  - reflexivity.
  - cbn in Hkey. subst key. cbn. apply IH.
Qed.

Lemma reimport_positions (positions acc : JsMap.t string Position.t) :
  Forall (fun entry => Position.id (snd entry) = fst entry) positions ->
  fold_left (fun m pos => JsMap.set (Position.id pos) pos m)
            (map PortfolioManager.exported (JsMap.values positions)) acc
  = fold_left (fun m entry => JsMap.set (fst entry) (snd entry) m)
              (map (fun entry => (fst entry, PortfolioManager.exported (snd entry)))
                   positions) acc.
Proof.
  intros Hkeys. revert acc.
  induction Hkeys as [|[key position] rest Hkey _ IH]; intros acc.
  - reflexivity.
  - cbn in Hkey. subst key. cbn. apply IH.
Qed.

(** C2 (amended).  On a ledger whose positions are stored under their
    ids and whose balances are stored under asset names, [exportPortfolio]
    followed by [importPortfolio] of the exported object yields the same
    balance map, the same open positions reduced to the seven properties
    that the export writes ([id], [symbol], [side], [quantity],
    [entryPrice], [currentPrice], [unrealizedPnl]), and the last twenty
    records of the closed-trade history.  [stopLoss], [takeProfit],
    [timestamp], [value] and [realizedPnl] of a position do not survive. *)
Theorem export_then_import :
  forall (env : Env.t) (w : World.t),
    Wellformed.positions (World.portfolioManager w) ->
    Wellformed.balance (World.portfolioManager w) ->
    exists data : PortfolioData.t,
      PortfolioManager.exportPortfolio env w
        = (Ok data,
           World.make (World.portfolioManager w) (World.riskManager w) (World.engine w)
                      (S (World.moment w)) (World.journal w))
      /\ (forall (env' : Env.t) (w' : World.t),
            fst (PortfolioManager.importPortfolio data env' w') = Ok tt
            /\ World.portfolioManager (snd (PortfolioManager.importPortfolio data env' w'))
               = Ledger.make
                   (map (fun entry => (fst entry, PortfolioManager.exported (snd entry)))
                        (Ledger.positions (World.portfolioManager w)))
                   (Ledger.balance (World.portfolioManager w))
                   (PortfolioManager.sliceLast 20
                      (Ledger.performanceHistory (World.portfolioManager w))))
      /\ (forall p : Position.t,
            let e := PortfolioManager.exported p in
            Position.id e = Position.id p
            /\ Position.symbol e = Position.symbol p
            /\ Position.side e = Position.side p
            /\ Position.quantity e = Position.quantity p
            /\ Position.entryPrice e = Position.entryPrice p
            /\ Position.currentPrice e = Position.currentPrice p
            /\ Position.unrealizedPnl e = Position.unrealizedPnl p
            /\ Position.stopLoss e = None
            /\ Position.takeProfit e = None
            /\ Position.timestamp e = None
            /\ Position.value e = None
            /\ Position.realizedPnl e = None).
Proof.
  intros env w [Hwf Hids] [Hbwf Hplain].
  eexists. split; [reflexivity|]. split.
  - intros env' w'. rewrite importPortfolio_complete.
    cbn [fst snd World.portfolioManager]. split; [reflexivity|].
    f_equal.
    + rewrite (reimport_positions _ Hids).
      rewrite (rebuild string_key_spec).
      * reflexivity.
      * cbn. unfold JsMap.keys. rewrite map_map. cbn. exact Hwf.
    + unfold JsObject.entries, JsObject.fromEntries.
      rewrite (fromEntries_plain _ Hplain) by exact Hbwf.
      cbn [app]. rewrite (reimport_balance _ Hplain).
      rewrite (rebuild ostring_key_spec).
      * reflexivity.
      * exact Hbwf.
  - intros p e. subst e. repeat split.
Qed.

Lemma export_then_import_witness :
  Wellformed.positions (World.portfolioManager Scenario.seasoned)
  /\ Wellformed.balance (World.portfolioManager Scenario.seasoned)
  /\ exists data : PortfolioData.t,
       PortfolioManager.exportPortfolio Scenario.calm Scenario.seasoned
         = (Ok data,
            World.make (World.portfolioManager Scenario.seasoned)
                       (World.riskManager Scenario.seasoned)
                       (World.engine Scenario.seasoned) 1 [])
       /\ World.portfolioManager
            (snd (PortfolioManager.importPortfolio data Scenario.calm Scenario.seasoned))
          = Ledger.make
              [("p1", PortfolioManager.exported Scenario.shortBtc)]
              PortfolioManager.initializeBalance
              (PortfolioManager.sliceLast 20 Scenario.longHistory).
Proof.
  assert (Hpositions : Wellformed.positions (World.portfolioManager Scenario.seasoned)).
  { split.
    - unfold JsMap.wf. cbn. constructor; [intros [] | constructor].
    - constructor; [reflexivity | constructor]. }
  assert (Hbalance : Wellformed.balance (World.portfolioManager Scenario.seasoned)).
  { split.
    - unfold JsMap.wf. cbn.
      repeat (constructor; [cbn; intuition discriminate|]). constructor.
    - repeat (constructor; [eexists; split; reflexivity|]). constructor. }
  split; [exact Hpositions|]. split; [exact Hbalance|].
  destruct (@export_then_import Scenario.calm Scenario.seasoned Hpositions Hbalance)
    as (data & Hexport & Himport & _).
  exists data. split; [exact Hexport|].
  exact (proj2 (Himport Scenario.calm Scenario.seasoned)).
Defined.

(** The round trip is not the identity: after it the position has lost
    its stop, its target and its opening time, and the history has lost its
    oldest record. *)
Lemma round_trip_loses_protective_levels_and_old_trades :
  map Position.stopLoss
      (JsMap.values (Ledger.positions (World.portfolioManager Scenario.seasoned)))
    = [Some (102 # 1)]
  /\ map Position.stopLoss
         (JsMap.values (Ledger.positions (World.portfolioManager Scenario.reimported)))
     = [None]
  /\ map Position.takeProfit
         (JsMap.values (Ledger.positions (World.portfolioManager Scenario.reimported)))
     = [None]
  /\ map Position.timestamp
         (JsMap.values (Ledger.positions (World.portfolioManager Scenario.reimported)))
     = [None]
  /\ List.length (Ledger.performanceHistory (World.portfolioManager Scenario.seasoned)) = 21%nat
  /\ List.length (Ledger.performanceHistory (World.portfolioManager Scenario.reimported))
     = 20%nat
  /\ World.portfolioManager Scenario.reimported <> World.portfolioManager Scenario.seasoned.
Proof.
  repeat (split; [reflexivity|]).
  intros H.
  apply (f_equal (fun l => List.length (Ledger.performanceHistory l))) in H.
  vm_compute in H. discriminate H.
Qed.

(* ================================================================== *)
(** * Further properties of the three classes *)

(** ** What a method leaves alone *)

Lemma keeps_ret (A : Type) (P : World.t -> Prop) (a : A) : keeps P (ret a).
Proof. intros env w HP. exact HP. Qed.

Lemma keeps_throw (A : Type) (P : World.t -> Prop) (e : Err) : keeps P (@throw A e).
Proof. intros env w HP. exact HP. Qed.

Lemma keeps_bind (A B : Type) (P : World.t -> Prop) (c : M A) (k : A -> M B) :
  keeps P c -> (forall a : A, keeps P (k a)) -> keeps P (bind c k).
Proof.
  intros Hc Hk env w HP. unfold bind. specialize (Hc env w HP).
  destruct (c env w) as [[a|e] w']; cbn in *.
  - apply Hk. exact Hc.
  - exact Hc.
Qed.

Lemma keeps_tryCatch (A : Type) (P : World.t -> Prop) (body : M A) (handler : Err -> M A) :
  keeps P body -> (forall e : Err, keeps P (handler e)) -> keeps P (tryCatch body handler).
Proof.
  intros Hbody Hhandler env w HP. unfold tryCatch. specialize (Hbody env w HP).
  destruct (body env w) as [[a|e] w']; cbn in *.
  - exact Hbody.
  - apply Hhandler. exact Hbody.
Qed.

Lemma keeps_forEach (A : Type) (P : World.t -> Prop) (body : A -> M unit) (xs : list A) :
  (forall x : A, keeps P (body x)) -> keeps P (forEach body xs).
Proof.
  intros Hbody. induction xs as [|x rest IH]; cbn [forEach].
  - apply keeps_ret.
  - apply keeps_bind; [apply Hbody | intros _; exact IH].
Qed.

Lemma keeps_modify (P : World.t -> Prop) (f : World.t -> World.t) :
  (forall w : World.t, P w -> P (f w)) -> keeps P (modify f).
Proof. intros Hf env w HP. apply Hf. exact HP. Qed.

Lemma returns_ret (A : Type) (a : A) : returns (ret a).
Proof. intros env w. exists a. reflexivity. Qed.

Lemma returns_bind (A B : Type) (c : M A) (k : A -> M B) :
  returns c -> (forall a : A, returns (k a)) -> returns (bind c k).
Proof.
  intros Hc Hk env w. unfold bind. destruct (Hc env w) as [a Ha].
  destruct (c env w) as [[a'|e] w']; cbn in Ha; [|discriminate].
  apply Hk.
Qed.

Lemma returns_tryCatch (A : Type) (body : M A) (handler : Err -> M A) :
  (forall e : Err, returns (handler e)) -> returns (tryCatch body handler).
Proof.
  intros Hhandler env w. unfold tryCatch.
  destruct (body env w) as [[a|e] w'].
  - exists a. reflexivity.
  - apply Hhandler.
Qed.

Lemma returns_forEach (A : Type) (body : A -> M unit) (xs : list A) :
  (forall x : A, returns (body x)) -> returns (forEach body xs).
Proof.
  intros Hbody. induction xs as [|x rest IH]; cbn [forEach].
  - apply returns_ret.
  - apply returns_bind; [apply Hbody | intros _; exact IH].
Qed.

(** The steps that concern neither of the three objects, or one only. *)
Ltac untouched := intros ? ? HP; exact HP.

(** Splits a goal [keeps P c] along the structure of [c]. *)
Ltac frame_step :=
  match goal with
  | |- keeps _ (ret _) => apply keeps_ret
  | |- keeps _ (throw _) => apply keeps_throw
  | |- keeps _ (bind _ _) => apply keeps_bind; [|intros ?]
  | |- keeps _ (tryCatch _ _) => apply keeps_tryCatch; [|intros ?]
  | |- keeps _ (forEach _ _) => apply keeps_forEach; intros ?
  | |- keeps _ (if ?b then _ else _) => destruct b
  | |- keeps _ (match ?x with Some _ => _ | None => _ end) => destruct x
  | |- keeps _ (log _ _) => untouched
  | |- keeps _ (emit _) => untouched
  | |- keeps _ (record _) => untouched
  | |- keeps _ (consult _) => untouched
  | |- keeps _ dateNow => untouched
  | |- keeps _ getWorld => untouched
  | |- keeps _ getLedger => untouched
  | |- keeps _ getRisk => untouched
  | |- keeps _ getEngine => untouched
  | |- keeps _ (database _) => unfold database
  end.

Ltac frame := repeat frame_step.

(** ** The ledger: lookups after an opening *)

(** X1.  [addPosition] registers the position before it writes to the
    database and rolls nothing back: it throws exactly when the database
    rejects the write, and in both cases [getPositionById] then finds the
    position under its id, and [getOpenPositions] lists it. *)
Theorem added_position_is_found_even_when_the_database_rejects :
  forall (env : Env.t) (w : World.t) (position : Position.t),
    let w' := snd (PortfolioManager.addPosition position env w) in
    fst (PortfolioManager.addPosition position env w)
      = (if Env.dbRejects env (World.moment w) (SavePosition position)
         then Throw (Rejected "database") else Ok tt)
    /\ fst (PortfolioManager.getPositionById (Position.id position) env w')
       = Ok (Some position)
    /\ exists positions : list Position.t,
         fst (PortfolioManager.getOpenPositions env w') = Ok positions
         /\ In position positions.
Proof.
  intros env w position w'. split; [|split].
  - unfold PortfolioManager.addPosition, tryCatch, PortfolioManager.setPositions,
      PortfolioManager.balanceGet, PortfolioManager.balanceSet, database, emit, log,
      record, consult, getLedger, getWorld, modifyLedger, modify, throw.
    destruct (Position.isBuy position);
      cbv beta iota zeta delta [bind ret];
      cbn [World.portfolioManager World.riskManager World.engine World.moment World.journal
           Ledger.positions Ledger.balance Ledger.performanceHistory];
      destruct (Env.dbRejects env _ _); reflexivity.
  - subst w'. unfold PortfolioManager.getPositionById, getLedger, getWorld.
    cbv beta iota zeta delta [bind ret fst].
    rewrite addPosition_ledger. cbn [Ledger.positions].
    rewrite (get_set_same string_key_spec). reflexivity.
  - subst w'. unfold PortfolioManager.getOpenPositions, getLedger, getWorld.
    cbv beta iota zeta delta [bind ret fst].
    rewrite addPosition_ledger. cbn [Ledger.positions].
    eexists. split; [reflexivity|].
    unfold JsMap.values. apply in_map_iff. exists (Position.id position, position).
    split; [reflexivity|].
    generalize (Ledger.positions (World.portfolioManager w)).
    intros m. induction m as [|[k v] rest IH]; cbn.
    + left. reflexivity.
    + destruct (key_eqb (Position.id position) k) eqn:E.
      * apply string_key_spec in E. subst k. left. reflexivity.
      * right. exact IH.
Qed.

(** ** The ledger: the history is bounded *)

Lemma pushed_within_bound (A : Type) (x : A) (xs : list A) :
  (List.length xs <= 1000)%nat ->
  let pushed := xs ++ [x] in
  (List.length (if (1000 <? List.length pushed)%nat then tl pushed else pushed) <= 1000)%nat.
Proof.
  intros Hlen pushed. subst pushed.
  destruct (1000 <? List.length (xs ++ [x]))%nat eqn:E.
  - destruct xs as [|y ys]; [cbn in E; discriminate|].
    cbn [app tl]. rewrite length_app. cbn [List.length] in *. lia.
  - apply Nat.ltb_ge in E. exact E.
Qed.


Lemma recordPerformance_bounded (trade : Trade.t) :
  keeps (fun w => (List.length (Ledger.performanceHistory (World.portfolioManager w))
                   <= 1000)%nat)
        (PortfolioManager.recordPerformance trade).
Proof.
  unfold PortfolioManager.recordPerformance. frame.
  unfold PortfolioManager.setHistory, modifyLedger. apply keeps_modify.
  intros w Hw. cbn [World.portfolioManager Ledger.performanceHistory].
  apply pushed_within_bound. exact Hw.
Qed.

Lemma closePosition_bounded (positionId : string) (exitPrice : option Q) :
  keeps (fun w => (List.length (Ledger.performanceHistory (World.portfolioManager w))
                   <= 1000)%nat)
        (PortfolioManager.closePosition positionId exitPrice).
Proof.
  unfold PortfolioManager.closePosition.
  apply keeps_bind; [untouched|]. intros l.
  destruct (JsMap.get positionId (Ledger.positions l)); [|apply keeps_throw].
  unfold PortfolioManager.balanceGet, PortfolioManager.balanceSet,
    PortfolioManager.setPositions, modifyLedger.
  repeat first [ apply recordPerformance_bounded
               | apply keeps_modify; intros w Hw; exact Hw
               | frame_step ].
Qed.

Lemma updatePrices_bounded (prices : JsMap.t string Q) :
  keeps (fun w => (List.length (Ledger.performanceHistory (World.portfolioManager w))
                   <= 1000)%nat)
        (PortfolioManager.updatePrices prices).
Proof.
  unfold PortfolioManager.updatePrices.
  apply keeps_bind; [untouched|]. intros l0.
  apply keeps_forEach. intros key.
  unfold PortfolioManager.updatePrice.
  apply keeps_bind; [untouched|]. intros l.
  destruct (JsMap.get key (Ledger.positions l)) as [position|]; [|apply keeps_ret].
  destruct (JsMap.get (Position.symbol position) prices) as [currentPrice|];
    [|apply keeps_ret].
  unfold PortfolioManager.setPositions, modifyLedger.
  repeat first [ apply closePosition_bounded
               | apply keeps_modify; intros w Hw; exact Hw
               | frame_step ].
Qed.

Lemma importPortfolio_ledger (data : PortfolioData.t) (env : Env.t) (w : World.t) :
  PortfolioManager.importPortfolio data env w
  = (Ok tt,
     World.make
       (Ledger.make
          (fold_left (fun m pos => JsMap.set (Position.id pos) pos m)
                     (match PortfolioData.positions data with
                      | Some positions => positions | None => [] end)
                     JsMap.empty)
          (fold_left (fun m entry => JsMap.set (Some (fst entry)) (snd entry) m)
                     (match PortfolioData.balance data with
                      | Some object => JsObject.entries object | None => [] end)
                     JsMap.empty)
          (match PortfolioData.recentTrades data with
           | Some trades => trades | None => [] end))
       (World.riskManager w) (World.engine w) (World.moment w)
       (World.journal w ++ [Log INFO PortfolioImported])).
Proof.
  destruct data as [timestamp balance positions performance recentTrades].
  unfold PortfolioManager.importPortfolio, tryCatch.
  cbn [PortfolioData.balance PortfolioData.positions PortfolioData.recentTrades].
  unfold bind at 1. unfold modifyLedger at 1, modify at 1.
  unfold bind at 1.
  destruct balance as [object|].
  - rewrite forEach_balanceSet. unfold bind at 1.
    destruct positions as [positions|].
    + rewrite forEach_setPositions. destruct recentTrades; reflexivity.
    + destruct recentTrades; reflexivity.
  - unfold ret at 1. unfold bind at 1.
    destruct positions as [positions|].
    + rewrite forEach_setPositions. destruct recentTrades; reflexivity.
    + destruct recentTrades; reflexivity.
Qed.

(** X2.  The history of closed trades stays within 1000 records as long
    as no longer history is imported.  Whatever sequence of [addPosition],
    [updatePosition], [closePosition], [updatePrices] and [importPortfolio]
    is run on a ledger whose history is within the bound, whatever the calls
    throw and whatever the database answers, the history stays within the
    bound, provided that every imported object carries at most 1000 closed
    trades.  The proviso is needed: [importPortfolio] installs the history
    that it is given as it is, of whatever length. *)
Theorem history_stays_within_a_thousand_trades :
  forall (env : Env.t) (ops : list Session.Op) (w : World.t),
    (List.length (Ledger.performanceHistory (World.portfolioManager w)) <= 1000)%nat ->
    Forall Session.importsWithinBound ops ->
    (List.length
       (Ledger.performanceHistory (World.portfolioManager (Session.run env ops w)))
     <= 1000)%nat
    /\ forall data : PortfolioData.t,
         Ledger.performanceHistory
           (World.portfolioManager (Session.run env [Session.Import data] w))
         = Session.imported data.
Proof.
  intros env ops w Hw Hops. split.
  2: { intros data. unfold Session.run. cbn [fold_left Session.perform].
       rewrite importPortfolio_ledger. reflexivity. }
  revert w Hw. unfold Session.run.
  induction Hops as [|op rest Hop Hrest IH]; intros w Hw; cbn [fold_left]; [exact Hw|].
  apply IH. clear IH Hrest rest.
  destruct op as [position|positionId updates|positionId exitPrice|prices|data];
    cbn [Session.perform].
  - revert env w Hw.
    change (keeps (fun w => (List.length (Ledger.performanceHistory
                                            (World.portfolioManager w)) <= 1000)%nat)
                  (PortfolioManager.addPosition position)).
    unfold PortfolioManager.addPosition, PortfolioManager.balanceGet,
      PortfolioManager.balanceSet, PortfolioManager.setPositions, modifyLedger.
    repeat first [ apply keeps_modify; intros w Hw; exact Hw | frame_step ].
  - revert env w Hw.
    change (keeps (fun w => (List.length (Ledger.performanceHistory
                                            (World.portfolioManager w)) <= 1000)%nat)
                  (PortfolioManager.updatePosition positionId updates)).
    unfold PortfolioManager.updatePosition.
    apply keeps_bind; [untouched|]. intros l.
    destruct (JsMap.get positionId (Ledger.positions l)); [|apply keeps_throw].
    unfold PortfolioManager.setPositions, modifyLedger.
    repeat first [ apply keeps_modify; intros w Hw; exact Hw | frame_step ].
  - apply closePosition_bounded. exact Hw.
  - apply updatePrices_bounded. exact Hw.
  - rewrite importPortfolio_ledger.
    cbn [snd World.portfolioManager Ledger.performanceHistory]. exact Hop.
Qed.

Lemma history_bound_witness :
  (List.length (Ledger.performanceHistory (World.portfolioManager Cases.brimful))
   <= 1000)%nat
  /\ Forall Session.importsWithinBound Cases.busy
  /\ (List.length
        (Ledger.performanceHistory
           (World.portfolioManager (Session.run Scenario.calm Cases.busy Cases.brimful)))
      <= 1000)%nat.
Proof.
  assert (H1 : (List.length (Ledger.performanceHistory
                               (World.portfolioManager Cases.brimful)) <= 1000)%nat).
  { cbn [Cases.brimful Scenario.holding World.portfolioManager Ledger.performanceHistory].
    rewrite repeat_length. apply Nat.le_refl. }
  assert (H2 : Forall Session.importsWithinBound Cases.busy).
  { unfold Cases.busy. constructor; [exact I|]. constructor; [cbn; lia|].
    constructor; [exact I|]. constructor. }
  split; [exact H1|]. split; [exact H2|].
  exact (proj1 (@history_stays_within_a_thousand_trades Scenario.calm Cases.busy
                  Cases.brimful H1 H2)).
Defined.

(** ** The ledger: closing a position *)

Lemma closePosition_outcome (positionId : string) (exitPrice : option Q)
    (position : Position.t) (env : Env.t) (w : World.t) :
  JsMap.get positionId (Ledger.positions (World.portfolioManager w)) = Some position ->
  let price :=
    Qor exitPrice (Qor (Position.currentPrice position) (Position.entryPrice position)) in
  fst (PortfolioManager.closePosition positionId exitPrice env w)
  = if Env.dbRejects env (S (S (World.moment w)))
         (ClosePosition positionId price (PortfolioManager.calculatePnL position price))
    then Throw (Rejected "database") else Ok tt.
Proof.
  intros Hget price. subst price.
  unfold PortfolioManager.closePosition.
  unfold bind at 1. unfold getLedger, getWorld. cbv beta iota zeta delta [bind ret].
  rewrite Hget.
  unfold PortfolioManager.recordPerformance, PortfolioManager.setHistory, tryCatch,
    PortfolioManager.setPositions, PortfolioManager.balanceGet,
    PortfolioManager.balanceSet, database, emit, log, dateNow,
    record, consult, getLedger, getWorld, modifyLedger, modify, throw.
  destruct (Position.isBuy position);
    cbv beta iota zeta delta [bind ret];
    cbn [World.portfolioManager World.riskManager World.engine World.moment World.journal
         Ledger.positions Ledger.balance Ledger.performanceHistory];
    (match goal with
     | |- context [Env.dbRejects env ?n (SaveTrade ?t)] =>
         destruct (Env.dbRejects env n (SaveTrade t))
     end);
    cbv beta iota zeta;
    cbn [World.portfolioManager World.riskManager World.engine World.moment World.journal
         Ledger.positions Ledger.balance Ledger.performanceHistory];
    (match goal with
     | |- context [Env.dbRejects env ?n (ClosePosition ?a ?b ?c)] =>
         destruct (Env.dbRejects env n (ClosePosition a b c))
     end);
    reflexivity.
Qed.

(** X3.  [closePosition] on an open position removes it from the map of
    open positions and leaves the other positions as they are; it appends to
    the history one record that carries the position's id, symbol, side,
    entry price and quantity, the closing price (the exit price given, else
    the last price seen, else the entry price) and the profit computed by
    [calculatePnL] at that price, dropping the oldest record when there are
    more than 1000.  This holds also when the database rejects the write,
    which is the one case in which the method throws. *)
Theorem closed_position_is_removed_and_recorded :
  forall (env : Env.t) (w : World.t) (positionId : string) (exitPrice : option Q)
         (position : Position.t),
    JsMap.wf (Ledger.positions (World.portfolioManager w)) ->
    JsMap.get positionId (Ledger.positions (World.portfolioManager w)) = Some position ->
    let price :=
      Qor exitPrice (Qor (Position.currentPrice position) (Position.entryPrice position)) in
    let pnl := PortfolioManager.calculatePnL position price in
    let trade :=
      Trade.make positionId (Position.symbol position) (Position.side position)
                 (Position.entryPrice position) price (Position.quantity position) pnl
                 (Env.clock env (World.moment w)) in
    let history := Ledger.performanceHistory (World.portfolioManager w) in
    let w' := snd (PortfolioManager.closePosition positionId exitPrice env w) in
    fst (PortfolioManager.getPositionById positionId env w') = Ok None
    /\ (forall other : string,
          other <> positionId ->
          JsMap.get other (Ledger.positions (World.portfolioManager w'))
          = JsMap.get other (Ledger.positions (World.portfolioManager w)))
    /\ Ledger.performanceHistory (World.portfolioManager w')
       = (if (List.length history <? 1000)%nat then history ++ [trade]
          else tl (history ++ [trade]))
    /\ fst (PortfolioManager.closePosition positionId exitPrice env w)
       = (if Env.dbRejects env (S (S (World.moment w))) (ClosePosition positionId price pnl)
          then Throw (Rejected "database") else Ok tt).
Proof.
  intros env w positionId exitPrice position Hwf Hget price pnl trade history w'.
  subst w'. split; [|split; [|split]].
  - unfold PortfolioManager.getPositionById, getLedger, getWorld.
    cbv beta iota zeta delta [bind ret fst].
    rewrite (@closePosition_ledger positionId exitPrice position env w Hget).
    cbn [Ledger.positions].
    rewrite (get_delete_same string_key_spec); [reflexivity | exact Hwf].
  - intros other Hother.
    rewrite (@closePosition_ledger positionId exitPrice position env w Hget).
    cbn [Ledger.positions].
    apply (get_delete_other string_key_spec). exact Hother.
  - rewrite (@closePosition_ledger positionId exitPrice position env w Hget).
    cbn [Ledger.performanceHistory]. fold price. fold pnl. fold trade. fold history.
    rewrite length_app. cbn [List.length].
    replace (1000 <? List.length history + 1)%nat
      with (negb (List.length history <? 1000)%nat).
    + destruct (List.length history <? 1000)%nat; reflexivity.
    + destruct (List.length history <? 1000)%nat eqn:E.
      * apply Nat.ltb_lt in E. symmetry. apply Nat.ltb_ge. lia.
      * apply Nat.ltb_ge in E. symmetry. apply Nat.ltb_lt. lia.
  - apply (@closePosition_outcome positionId exitPrice position env w Hget).
Qed.

Lemma closed_position_witness :
  JsMap.wf (Ledger.positions (World.portfolioManager (Scenario.holding Scenario.longBtc [])))
  /\ JsMap.get "p1"
       (Ledger.positions (World.portfolioManager (Scenario.holding Scenario.longBtc [])))
     = Some Scenario.longBtc
  /\ fst (PortfolioManager.getPositionById "p1" Scenario.calm
            (snd (PortfolioManager.closePosition "p1" (Some (110 # 1)) Scenario.calm
                    (Scenario.holding Scenario.longBtc []))))
     = Ok None.
Proof.
  assert (Hwf : JsMap.wf (Ledger.positions
                            (World.portfolioManager (Scenario.holding Scenario.longBtc [])))).
  { unfold JsMap.wf. cbn. constructor; [intros []|constructor]. }
  assert (Hget : JsMap.get "p1"
                   (Ledger.positions
                      (World.portfolioManager (Scenario.holding Scenario.longBtc [])))
                 = Some Scenario.longBtc) by reflexivity.
  split; [exact Hwf|]. split; [exact Hget|].
  exact (proj1 (@closed_position_is_removed_and_recorded Scenario.calm
                  (Scenario.holding Scenario.longBtc []) "p1" (Some (110 # 1))
                  Scenario.longBtc Hwf Hget)).
Defined.

(** X4.  An exit price of 0 is not used: [closePosition(id, 0)] does what
    [closePosition(id)] does, and closes at the last price seen or at the
    entry price. *)
Theorem exit_price_zero_is_ignored :
  forall (env : Env.t) (w : World.t) (positionId : string) (exitPrice : Q),
    (exitPrice == 0)%Q ->
    PortfolioManager.closePosition positionId (Some exitPrice) env w
    = PortfolioManager.closePosition positionId None env w.
Proof.
  intros env w positionId exitPrice Hzero.
  unfold PortfolioManager.closePosition.
  assert (Hor : forall d : Q, Qor (Some exitPrice) d = Qor None d).
  { intros d. unfold Qor. apply Qtruthy_false in Hzero. rewrite Hzero. reflexivity. }
  unfold bind.
  destruct (getLedger env w) as [[l|e] w1]; [|reflexivity].
  destruct (JsMap.get positionId (Ledger.positions l)); [|reflexivity].
  rewrite !Hor. reflexivity.
Qed.

Lemma exit_price_zero_witness :
  (0 == 0)%Q
  /\ PortfolioManager.closePosition "p1" (Some 0) Scenario.calm
       (Scenario.holding Scenario.longBtc [])
     = PortfolioManager.closePosition "p1" None Scenario.calm
         (Scenario.holding Scenario.longBtc []).
Proof.
  assert (H : (0 == 0)%Q) by reflexivity.
  split; [exact H|].
  exact (@exit_price_zero_is_ignored Scenario.calm (Scenario.holding Scenario.longBtc [])
           "p1" 0 H).
Defined.

(** ** The ledger: a sweep of new prices *)

Section EntryFacts.
Context {K V : Type} `{KeyEq K}.
Hypothesis key_spec : forall a b : K, key_eqb a b = true <-> a = b.

Lemma get_In (k : K) (v : V) (m : JsMap.t K V) :
  JsMap.get k m = Some v -> In (k, v) m.
Proof.
  induction m as [|[k0 v0] rest IH]; cbn; [discriminate|].
  destruct (key_eqb k k0) eqn:E.
  - apply key_spec in E. subst k0. intros [= ->]. left. reflexivity.
  - intros Hget. right. apply IH. exact Hget.
Qed.

Lemma Forall_set (P : K * V -> Prop) (k : K) (v : V) (m : JsMap.t K V) :
  P (k, v) -> Forall P m -> Forall P (JsMap.set k v m).
Proof.
  intros Hkv Hall. induction Hall as [|[k0 v0] rest Hhead Hrest IH]; cbn.
  - constructor; [exact Hkv | constructor].
  - destruct (key_eqb k k0) eqn:E.
    + apply key_spec in E. subst k0. constructor; [exact Hkv | exact Hrest].
    + constructor; [exact Hhead | exact IH].
Qed.

Lemma Forall_delete (P : K * V -> Prop) (k : K) (m : JsMap.t K V) :
  Forall P m -> Forall P (JsMap.delete k m).
Proof.
  intros Hall. induction Hall as [|[k0 v0] rest Hhead Hrest IH]; cbn.
  - constructor.
  - destruct (key_eqb k k0); [exact Hrest | constructor; [exact Hhead | exact IH]].
Qed.

End EntryFacts.

Lemma stored_under_its_id (l : Ledger.t) (key : string) (position : Position.t) :
  Wellformed.positions l ->
  JsMap.get key (Ledger.positions l) = Some position ->
  Position.id position = key.
Proof.
  intros [_ Hids] Hget. apply (get_In string_key_spec) in Hget.
  rewrite Forall_forall in Hids. apply (Hids _ Hget).
Qed.

(** The positions after one turn of the loop of [updatePrices]. *)
Lemma updatePrice_positions (prices : JsMap.t string Q) (key : string)
    (env : Env.t) (w : World.t) :
  Wellformed.positions (World.portfolioManager w) ->
  let m := Ledger.positions (World.portfolioManager w) in
  Ledger.positions
    (World.portfolioManager (snd (PortfolioManager.updatePrice prices key env w)))
  = match JsMap.get key m with
    | None => m
    | Some position =>
        match JsMap.get (Position.symbol position) prices with
        | None => m
        | Some price =>
            if Qtruthy price then
              let repriced := PortfolioManager.reprice position price in
              if guard (Position.stopLoss position) (fun stopLoss => Qleb price stopLoss)
                 || guard (Position.takeProfit position)
                          (fun takeProfit => Qgeb price takeProfit)
              then JsMap.delete key (JsMap.set key repriced m)
              else JsMap.set key repriced m
            else m
        end
    end.
Proof.
  intros Hwf m. subst m.
  unfold PortfolioManager.updatePrice.
  unfold bind at 1. unfold getLedger, getWorld. cbv beta iota zeta delta [bind ret].
  destruct (JsMap.get key (Ledger.positions (World.portfolioManager w)))
    as [position|] eqn:Hget; [|reflexivity].
  pose proof (@stored_under_its_id _ _ _ Hwf Hget) as Hid.
  destruct (JsMap.get (Position.symbol position) prices) as [price|]; [|reflexivity].
  destruct (Qtruthy price); [|reflexivity].
  unfold PortfolioManager.setPositions, modifyLedger, modify.
  cbn [Position.stopLoss Position.takeProfit Position.id PortfolioManager.reprice
       Position.spread Position.over Position.p_stopLoss Position.p_takeProfit
       Position.p_id].
  rewrite Hid.
  set (repriced := PortfolioManager.reprice position price).
  assert (Hclosed : forall (w1 : World.t),
             Ledger.positions (World.portfolioManager w1)
             = JsMap.set key repriced (Ledger.positions (World.portfolioManager w)) ->
             Ledger.positions
               (World.portfolioManager
                  (snd (PortfolioManager.closePosition key (Some price) env w1)))
             = JsMap.delete key
                 (JsMap.set key repriced (Ledger.positions (World.portfolioManager w)))).
  { intros w1 Hw1.
    assert (Hin : JsMap.get key (Ledger.positions (World.portfolioManager w1))
                  = Some repriced).
    { rewrite Hw1. apply (get_set_same string_key_spec). }
    rewrite (@closePosition_ledger key (Some price) repriced env w1 Hin).
    cbn [Ledger.positions]. rewrite Hw1. reflexivity. }
  destruct (guard (Position.stopLoss position) (fun stopLoss => Qleb price stopLoss)).
  - cbn [orb]. unfold log, record, modify.
    cbv beta iota zeta delta [bind ret]. apply Hclosed. reflexivity.
  - destruct (guard (Position.takeProfit position)
                    (fun takeProfit => Qgeb price takeProfit)).
    + cbn [orb]. unfold log, record, modify.
      cbv beta iota zeta delta [bind ret]. apply Hclosed. reflexivity.
    + reflexivity.
Qed.

Lemma reprice_id (position : Position.t) (price : Q) :
  Position.id (PortfolioManager.reprice position price) = Position.id position.
Proof. reflexivity. Qed.

Lemma updatePrice_wellformed (prices : JsMap.t string Q) (key : string)
    (env : Env.t) (w : World.t) :
  Wellformed.positions (World.portfolioManager w) ->
  Wellformed.positions
    (World.portfolioManager (snd (PortfolioManager.updatePrice prices key env w))).
Proof.
  intros Hwf. pose proof (@updatePrice_positions prices key env w Hwf) as Hpos.
  cbv zeta in Hpos. unfold Wellformed.positions. rewrite Hpos.
  destruct (JsMap.get key (Ledger.positions (World.portfolioManager w)))
    as [position|] eqn:Hget; [|exact Hwf].
  pose proof (@stored_under_its_id _ _ _ Hwf Hget) as Hid.
  destruct Hwf as [Hnodup Hids].
  destruct (JsMap.get (Position.symbol position) prices) as [price|];
    [|split; assumption].
  destruct (Qtruthy price); [|split; assumption].
  assert (Hrepriced :
            JsMap.wf (JsMap.set key (PortfolioManager.reprice position price)
                        (Ledger.positions (World.portfolioManager w)))
            /\ Forall (fun entry => Position.id (snd entry) = fst entry)
                      (JsMap.set key (PortfolioManager.reprice position price)
                         (Ledger.positions (World.portfolioManager w)))).
  { split.
    - apply (wf_set string_key_spec). exact Hnodup.
    - apply (Forall_set string_key_spec); [exact Hid | exact Hids]. }
  destruct (_ || _).
  - split.
    + apply wf_delete. apply Hrepriced.
    + apply Forall_delete. apply Hrepriced.
  - exact Hrepriced.
Qed.

(** A turn for another key leaves the entry of [key] as it is. *)
Lemma updatePrice_other (prices : JsMap.t string Q) (key other : string)
    (env : Env.t) (w : World.t) :
  Wellformed.positions (World.portfolioManager w) ->
  key <> other ->
  JsMap.get key
    (Ledger.positions
       (World.portfolioManager (snd (PortfolioManager.updatePrice prices other env w))))
  = JsMap.get key (Ledger.positions (World.portfolioManager w)).
Proof.
  intros Hwf Hne. rewrite (@updatePrice_positions prices other env w Hwf). cbv zeta.
  destruct (JsMap.get other _) as [position|]; [|reflexivity].
  destruct (JsMap.get (Position.symbol position) prices) as [price|]; [|reflexivity].
  destruct (Qtruthy price); [|reflexivity].
  destruct (_ || _).
  - rewrite (get_delete_other string_key_spec) by exact Hne.
    apply (get_set_other string_key_spec). exact Hne.
  - apply (get_set_other string_key_spec). exact Hne.
Qed.

Lemma forEach_cons_ok (A : Type) (body : A -> M unit) (x : A) (rest : list A)
    (env : Env.t) (w : World.t) :
  fst (forEach body (x :: rest) env w) = Ok tt ->
  fst (body x env w) = Ok tt
  /\ forEach body (x :: rest) env w = forEach body rest env (snd (body x env w)).
Proof.
  cbn [forEach]. unfold bind.
  destruct (body x env w) as [[[]|e] w1]; cbn; [|discriminate].
  intros _. split; reflexivity.
Qed.

Lemma sweep_wellformed (prices : JsMap.t string Q) (keys : list string) (env : Env.t) :
  forall w : World.t,
    Wellformed.positions (World.portfolioManager w) ->
    Wellformed.positions
      (World.portfolioManager
         (snd (forEach (PortfolioManager.updatePrice prices) keys env w))).
Proof.
  induction keys as [|key rest IH]; intros w Hwf; [exact Hwf|].
  cbn [forEach]. unfold bind.
  pose proof (@updatePrice_wellformed prices key env w Hwf) as Hstep.
  destruct (PortfolioManager.updatePrice prices key env w) as [[[]|e] w1]; cbn [snd] in *.
  - apply IH. exact Hstep.
  - exact Hstep.
Qed.

Lemma sweep_elsewhere (prices : JsMap.t string Q) (key : string) (keys : list string)
    (env : Env.t) :
  forall w : World.t,
    Wellformed.positions (World.portfolioManager w) ->
    ~ In key keys ->
    JsMap.get key
      (Ledger.positions
         (World.portfolioManager
            (snd (forEach (PortfolioManager.updatePrice prices) keys env w))))
    = JsMap.get key (Ledger.positions (World.portfolioManager w)).
Proof.
  induction keys as [|other rest IH]; intros w Hwf Hnotin; [reflexivity|].
  cbn [forEach]. unfold bind.
  assert (Hne : key <> other) by (intros ->; apply Hnotin; left; reflexivity).
  pose proof (@updatePrice_wellformed prices other env w Hwf) as Hstep.
  pose proof (@updatePrice_other prices key other env w Hwf Hne) as Hsame.
  destruct (PortfolioManager.updatePrice prices other env w) as [[[]|e] w1];
    cbn [snd] in *.
  - rewrite IH; [exact Hsame | exact Hstep |].
    intros Hin. apply Hnotin. right. exact Hin.
  - exact Hsame.
Qed.

(** X5.  What a sweep of [updatePrices] that runs to its end decides for
    an open position whose symbol has a new, non-zero price, in a ledger
    that stores every position once and under its id: the position is
    closed exactly when the price is at or below a non-zero [stopLoss], or at
    or above a non-zero [takeProfit]; otherwise it stays open with the new
    [currentPrice], [value] and [unrealizedPnl].  The side of the position
    takes no part in the decision: a short position is stopped and
    taken like a long one. *)
Theorem sweep_closes_exactly_the_positions_at_a_level :
  forall (env : Env.t) (w : World.t) (prices : JsMap.t string Q) (key : string)
         (position : Position.t) (price : Q),
    Wellformed.positions (World.portfolioManager w) ->
    JsMap.get key (Ledger.positions (World.portfolioManager w)) = Some position ->
    JsMap.get (Position.symbol position) prices = Some price ->
    Qtruthy price = true ->
    fst (PortfolioManager.updatePrices prices env w) = Ok tt ->
    JsMap.get key
      (Ledger.positions
         (World.portfolioManager (snd (PortfolioManager.updatePrices prices env w))))
    = if guard (Position.stopLoss position) (fun stopLoss => Qleb price stopLoss)
         || guard (Position.takeProfit position) (fun takeProfit => Qgeb price takeProfit)
      then None
      else Some (Position.spread position
                   (Position.makePartial None None None None None
                      (Some (Some price))
                      (Some (Some (price * Position.quantity position)%Q))
                      (Some (Some (PortfolioManager.calculatePnL position price)))
                      None None None None)).
Proof.
  intros env w prices key position price Hwf Hget Hprice Htruthy.
  unfold PortfolioManager.updatePrices.
  unfold bind at 1 2. unfold getLedger, getWorld. cbv beta iota zeta delta [bind ret].
  assert (Hin : In key (JsMap.keys (Ledger.positions (World.portfolioManager w)))).
  { destruct (in_dec string_dec key
                (JsMap.keys (Ledger.positions (World.portfolioManager w)))) as [Hin|Hout];
      [exact Hin|].
    apply (get_None_iff string_key_spec) in Hout. rewrite Hout in Hget. discriminate. }
  assert (Hnodup : NoDup (JsMap.keys (Ledger.positions (World.portfolioManager w))))
    by apply Hwf.
  revert Hin Hnodup Hwf Hget.
  generalize (JsMap.keys (Ledger.positions (World.portfolioManager w))) as keys.
  intros keys. revert w.
  induction keys as [|other rest IH]; intros w Hin Hnodup Hwf Hget Hok; [destruct Hin|].
  pose proof Hok as Hok0.
  apply forEach_cons_ok in Hok. destruct Hok as [Hhead Hrest]. rewrite Hrest.
  inversion Hnodup as [|? ? Hnotin Hnodup']; subst.
  pose proof (@updatePrice_wellformed prices other env w Hwf) as Hstep.
  destruct (string_dec other key) as [->|Hne].
  - rewrite (@sweep_elsewhere prices key rest env _ Hstep Hnotin).
    rewrite (@updatePrice_positions prices key env w Hwf). cbv zeta.
    rewrite Hget, Hprice, Htruthy.
    destruct (_ || _).
    + apply (get_delete_same string_key_spec). apply (wf_set string_key_spec). apply Hwf.
    + apply (get_set_same string_key_spec).
  - destruct Hin as [Heq|Hin]; [contradiction|].
    apply IH; [exact Hin | exact Hnodup' | exact Hstep | |].
    + rewrite (@updatePrice_other prices key other env w Hwf); [exact Hget|].
      intros Heq. apply Hne. symmetry. exact Heq.
    + rewrite <- Hrest. exact Hok0.
Qed.

Lemma sweep_witness :
  Wellformed.positions (World.portfolioManager (Scenario.holding Scenario.shortBtc []))
  /\ JsMap.get "p1"
       (Ledger.positions (World.portfolioManager (Scenario.holding Scenario.shortBtc [])))
     = Some Scenario.shortBtc
  /\ JsMap.get (Position.symbol Scenario.shortBtc) [("BTC/USDT", 101 # 1)] = Some (101 # 1)
  /\ Qtruthy (101 # 1) = true
  /\ fst (PortfolioManager.updatePrices [("BTC/USDT", 101 # 1)] Scenario.calm
            (Scenario.holding Scenario.shortBtc [])) = Ok tt
  /\ JsMap.get "p1"
       (Ledger.positions
          (World.portfolioManager
             (snd (PortfolioManager.updatePrices [("BTC/USDT", 101 # 1)] Scenario.calm
                     (Scenario.holding Scenario.shortBtc [])))))
     = None.
Proof.
  assert (Hwf : Wellformed.positions
                  (World.portfolioManager (Scenario.holding Scenario.shortBtc []))).
  { split.
    - unfold JsMap.wf. cbn. constructor; [intros []|constructor].
    - cbn. constructor; [reflexivity|constructor]. }
  assert (Hget : JsMap.get "p1"
                   (Ledger.positions
                      (World.portfolioManager (Scenario.holding Scenario.shortBtc [])))
                 = Some Scenario.shortBtc) by reflexivity.
  assert (Hprice : JsMap.get (Position.symbol Scenario.shortBtc) [("BTC/USDT", 101 # 1)]
                   = Some (101 # 1)) by reflexivity.
  assert (Htruthy : Qtruthy (101 # 1) = true) by reflexivity.
  assert (Hok : fst (PortfolioManager.updatePrices [("BTC/USDT", 101 # 1)] Scenario.calm
                       (Scenario.holding Scenario.shortBtc [])) = Ok tt) by reflexivity.
  split; [exact Hwf|]. split; [exact Hget|]. split; [exact Hprice|].
  split; [exact Htruthy|]. split; [exact Hok|].
  exact (@sweep_closes_exactly_the_positions_at_a_level Scenario.calm
           (Scenario.holding Scenario.shortBtc []) [("BTC/USDT", 101 # 1)] "p1"
           Scenario.shortBtc (101 # 1) Hwf Hget Hprice Htruthy Hok).
Defined.

(** X6.  A sweep of [updatePrices] whose map of prices holds no non-zero
    price for the symbol of any open position changes nothing: no position
    is repriced or closed, nothing is logged, emitted or written, and a price
    of 0 counts as no price. *)
Theorem sweep_without_a_price_for_an_open_symbol_changes_nothing :
  forall (env : Env.t) (w : World.t) (prices : JsMap.t string Q),
    (forall (key : string) (position : Position.t),
        JsMap.get key (Ledger.positions (World.portfolioManager w)) = Some position ->
        truthyOpt (JsMap.get (Position.symbol position) prices) = false) ->
    PortfolioManager.updatePrices prices env w = (Ok tt, w).
Proof.
  intros env w prices Hnone.
  unfold PortfolioManager.updatePrices.
  unfold bind at 1. unfold getLedger, getWorld. cbv beta iota zeta delta [bind ret].
  generalize (JsMap.keys (Ledger.positions (World.portfolioManager w))) as keys.
  induction keys as [|key rest IH]; [reflexivity|].
  cbn [forEach]. unfold bind at 1.
  assert (Hturn : PortfolioManager.updatePrice prices key env w = (Ok tt, w)).
  { unfold PortfolioManager.updatePrice.
    unfold bind at 1. unfold getLedger, getWorld. cbv beta iota zeta delta [bind ret].
    destruct (JsMap.get key (Ledger.positions (World.portfolioManager w)))
      as [position|] eqn:Hget; [|reflexivity].
    specialize (Hnone key position Hget). unfold truthyOpt in Hnone.
    destruct (JsMap.get (Position.symbol position) prices) as [price|]; [|reflexivity].
    rewrite Hnone. reflexivity. }
  rewrite Hturn. exact IH.
Qed.

Lemma sweep_without_a_price_witness :
  (forall (key : string) (position : Position.t),
      JsMap.get key
        (Ledger.positions (World.portfolioManager (Scenario.holding Scenario.longBtc [])))
      = Some position ->
      truthyOpt (JsMap.get (Position.symbol position)
                   [("ETH/USDT", 2000 # 1); ("BTC/USDT", 0)]) = false)
  /\ PortfolioManager.updatePrices [("ETH/USDT", 2000 # 1); ("BTC/USDT", 0)] Scenario.calm
       (Scenario.holding Scenario.longBtc [])
     = (Ok tt, Scenario.holding Scenario.longBtc []).
Proof.
  assert (H : forall (key : string) (position : Position.t),
             JsMap.get key
               (Ledger.positions
                  (World.portfolioManager (Scenario.holding Scenario.longBtc [])))
             = Some position ->
             truthyOpt (JsMap.get (Position.symbol position)
                          [("ETH/USDT", 2000 # 1); ("BTC/USDT", 0)]) = false).
  { intros key position. cbn.
    destruct (key_eqb key "p1"); [|discriminate].
    intros [= <-]. reflexivity. }
  split; [exact H|].
  exact (@sweep_without_a_price_for_an_open_symbol_changes_nothing Scenario.calm
           (Scenario.holding Scenario.longBtc [])
           [("ETH/USDT", 2000 # 1); ("BTC/USDT", 0)] H).
Defined.

(** ** The ledger: reading the history *)

(** X7.  [getTradeHistory(limit)] with a positive [limit] returns the
    last [limit] records of the history, in order, or the whole history when
    it is shorter.  With a [limit] of 0 it returns the whole history, not an
    empty list: [slice(-0)] is [slice(0)]. *)
Theorem trade_history_is_the_tail_of_the_history :
  forall (env : Env.t) (w : World.t) (limit : Z),
    (0 <= limit)%Z ->
    let history := Ledger.performanceHistory (World.portfolioManager w) in
    exists older latest : list Trade.t,
      PortfolioManager.getTradeHistory (Some limit) env w = (Ok latest, w)
      /\ history = older ++ latest
      /\ List.length latest
         = (if (limit =? 0)%Z then List.length history
            else Nat.min (Z.to_nat limit) (List.length history)).
Proof.
  intros env w limit Hlimit history.
  unfold PortfolioManager.getTradeHistory, getLedger, getWorld.
  cbv beta iota zeta delta [bind ret]. fold history.
  unfold PortfolioManager.slice.
  set (from := Z.to_nat (if (- limit <? 0)%Z
                         then Z.max (Z.of_nat (List.length history) + - limit) 0
                         else Z.min (- limit) (Z.of_nat (List.length history)))).
  exists (firstn from history), (skipn from history).
  split; [reflexivity|]. split; [symmetry; apply firstn_skipn|].
  rewrite length_skipn. subst from.
  destruct (limit =? 0)%Z eqn:E.
  - apply Z.eqb_eq in E. subst limit. cbn. lia.
  - apply Z.eqb_neq in E.
    assert (Hneg : (- limit <? 0)%Z = true) by (apply Z.ltb_lt; lia).
    rewrite Hneg. lia.
Qed.

Lemma trade_history_witness :
  (0 <= 5)%Z
  /\ exists older latest : list Trade.t,
       PortfolioManager.getTradeHistory (Some 5%Z) Scenario.calm Scenario.seasoned
         = (Ok latest, Scenario.seasoned)
       /\ Ledger.performanceHistory (World.portfolioManager Scenario.seasoned)
          = older ++ latest
       /\ List.length latest = 5%nat.
Proof.
  assert (H : (0 <= 5)%Z) by (intros Hgt; discriminate Hgt).
  split; [exact H|].
  exact (@trade_history_is_the_tail_of_the_history Scenario.calm Scenario.seasoned 5%Z H).
Defined.

(** ** The ledger: importing a portfolio *)

(** X8.  [importPortfolio] replaces the ledger.  Given an object of the
    shape that [exportPortfolio] produces (a [balance] object of numbers, an
    array of [positions] and an array of [recentTrades], each of which may
    be missing), it leaves the positions, the balances and the history that
    the object determines, whatever the ledger held before: the balances are
    the entries of [balance], the positions those of [positions] under their
    ids, the history is [recentTrades].  An object without the three
    properties leaves an empty ledger, in which the initial balance of 10000
    USDT is gone as well. *)
Theorem import_replaces_the_whole_ledger :
  forall (env : Env.t) (w other : World.t) (data : PortfolioData.t),
    let ledger := World.portfolioManager (snd (PortfolioManager.importPortfolio data env w)) in
    ledger = World.portfolioManager (snd (PortfolioManager.importPortfolio data env other))
    /\ Ledger.balance ledger
       = fold_left (fun m entry => JsMap.set (Some (fst entry)) (snd entry) m)
                   (match PortfolioData.balance data with
                    | Some object => JsObject.entries object | None => [] end)
                   JsMap.empty
    /\ Ledger.positions ledger
       = fold_left (fun m pos => JsMap.set (Position.id pos) pos m)
                   (match PortfolioData.positions data with
                    | Some positions => positions | None => [] end)
                   JsMap.empty
    /\ Ledger.performanceHistory ledger
       = match PortfolioData.recentTrades data with
         | Some trades => trades | None => [] end
    /\ forall (timestamp : option Z) (performance : option Metrics.t),
         World.portfolioManager
           (snd (PortfolioManager.importPortfolio
                   (PortfolioData.make timestamp None None performance None) env w))
         = Ledger.make JsMap.empty JsMap.empty [].
Proof.
  intros env w other data ledger. subst ledger.
  rewrite !importPortfolio_ledger.
  cbn [snd World.portfolioManager Ledger.balance Ledger.positions
       Ledger.performanceHistory].
  do 4 (split; [reflexivity|]).
  intros timestamp performance. rewrite importPortfolio_ledger. reflexivity.
Qed.

(** ** The ledger: the total value *)

Lemma addValue_from (prices : JsMap.t string Q) (a : Q) (entry : option string * Q) :
  (PortfolioManager.addValue prices a entry
   == a + PortfolioManager.addValue prices 0 entry)%Q.
Proof.
  destruct entry as [asset amount]. unfold PortfolioManager.addValue.
  destruct (_ || _); ring.
Qed.

Lemma total_from (prices : JsMap.t string Q) (balance : JsMap.t (option string) Q) :
  forall a : Q,
    (fold_left (PortfolioManager.addValue prices) balance a
     == a + fold_left (PortfolioManager.addValue prices) balance 0)%Q.
Proof.
  induction balance as [|entry rest IH]; intros a; cbn [fold_left].
  - ring.
  - rewrite IH. rewrite (IH (PortfolioManager.addValue prices 0 entry)).
    rewrite addValue_from. ring.
Qed.

Lemma addValue_weight (prices : JsMap.t string Q) (asset : option string) (amount : Q) :
  (PortfolioManager.addValue prices 0 (asset, amount)
   == amount * PortfolioManager.addValue prices 0 (asset, 1))%Q.
Proof.
  unfold PortfolioManager.addValue. destruct (_ || _); ring.
Qed.

(** The total value after one balance is set: the balances are weighted,
    the stable assets by 1 and the others by their price. *)
Lemma total_set (prices : JsMap.t string Q) (asset : option string) (amount : Q)
    (balance : JsMap.t (option string) Q) :
  (fold_left (PortfolioManager.addValue prices) (JsMap.set asset amount balance) 0
   == fold_left (PortfolioManager.addValue prices) balance 0
      + (amount - Qor (JsMap.get asset balance) 0)
        * PortfolioManager.addValue prices 0 (asset, 1))%Q.
Proof.
  induction balance as [|[asset0 amount0] rest IH]; cbn [JsMap.set JsMap.get fold_left].
  - rewrite addValue_weight. unfold Qor. ring.
  - destruct (key_eqb asset asset0) eqn:E.
    + apply ostring_key_spec in E. subst asset0. cbn [fold_left].
      rewrite total_from.
      rewrite (total_from prices rest (PortfolioManager.addValue prices 0 (asset, amount0))).
      rewrite addValue_weight. rewrite (addValue_weight prices asset amount0).
      rewrite Qor_zero. ring.
    + cbn [fold_left]. rewrite total_from.
      rewrite (total_from prices rest (PortfolioManager.addValue prices 0 (asset0, amount0))).
      rewrite IH. ring.
Qed.

(** In the exact embedding: opening a position on a symbol quoted in
    USDT or in USD changes the total value of the portfolio by the profit of
    the position at the valuation price, whatever the database answers. *)
Lemma exact_total_value_after_an_opening :
  forall (env : Env.t) (w : World.t) (position : Position.t)
         (prices : JsMap.t string Q) (price : Q),
    let base := fst (JsString.splitSlash (Position.symbol position)) in
    base <> "USDT" ->
    base <> "USD" ->
    JsString.quoteOf (Position.symbol position) = Some "USDT"
    \/ JsString.quoteOf (Position.symbol position) = Some "USD" ->
    JsMap.get (base ++ "/USDT")%string prices = Some price ->
    exists before after : Q,
      PortfolioManager.getTotalValue prices env w = (Ok before, w)
      /\ fst (PortfolioManager.getTotalValue prices env
                (snd (PortfolioManager.addPosition position env w))) = Ok after
      /\ (after == before + PortfolioManager.calculatePnL position price)%Q.
Proof.
  intros env w position prices price base Husdt Husd Hquote Hprice.
  unfold PortfolioManager.getTotalValue, getLedger, getWorld.
  cbv beta iota zeta delta [bind ret fst].
  eexists. eexists. split; [reflexivity|]. split; [reflexivity|].
  rewrite addPosition_ledger. cbn [Ledger.balance].
  unfold JsString.baseOf. fold base.
  set (quote := JsString.quoteOf (Position.symbol position)) in *.
  set (balance := Ledger.balance (World.portfolioManager w)).
  assert (Hbase : (PortfolioManager.addValue prices 0 (Some base, 1) == price)%Q).
  { unfold PortfolioManager.addValue.
    assert (E1 : key_eqb (Some base) (Some "USDT") = false).
    { apply not_true_iff_false. rewrite ostring_key_spec. intros [= Heq]. auto. }
    assert (E2 : key_eqb (Some base) (Some "USD") = false).
    { apply not_true_iff_false. rewrite ostring_key_spec. intros [= Heq]. auto. }
    rewrite E1, E2. cbn [orb JsObject.propertyKey]. rewrite Hprice.
    unfold Qor. destruct (Qtruthy price) eqn:E; [ring|].
    apply Qtruthy_false in E. rewrite E. ring. }
  assert (Hstable : (PortfolioManager.addValue prices 0 (quote, 1) == 1)%Q).
  { unfold PortfolioManager.addValue.
    destruct Hquote as [-> | ->]; cbn; ring. }
  assert (Hne : quote <> Some base).
  { destruct Hquote as [-> | ->]; intros [= Heq]; auto. }
  unfold PortfolioManager.calculatePnL.
  destruct (Position.isBuy position); cbv zeta.
  - rewrite total_set. rewrite total_set. rewrite Hbase, Hstable.
    fold balance. ring.
  - rewrite total_set. rewrite total_set. rewrite Hbase, Hstable.
    rewrite (get_set_other ostring_key_spec) by exact Hne.
    fold balance. ring.
Qed.

Lemma valueOr0_value (x : float) (q : Q) :
  Binary64.value x = Some q -> Binary64.Audit.valueOr0 x = q.
Proof. intros H. unfold Binary64.Audit.valueOr0. rewrite H. reflexivity. Qed.

(** [x || 0] is [x] as a number, and 0 when [x] is not a number. *)
Lemma valueOr0_orElse (x : float) :
  (Binary64.Audit.valueOr0 (Binary64.orElse (Some x) 0%float)
   == Binary64.Audit.valueOr0 x)%Q.
Proof.
  unfold Binary64.orElse, Binary64.truthy.
  destruct (PrimFloat.is_nan x) eqn:Enan; cbn [orb negb].
  - apply is_nan_spec in Enan. unfold Binary64.Audit.valueOr0, Binary64.value at 2. rewrite Enan.
    reflexivity.
  - destruct (PrimFloat.is_zero x) eqn:Ezero; cbn [negb]; [|reflexivity].
    apply value_of_zero in Ezero. unfold Binary64.Audit.valueOr0 at 2. rewrite Ezero. reflexivity.
Qed.

(** An exact valuation adds the worth of the balances to the total. *)
Lemma valuation_worth (prices : JsMap.t string float)
    (balance : JsMap.t (option string) float) :
  forall (total : float) (t : Q),
    Binary64.Audit.exactValuation prices balance total = true ->
    Binary64.value total = Some t ->
    exists r : Q,
      Binary64.value (fold_left (Binary64.PortfolioManager.addValue prices) balance total)
      = Some r
      /\ (r == t + Binary64.Audit.worth prices balance)%Q.
Proof.
  induction balance as [|[asset amount] rest IH]; intros total t Hexact Htotal;
    cbn [fold_left Binary64.Audit.worth Binary64.Audit.exactValuation] in *.
  - exists t. split; [exact Htotal | ring].
  - apply andb_true_iff in Hexact. destruct Hexact as [Hstep Hrest].
    unfold Binary64.PortfolioManager.addValue at 2. unfold Binary64.Audit.weight.
    unfold Binary64.PortfolioManager.addValue at 1 in Hrest.
    destruct (key_eqb asset (Some "USDT") || key_eqb asset (Some "USD")).
    + apply exact_spec in Hstep.
      destruct Hstep as (t' & a & r & Ht' & Ha & Hr & Hreq).
      rewrite Htotal in Ht'. injection Ht' as <-.
      destruct (IH _ r Hrest Hr) as (r' & Hr' & Hr'eq).
      exists r'. split; [exact Hr'|].
      rewrite Hr'eq, Hreq, (@valueOr0_value _ _ Ha). ring.
    + cbv zeta in Hstep, Hrest. apply andb_true_iff in Hstep.
      destruct Hstep as [Hproduct Hsum].
      apply exact_spec in Hproduct.
      destruct Hproduct as (a & p & v & Ha & Hp & Hv & Hveq).
      apply exact_spec in Hsum.
      destruct Hsum as (t' & v' & r & Ht' & Hv' & Hr & Hreq).
      rewrite Htotal in Ht'. injection Ht' as <-.
      rewrite Hv in Hv'. injection Hv' as <-.
      destruct (IH _ r Hrest Hr) as (r' & Hr' & Hr'eq).
      exists r'. split; [exact Hr'|].
      rewrite Hr'eq, Hreq, Hveq, (@valueOr0_value _ _ Ha), (@valueOr0_value _ _ Hp). ring.
Qed.

(** The worth after one balance is set. *)
Lemma worth_set (prices : JsMap.t string float) (asset : option string) (amount : float)
    (balance : JsMap.t (option string) float) :
  (Binary64.Audit.worth prices (JsMap.set asset amount balance)
   == Binary64.Audit.worth prices balance
      + (Binary64.Audit.valueOr0 amount
         - Binary64.Audit.valueOr0 (Binary64.orElse (JsMap.get asset balance) 0%float))
        * Binary64.Audit.weight prices asset)%Q.
Proof.
  induction balance as [|[asset0 amount0] rest IH]; cbn [JsMap.set JsMap.get Binary64.Audit.worth].
  - cbn [Binary64.orElse]. change (Binary64.Audit.valueOr0 0%float) with 0%Q. ring.
  - destruct (key_eqb asset asset0) eqn:E.
    + apply ostring_key_spec in E. subst asset0. cbn [Binary64.Audit.worth].
      rewrite valueOr0_orElse. ring.
    + cbn [Binary64.Audit.worth]. rewrite IH. ring.
Qed.

(** X9.  In binary64.  Opening a position on a symbol quoted in USDT or
    in USD changes the total value of the portfolio by the profit of the
    position at the valuation price, where nothing rounds: when the
    operations of the two valuations, of [addPosition] and of [calculatePnL]
    return their exact results, [getTotalValue(prices)] after [addPosition]
    is its value before plus [calculatePnL(position, price)], where [price]
    is the price of the base asset in [prices]. *)
Theorem opening_changes_the_total_value_by_the_profit :
  forall (l : Binary64.Ledger.t) (position : Binary64.Position.t)
         (prices : JsMap.t string float) (price : float),
    let base := fst (JsString.splitSlash (Binary64.Position.symbol position)) in
    let l' := Binary64.PortfolioManager.addPosition position l in
    base <> "USDT" ->
    base <> "USD" ->
    JsString.quoteOf (Binary64.Position.symbol position) = Some "USDT"
    \/ JsString.quoteOf (Binary64.Position.symbol position) = Some "USD" ->
    JsMap.get (base ++ "/USDT")%string prices = Some price ->
    Binary64.Audit.exactValuation prices (Binary64.Ledger.balance l) 0%float = true ->
    Binary64.Audit.exactOpening l position = true ->
    Binary64.Audit.exactDelivery l position = true ->
    Binary64.Audit.exactValuation prices (Binary64.Ledger.balance l') 0%float = true ->
    Binary64.Audit.exactProfit position price = true ->
    exists before after pnl : Q,
      Binary64.value (Binary64.PortfolioManager.getTotalValue prices l) = Some before
      /\ Binary64.value (Binary64.PortfolioManager.getTotalValue prices l') = Some after
      /\ Binary64.value (Binary64.PortfolioManager.calculatePnL position price) = Some pnl
      /\ (after == before + pnl)%Q.
Proof.
  intros l position prices price base l' Husdt Husd Hquote Hprice
         Hbefore Hopening Hdelivery Hafter Hprofit.
  assert (Hzero : Binary64.value 0%float = Some 0%Q) by reflexivity.
  destruct (valuation_worth prices _ _ Hbefore Hzero) as (before & Hvbefore & Hbeforeeq).
  destruct (valuation_worth prices _ _ Hafter Hzero) as (after & Hvafter & Haftereq).
  (* the profit *)
  unfold Binary64.Audit.exactProfit in Hprofit. cbv zeta in Hprofit.
  apply andb_true_iff in Hprofit. destruct Hprofit as [Hdiff Hpnl].
  apply exact_spec in Hdiff.
  destruct Hdiff as (vp & ve & vdiff & Hvp & Hve & Hvdiff & Hdiffeq).
  (* the opening *)
  unfold Binary64.Audit.exactOpening in Hopening. cbv zeta in Hopening.
  apply andb_true_iff in Hopening. destruct Hopening as [Hcost Hpaid].
  apply exact_spec in Hcost.
  destruct Hcost as (ve' & vq & vcost & Hve' & Hvq & Hvcost & Hcosteq).
  rewrite Hve in Hve'. injection Hve' as <-.
  (* the weights *)
  set (quote := JsString.quoteOf (Binary64.Position.symbol position)) in *.
  assert (Hbaseof : JsString.baseOf (Binary64.Position.symbol position) = Some base)
    by reflexivity.
  assert (Hstable : Binary64.Audit.weight prices quote = 1%Q).
  { unfold Binary64.Audit.weight. destruct Hquote as [-> | ->]; reflexivity. }
  assert (Hweight : (Binary64.Audit.weight prices (Some base) == vp)%Q).
  { unfold Binary64.Audit.weight.
    assert (E1 : key_eqb (Some base) (Some "USDT") = false).
    { apply not_true_iff_false. rewrite ostring_key_spec. intros [= Heq]. auto. }
    assert (E2 : key_eqb (Some base) (Some "USD") = false).
    { apply not_true_iff_false. rewrite ostring_key_spec. intros [= Heq]. auto. }
    rewrite E1, E2. cbn [orb JsObject.propertyKey]. rewrite Hprice.
    rewrite valueOr0_orElse. rewrite (@valueOr0_value _ _ Hvp). reflexivity. }
  assert (Hne : quote <> Some base).
  { destruct Hquote as [-> | ->]; intros [= Heq]; auto. }
  exists before, after.
  unfold Binary64.PortfolioManager.getTotalValue.
  unfold Binary64.PortfolioManager.calculatePnL.
  subst l'. unfold Binary64.PortfolioManager.addPosition in Haftereq, Hvafter |- *.
  cbv zeta in Haftereq, Hvafter |- *.
  cbn [Binary64.Ledger.balance] in Haftereq, Hvafter |- *.
  unfold Binary64.Audit.exactDelivery in Hdelivery. cbv zeta in Hdelivery.
  unfold Binary64.Audit.balanceOf in *. fold quote in Hpaid, Hdelivery, Haftereq, Hvafter |- *.
  rewrite Hbaseof in *.
  destruct (Binary64.Position.isBuy position).
  - apply exact_spec in Hpnl.
    destruct Hpnl as (vdiff' & vq' & vpnl & Hvdiff' & Hvq' & Hvpnl & Hpnleq).
    rewrite Hvdiff in Hvdiff'. injection Hvdiff' as <-.
    rewrite Hvq in Hvq'. injection Hvq' as <-.
    apply exact_spec in Hpaid.
    destruct Hpaid as (vcq & vcost' & r & Hvcq & Hvcost' & Hr & Hreq).
    rewrite Hvcost in Hvcost'. injection Hvcost' as <-.
    apply exact_spec in Hdelivery.
    destruct Hdelivery as (vcb & vq' & rb & Hvcb & Hvq' & Hrb & Hrbeq).
    rewrite Hvq in Hvq'. injection Hvq' as <-.
    exists vpnl. split; [exact Hvbefore|]. split; [exact Hvafter|]. split; [exact Hvpnl|].
    rewrite Haftereq, Hbeforeeq. rewrite worth_set. rewrite worth_set.
    rewrite Hstable, Hweight.
    rewrite (@valueOr0_value _ _ Hrb), (@valueOr0_value _ _ Hvcb),
      (@valueOr0_value _ _ Hr), (@valueOr0_value _ _ Hvcq).
    rewrite Hpnleq, Hdiffeq, Hrbeq, Hreq, Hcosteq. ring.
  - apply andb_true_iff in Hpnl. destruct Hpnl as [Hneg Hpnl].
    apply exact_spec in Hneg.
    destruct Hneg as (vzero & vdiff' & vneg & Hvzero & Hvdiff' & Hvneg & Hnegeq).
    rewrite Hvdiff in Hvdiff'. injection Hvdiff' as <-.
    rewrite Hzero in Hvzero. injection Hvzero as <-.
    apply exact_spec in Hpnl.
    destruct Hpnl as (vneg' & vq' & vpnl & Hvneg' & Hvq' & Hvpnl & Hpnleq).
    rewrite Hvneg in Hvneg'. injection Hvneg' as <-.
    rewrite Hvq in Hvq'. injection Hvq' as <-.
    apply exact_spec in Hpaid.
    destruct Hpaid as (vcq & vcost' & r & Hvcq & Hvcost' & Hr & Hreq).
    rewrite Hvcost in Hvcost'. injection Hvcost' as <-.
    apply exact_spec in Hdelivery.
    destruct Hdelivery as (vcb & vq' & rb & Hvcb & Hvq' & Hrb & Hrbeq).
    rewrite Hvq in Hvq'. injection Hvq' as <-.
    exists vpnl. split; [exact Hvbefore|]. split; [exact Hvafter|]. split; [exact Hvpnl|].
    rewrite Haftereq, Hbeforeeq. rewrite worth_set. rewrite worth_set.
    rewrite (get_set_other ostring_key_spec) by exact Hne.
    rewrite Hstable, Hweight.
    rewrite (@valueOr0_value _ _ Hrb), (@valueOr0_value _ _ Hvcb),
      (@valueOr0_value _ _ Hr), (@valueOr0_value _ _ Hvcq).
    rewrite Hpnleq, Hnegeq, Hdiffeq, Hrbeq, Hreq, Hcosteq. ring.
Qed.

Lemma opening_value_witness :
  let position :=
    Binary64.Position.make "p1" "BTC/USDT" "BUY" 100.25%float 1.5%float None in
  let prices := [("BTC/USDT", 110.5%float)] in
  let l := Binary64.PortfolioManager.initial in
  let l' := Binary64.PortfolioManager.addPosition position l in
  fst (JsString.splitSlash (Binary64.Position.symbol position)) <> "USDT"
  /\ fst (JsString.splitSlash (Binary64.Position.symbol position)) <> "USD"
  /\ (JsString.quoteOf (Binary64.Position.symbol position) = Some "USDT"
      \/ JsString.quoteOf (Binary64.Position.symbol position) = Some "USD")
  /\ JsMap.get "BTC/USDT" prices = Some 110.5%float
  /\ Binary64.Audit.exactValuation prices (Binary64.Ledger.balance l) 0%float = true
  /\ Binary64.Audit.exactOpening l position = true
  /\ Binary64.Audit.exactDelivery l position = true
  /\ Binary64.Audit.exactValuation prices (Binary64.Ledger.balance l') 0%float = true
  /\ Binary64.Audit.exactProfit position 110.5%float = true
  /\ exists before after pnl : Q,
       Binary64.value (Binary64.PortfolioManager.getTotalValue prices l) = Some before
       /\ Binary64.value (Binary64.PortfolioManager.getTotalValue prices l') = Some after
       /\ Binary64.value (Binary64.PortfolioManager.calculatePnL position 110.5%float)
          = Some pnl
       /\ (after == before + pnl)%Q.
Proof.
  intros position prices l l'.
  assert (H1 : fst (JsString.splitSlash (Binary64.Position.symbol position)) <> "USDT")
    by (cbn; discriminate).
  assert (H2 : fst (JsString.splitSlash (Binary64.Position.symbol position)) <> "USD")
    by (cbn; discriminate).
  assert (H3 : JsString.quoteOf (Binary64.Position.symbol position) = Some "USDT"
               \/ JsString.quoteOf (Binary64.Position.symbol position) = Some "USD")
    by (left; reflexivity).
  assert (H4 : JsMap.get "BTC/USDT" prices = Some 110.5%float) by reflexivity.
  assert (H5 : Binary64.Audit.exactValuation prices (Binary64.Ledger.balance l) 0%float
               = true) by (vm_compute; reflexivity).
  assert (H6 : Binary64.Audit.exactOpening l position = true) by (vm_compute; reflexivity).
  assert (H7 : Binary64.Audit.exactDelivery l position = true)
    by (vm_compute; reflexivity).
  assert (H8 : Binary64.Audit.exactValuation prices (Binary64.Ledger.balance l') 0%float
               = true) by (vm_compute; reflexivity).
  assert (H9 : Binary64.Audit.exactProfit position 110.5%float = true)
    by (vm_compute; reflexivity).
  split; [exact H1|]. split; [exact H2|]. split; [exact H3|]. split; [exact H4|].
  split; [exact H5|]. split; [exact H6|]. split; [exact H7|]. split; [exact H8|].
  split; [exact H9|].
  exact (@opening_changes_the_total_value_by_the_profit l position prices 110.5%float
           H1 H2 H3 H4 H5 H6 H7 H8 H9).
Defined.

(** ** Performance metrics on a history that is not empty *)

Lemma len_nonneg (A : Type) (xs : list A) : (0 <= PortfolioManager.len xs)%Q.
Proof.
  unfold PortfolioManager.len. change 0%Q with (inject_Z 0).
  rewrite <- Zle_Qle. lia.
Qed.

Lemma len_pos (A : Type) (x : A) (xs : list A) : (0 < PortfolioManager.len (x :: xs))%Q.
Proof.
  unfold PortfolioManager.len. change 0%Q with (inject_Z 0).
  rewrite <- Zlt_Qlt. cbn [List.length]. lia.
Qed.

Lemma len_le (A B : Type) (xs : list A) (ys : list B) :
  (List.length xs <= List.length ys)%nat ->
  (PortfolioManager.len xs <= PortfolioManager.len ys)%Q.
Proof.
  intros Hle. unfold PortfolioManager.len. rewrite <- Zle_Qle. lia.
Qed.

(** A trade is not both a winning and a losing one. *)
Lemma winners_and_losers (trades : list Trade.t) :
  (List.length (filter (fun t => Qgtb (Trade.pnl t) 0) trades)
   + List.length (filter (fun t => Qltb (Trade.pnl t) 0) trades)
   <= List.length trades)%nat.
Proof.
  induction trades as [|t rest IH]; cbn [filter List.length]; [lia|].
  destruct (Qgtb (Trade.pnl t) 0) eqn:Ewin, (Qltb (Trade.pnl t) 0) eqn:Elose;
    cbn [List.length]; try lia.
  apply Qgtb_true in Ewin. apply Qltb_true in Elose. lra.
Qed.

(** The metrics of a history that is not empty, field by field. *)
Lemma performanceMetrics_fields (sqrt : Q -> Q) (trade : Trade.t) (rest : list Trade.t) :
  let trades := trade :: rest in
  let winning := filter (fun t => Qgtb (Trade.pnl t) 0) trades in
  let losing := filter (fun t => Qltb (Trade.pnl t) 0) trades in
  let m := PortfolioManager.performanceMetrics sqrt trades in
  Metrics.totalTrades m = List.length trades
  /\ Metrics.winningTrades m = List.length winning
  /\ Metrics.losingTrades m = List.length losing
  /\ Metrics.winRate m = (PortfolioManager.len winning / PortfolioManager.len trades)%Q
  /\ Metrics.totalPnL m = PortfolioManager.sumPnl trades
  /\ Metrics.averagePnL m
     = (PortfolioManager.sumPnl trades / PortfolioManager.len trades)%Q
  /\ Metrics.bestTrade m = PortfolioManager.maxOf (map Trade.pnl trades)
  /\ Metrics.worstTrade m = PortfolioManager.minOf (map Trade.pnl trades)
  /\ Metrics.expectancy m = Metrics.averagePnL m
  /\ Metrics.maxDrawdown m
     = Some (snd (fst (fold_left PortfolioManager.drawdownStep trades (0, 0, 0))))
  /\ Metrics.equityCurve m = Some (PortfolioManager.equityFrom (10000 # 1) trades).
Proof.
  intros trades winning losing m. subst m winning losing trades.
  unfold PortfolioManager.performanceMetrics.
  change (List.length (trade :: rest) =? 0)%nat with false. cbv iota.
  destruct (fold_left PortfolioManager.drawdownStep (trade :: rest) (0, 0, 0))
    as [[peak maxDrawdown] runningTotal].
  repeat split.
Qed.

Lemma equityFrom_length (trades : list Trade.t) :
  forall equity : Q, List.length (PortfolioManager.equityFrom equity trades)
                     = List.length trades.
Proof.
  induction trades as [|t rest IH]; intros equity; cbn; [reflexivity|].
  rewrite IH. reflexivity.
Qed.

(** The equity after [trades], from the equity [equity]: the running
    total of the loop. *)
Lemma equityFrom_nth_running (trades : list Trade.t) :
  forall (equity : Q) (i : nat),
    (i < List.length trades)%nat ->
    nth i (PortfolioManager.equityFrom equity trades) 0
    = fold_left (fun equity t => (equity + Trade.pnl t)%Q) (firstn (S i) trades) equity.
Proof.
  induction trades as [|t rest IH]; intros equity i Hi; cbn [List.length] in Hi; [lia|].
  cbn [PortfolioManager.equityFrom]. destruct i as [|i].
  - reflexivity.
  - cbn [nth]. rewrite IH by lia. reflexivity.
Qed.

Lemma equityFrom_steps (trades : list Trade.t) :
  forall (equity : Q) (i : nat),
    (S i < List.length trades)%nat ->
    nth (S i) (PortfolioManager.equityFrom equity trades) 0
    = (nth i (PortfolioManager.equityFrom equity trades) 0
       + Trade.pnl (nth (S i) trades (Scenario.tradeOf 0)))%Q.
Proof.
  induction trades as [|t rest IH]; intros equity i Hi; cbn [List.length] in Hi; [lia|].
  cbn [PortfolioManager.equityFrom]. destruct i as [|i].
  - destruct rest as [|t' rest']; [cbn in Hi; lia|]. reflexivity.
  - change (nth (S (S i)) ((equity + Trade.pnl t)%Q
                           :: PortfolioManager.equityFrom (equity + Trade.pnl t) rest) 0)
      with (nth (S i) (PortfolioManager.equityFrom (equity + Trade.pnl t) rest) 0).
    rewrite IH by lia. reflexivity.
Qed.

(** X10.  The equity curve of a history that is not empty has one point
    per trade, and it is the running total of the loop: its i-th point is
    what adding the profits of the first i trades, one after the other, to
    the starting equity of 10000 gives.  From one point to the next the
    curve does not fall on a trade without loss and does not rise on a trade
    without profit. *)
Theorem equity_curve_is_the_running_total :
  forall (sqrt : Q -> Q) (trade : Trade.t) (rest : list Trade.t),
    let trades := trade :: rest in
    let m := PortfolioManager.performanceMetrics sqrt trades in
    exists curve : list Q,
      Metrics.equityCurve m = Some curve
      /\ List.length curve = Metrics.totalTrades m
      /\ (forall i : nat,
            (i < List.length trades)%nat ->
            nth i curve 0
            = fold_left (fun equity t => (equity + Trade.pnl t)%Q)
                        (firstn (S i) trades) (10000 # 1))
      /\ (forall i : nat,
            (S i < List.length trades)%nat ->
            let pnl := Trade.pnl (nth (S i) trades trade) in
            ((0 <= pnl)%Q -> (nth i curve 0 <= nth (S i) curve 0)%Q)
            /\ ((pnl <= 0)%Q -> (nth (S i) curve 0 <= nth i curve 0)%Q)).
Proof.
  intros sqrt trade rest trades m.
  destruct (performanceMetrics_fields sqrt trade rest)
    as (Htotal & _ & _ & _ & _ & _ & _ & _ & _ & _ & Hcurve).
  fold trades in Htotal, Hcurve. fold m in Htotal, Hcurve.
  exists (PortfolioManager.equityFrom (10000 # 1) trades).
  split; [exact Hcurve|]. split; [|split].
  - rewrite Htotal. apply equityFrom_length.
  - intros i Hi. apply equityFrom_nth_running. exact Hi.
  - intros i Hi pnl. rewrite (equityFrom_steps trades (10000 # 1) Hi).
    assert (Hnth : Trade.pnl (nth (S i) trades (Scenario.tradeOf 0)) = pnl).
    { subst pnl. f_equal. apply nth_indep. exact Hi. }
    rewrite Hnth. split; intros Hsign; lra.
Qed.

Lemma fold_max_bounds (xs : list Q) :
  forall a : Q,
    (a <= fold_left Qmax xs a)%Q
    /\ (forall x : Q, In x xs -> (x <= fold_left Qmax xs a)%Q)
    /\ ((fold_left Qmax xs a == a)%Q
        \/ exists x : Q, In x xs /\ (fold_left Qmax xs a == x)%Q).
Proof.
  induction xs as [|y rest IH]; intros a; cbn [fold_left].
  - split; [lra|]. split; [intros x []|]. left. reflexivity.
  - destruct (IH (Qmax a y)) as (Hge & Hall & Hattained).
    pose proof (Q.le_max_l a y) as Hl. pose proof (Q.le_max_r a y) as Hr.
    split; [lra|]. split.
    + intros x [<-|Hin]; [lra | apply Hall; exact Hin].
    + destruct Hattained as [Heq | (x & Hin & Heq)].
      * destruct (Q.max_spec a y) as [[_ Hmax] | [_ Hmax]].
        -- right. exists y. split; [left; reflexivity | lra].
        -- left. lra.
      * right. exists x. split; [right; exact Hin | exact Heq].
Qed.

Lemma fold_min_bounds (xs : list Q) :
  forall a : Q,
    (fold_left Qmin xs a <= a)%Q
    /\ (forall x : Q, In x xs -> (fold_left Qmin xs a <= x)%Q)
    /\ ((fold_left Qmin xs a == a)%Q
        \/ exists x : Q, In x xs /\ (fold_left Qmin xs a == x)%Q).
Proof.
  induction xs as [|y rest IH]; intros a; cbn [fold_left].
  - split; [lra|]. split; [intros x []|]. left. reflexivity.
  - destruct (IH (Qmin a y)) as (Hle & Hall & Hattained).
    pose proof (Q.le_min_l a y) as Hl. pose proof (Q.le_min_r a y) as Hr.
    split; [lra|]. split.
    + intros x [<-|Hin]; [lra | apply Hall; exact Hin].
    + destruct Hattained as [Heq | (x & Hin & Heq)].
      * destruct (Q.min_spec a y) as [[_ Hmin] | [_ Hmin]].
        -- left. lra.
        -- right. exists y. split; [left; reflexivity | lra].
      * right. exists x. split; [right; exact Hin | exact Heq].
Qed.

Lemma sumPnl_cons (t : Trade.t) (rest : list Trade.t) :
  (PortfolioManager.sumPnl (t :: rest) == Trade.pnl t + PortfolioManager.sumPnl rest)%Q.
Proof.
  unfold PortfolioManager.sumPnl at 1. cbn [fold_left]. rewrite sumPnl_from. ring.
Qed.

(** X11.  On a history that is not empty, [bestTrade] and [worstTrade]
    are the largest and the smallest profit of the history: each is the
    profit of some trade, and every trade lies between them.  [expectancy]
    repeats [averagePnL]. *)
Theorem every_trade_lies_between_the_worst_and_the_best :
  forall (sqrt : Q -> Q) (trade : Trade.t) (rest : list Trade.t),
    let trades := trade :: rest in
    let m := PortfolioManager.performanceMetrics sqrt trades in
    (forall t : Trade.t,
        In t trades ->
        (Metrics.worstTrade m <= Trade.pnl t)%Q /\ (Trade.pnl t <= Metrics.bestTrade m)%Q)
    /\ (exists t : Trade.t, In t trades /\ (Trade.pnl t == Metrics.bestTrade m)%Q)
    /\ (exists t : Trade.t, In t trades /\ (Trade.pnl t == Metrics.worstTrade m)%Q)
    /\ (Metrics.worstTrade m <= Metrics.bestTrade m)%Q
    /\ Metrics.expectancy m = Metrics.averagePnL m.
Proof.
  intros sqrt trade rest trades m.
  destruct (performanceMetrics_fields sqrt trade rest)
    as (_ & _ & _ & _ & _ & _ & Hbest & Hworst & Hexp & _).
  fold trades in Hbest, Hworst, Hexp. fold m in Hbest, Hworst, Hexp.
  rewrite Hbest, Hworst.
  subst trades. cbn [map PortfolioManager.maxOf PortfolioManager.minOf].
  destruct (fold_max_bounds (map Trade.pnl rest) (Trade.pnl trade))
    as (Hmax0 & Hmax & Hmaxin).
  destruct (fold_min_bounds (map Trade.pnl rest) (Trade.pnl trade))
    as (Hmin0 & Hmin & Hminin).
  assert (Hall : forall t : Trade.t,
             In t (trade :: rest) ->
             (fold_left Qmin (map Trade.pnl rest) (Trade.pnl trade) <= Trade.pnl t)%Q
             /\ (Trade.pnl t <= fold_left Qmax (map Trade.pnl rest) (Trade.pnl trade))%Q).
  { intros t [<-|Hin]; [split; assumption|].
    split; [apply Hmin | apply Hmax]; apply in_map; exact Hin. }
  split; [exact Hall|]. split; [|split; [|split]].
  - destruct Hmaxin as [Heq | (x & Hin & Heq)].
    + exists trade. split; [left; reflexivity | symmetry; exact Heq].
    + apply in_map_iff in Hin. destruct Hin as (t & <- & Hin).
      exists t. split; [right; exact Hin | symmetry; exact Heq].
  - destruct Hminin as [Heq | (x & Hin & Heq)].
    + exists trade. split; [left; reflexivity | symmetry; exact Heq].
    + apply in_map_iff in Hin. destruct Hin as (t & <- & Hin).
      exists t. split; [right; exact Hin | symmetry; exact Heq].
  - lra.
  - exact Hexp.
Qed.

(** The state of the drawdown loop: the peak is not negative, the
    running total is not above it, and the drawdown is not negative. *)
Lemma drawdown_loop_invariant (trades : list Trade.t) :
  forall peak maxDrawdown runningTotal : Q,
    (0 <= peak)%Q -> (runningTotal <= peak)%Q -> (0 <= maxDrawdown)%Q ->
    (0 <= snd (fst (fold_left PortfolioManager.drawdownStep trades
                      (peak, maxDrawdown, runningTotal))))%Q.
Proof.
  induction trades as [|t rest IH]; intros peak maxDrawdown runningTotal Hpeak Hrun Hdd;
    cbn [fold_left]; [exact Hdd|].
  unfold PortfolioManager.drawdownStep at 2.
  set (running := (runningTotal + Trade.pnl t)%Q).
  set (peak' := if Qgtb running peak then running else peak).
  set (drawdown := if Qgtb peak' 0 then ((peak' - running) / peak')%Q else 0).
  assert (Hpeak' : (0 <= peak')%Q /\ (running <= peak')%Q).
  { subst peak'. destruct (Qgtb running peak) eqn:E.
    - apply Qgtb_true in E. split; lra.
    - apply Qgtb_false in E. split; lra. }
  assert (Hdrawdown : (0 <= drawdown)%Q).
  { subst drawdown. destruct (Qgtb peak' 0) eqn:E; [|lra].
    apply Qgtb_true in E. apply Qle_shift_div_l; [exact E|]. lra. }
  apply IH; [apply Hpeak' | apply Hpeak' |].
  destruct (Qgtb drawdown maxDrawdown); [exact Hdrawdown | exact Hdd].
Qed.

(** While the running total has never been positive, neither a peak nor
    a drawdown is recorded. *)
Lemma drawdown_loop_below_zero (trades : list Trade.t) :
  forall runningTotal : Q,
    (forall i : nat,
        (runningTotal + PortfolioManager.sumPnl (firstn i trades) <= 0)%Q) ->
    snd (fst (fold_left PortfolioManager.drawdownStep trades (0, 0, runningTotal))) = 0.
Proof.
  induction trades as [|t rest IH]; intros runningTotal Hbelow; cbn [fold_left];
    [reflexivity|].
  unfold PortfolioManager.drawdownStep at 2.
  assert (Hrun : (runningTotal + Trade.pnl t <= 0)%Q).
  { specialize (Hbelow 1%nat). cbn in Hbelow. lra. }
  apply Qgtb_false in Hrun. rewrite Hrun.
  change (Qgtb 0 0) with false. cbv iota.
  apply IH. intros i. specialize (Hbelow (S i)).
  change (firstn (S i) (t :: rest)) with (t :: firstn i rest) in Hbelow.
  rewrite sumPnl_cons in Hbelow. lra.
Qed.

(** X12.  The metrics of [getPerformanceMetrics] are well formed:
    [totalTrades] is the length of the history, a trade is counted as
    winning or as losing but not as both (a trade of profit 0 is neither),
    the win rate is a proportion, between 0 and 1, and the maximum drawdown,
    when it is reported, is not negative. *)
Theorem reported_metrics_are_well_formed :
  forall (sqrt : Q -> Q) (trades : list Trade.t),
    let m := PortfolioManager.performanceMetrics sqrt trades in
    Metrics.totalTrades m = List.length trades
    /\ (Metrics.winningTrades m + Metrics.losingTrades m <= Metrics.totalTrades m)%nat
    /\ (0 <= Metrics.winRate m)%Q
    /\ (Metrics.winRate m <= 1)%Q
    /\ match Metrics.maxDrawdown m with
       | Some maxDrawdown => (0 <= maxDrawdown)%Q
       | None => trades = []
       end.
Proof.
  intros sqrt [|trade rest] m.
  - subst m. cbn. repeat split; try lia; lra.
  - destruct (performanceMetrics_fields sqrt trade rest)
      as (Htotal & Hwin & Hlose & Hrate & _ & _ & _ & _ & _ & Hdd & _).
    fold m in Htotal, Hwin, Hlose, Hrate, Hdd.
    rewrite Htotal, Hwin, Hlose, Hrate, Hdd.
    pose proof (winners_and_losers (trade :: rest)) as Hsum.
    pose proof (len_pos trade rest) as Hpos.
    split; [reflexivity|]. split; [exact Hsum|]. split; [|split].
    + apply Qle_shift_div_l; [exact Hpos|]. rewrite Qmult_0_l. apply len_nonneg.
    + apply Qle_shift_div_r; [exact Hpos|]. rewrite Qmult_1_l.
      apply len_le. apply filter_length_le.
    + apply drawdown_loop_invariant; lra.
Qed.

(** X13.  The drawdown is measured from a peak of the cumulative profit,
    and a peak is recorded only above 0: for a history whose cumulative
    profit is never positive (a history of losing trades, for one) the
    maximum drawdown is 0, however much was lost. *)
Theorem losses_before_any_profit_are_no_drawdown :
  forall (sqrt : Q -> Q) (trade : Trade.t) (rest : list Trade.t),
    (forall i : nat, (PortfolioManager.sumPnl (firstn i (trade :: rest)) <= 0)%Q) ->
    Metrics.maxDrawdown (PortfolioManager.performanceMetrics sqrt (trade :: rest)) = Some 0.
Proof.
  intros sqrt trade rest Hbelow.
  destruct (performanceMetrics_fields sqrt trade rest)
    as (_ & _ & _ & _ & _ & _ & _ & _ & _ & Hdd & _).
  rewrite Hdd. f_equal. apply drawdown_loop_below_zero.
  intros i. specialize (Hbelow i). lra.
Qed.

Lemma losses_witness :
  (forall i : nat,
      (PortfolioManager.sumPnl
         (firstn i [Scenario.tradeOf (- (50 # 1)); Scenario.tradeOf (- (30 # 1))]) <= 0)%Q)
  /\ Metrics.maxDrawdown
       (PortfolioManager.performanceMetrics (fun q => q)
          [Scenario.tradeOf (- (50 # 1)); Scenario.tradeOf (- (30 # 1))])
     = Some 0.
Proof.
  assert (H : forall i : nat,
             (PortfolioManager.sumPnl
                (firstn i [Scenario.tradeOf (- (50 # 1)); Scenario.tradeOf (- (30 # 1))])
              <= 0)%Q).
  { intros [|[|[|i]]]; cbn; intros Hgt; discriminate Hgt. }
  split; [exact H|].
  exact (@losses_before_any_profit_are_no_drawdown (fun q => q)
           (Scenario.tradeOf (- (50 # 1))) [Scenario.tradeOf (- (30 # 1))] H).
Defined.

(** X14.  The profit factor reported for a history that is not empty is
    the gross profit over the gross loss when some trade lost, and 0 when no
    trade lost, whatever was won. *)
Theorem profit_factor_is_the_ratio_of_gains_to_losses :
  forall (sqrt : Q -> Q) (trade : Trade.t) (rest : list Trade.t),
    let trades := trade :: rest in
    let winning := filter (fun t => Qgtb (Trade.pnl t) 0) trades in
    let losing := filter (fun t => Qltb (Trade.pnl t) 0) trades in
    Metrics.profitFactor (PortfolioManager.performanceMetrics sqrt trades)
    = match losing with
      | [] => 0
      | _ :: _ => (PortfolioManager.sumPnl winning / Qabs (PortfolioManager.sumPnl losing))%Q
      end
    /\ match losing with
       | [] => True
       | _ :: _ => (0 < Qabs (PortfolioManager.sumPnl losing))%Q
       end.
Proof.
  intros sqrt trade rest trades winning losing.
  assert (Hne : trades <> []) by (subst trades; discriminate).
  destruct (@ledger_profit_factor sqrt trades Hne) as [Hsome Hnone].
  fold winning in Hsome. fold losing in Hsome, Hnone.
  destruct losing as [|t others] eqn:E.
  - split; [apply Hnone; reflexivity | exact I].
  - destruct Hsome as [Hpos Hfactor]; [discriminate|].
    split; [exact Hfactor | exact Hpos].
Qed.

(** ** The Risk Gate: the verdict on a signal *)

(** What [validateSignal] returns and leaves. *)
Lemma validateSignal_run (signal : Signal.t) (env : Env.t) (w : World.t) :
  let r := World.riskManager w in
  let accepted :=
    negb (gtb (Risk.currentDrawdown r) (Fin (Risk.maxDrawdown r)))
    && negb (Qgeb (3 # 1) (Risk.maxOpenPositions r))
    && negb (Qltb (Signal.confidence signal) (65 # 100))
    && negb (Qgtb (Qor (RiskManager.metadataVolatility signal) 0) (5 # 10))
    && negb (ltb (RiskManager.calculateKellyFraction signal) (Fin (1 # 100))) in
  exists warnings : list LogMsg,
    RiskManager.validateSignal signal env w
    = (Ok accepted,
       World.make (World.portfolioManager w) (World.riskManager w) (World.engine w)
                  (World.moment w)
                  (World.journal w ++ map (Log WARN) warnings))
    /\ List.length warnings = (if accepted then 0 else 1)%nat.
Proof.
  intros r accepted. subst accepted r.
  unfold RiskManager.validateSignal, tryCatch, getRisk, getWorld,
    RiskManager.getOpenPositionsCount, RiskManager.checkCorrelationRisk,
    RiskManager.getOpenPositions, log, record, modify.
  cbv beta iota zeta delta [bind ret RiskManager.maxCorrelationOver].
  change (Qgtb 0 (8 # 10)) with false. cbv iota.
  destruct w as [ledger risk engine moment journal].
  cbn [World.portfolioManager World.riskManager World.engine World.moment World.journal].
  destruct (gtb _ _); cbn [negb andb];
    [eexists [_]; split; reflexivity|].
  destruct (Qgeb _ _); cbn [negb andb];
    [eexists [_]; split; reflexivity|].
  destruct (Qltb _ _); cbn [negb andb];
    [eexists [_]; split; reflexivity|].
  destruct (Qgtb _ _); cbn [negb andb];
    [eexists [_]; split; reflexivity|].
  destruct (ltb _ _); cbn [negb andb];
    [eexists [_]; split; reflexivity|].
  exists []. cbn [map]. rewrite app_nil_r. split; reflexivity.
Qed.


(** ** The Risk Gate: a stop at the price *)

Lemma zero_distance (price stopLoss : Q) :
  (stopLoss == price)%Q -> Qeq_bool (Qabs (price + - stopLoss)) 0 = true.
Proof.
  intros Heq. apply Qeq_bool_iff. rewrite Heq.
  setoid_replace (price + - price)%Q with 0%Q by ring. reflexivity.
Qed.

Lemma signedInf_over_itself (q : Q) (pos pos' : bool) :
  div (signedInf q pos) (signedInf q pos') = NaN.
Proof.
  unfold signedInf. destruct (q ?= 0)%Q, pos, pos'; reflexivity.
Qed.

Lemma kelly_of_zero_distance (signal : Signal.t) :
  (Signal.stopLoss signal == Signal.price signal)%Q ->
  RiskManager.calculateKellyFraction signal = NaN.
Proof.
  intros Heq. unfold RiskManager.calculateKellyFraction.
  cbn [sub neg add abs div].
  rewrite (zero_distance Heq).
  set (winAmount := Qabs (Signal.targetPrice signal + - Signal.price signal)).
  assert (Hwin : (0 <= winAmount)%Q) by apply Qabs_nonneg.
  clearbody winAmount.
  unfold signedInf at 1 2.
  destruct (winAmount ?= 0)%Q eqn:E.
  - reflexivity.
  - exfalso. apply (Qle_not_lt _ _ Hwin). apply Qlt_alt. exact E.
  - cbn [mul]. unfold signedInf.
    destruct (Signal.confidence signal ?= 0)%Q; reflexivity.
Qed.

Lemma position_size_of_zero_distance (signal : Signal.t) (env : Env.t) (w : World.t) :
  (Signal.stopLoss signal == Signal.price signal)%Q ->
  RiskManager.calculatePositionSize signal env w
  = (Ok NaN,
     World.make (World.portfolioManager w) (World.riskManager w) (World.engine w)
                (World.moment w)
                (World.journal w
                 ++ [Log INFO (PositionSizeCalculated (Signal.symbol signal) NaN)])).
Proof.
  intros Heq.
  unfold RiskManager.calculatePositionSize, tryCatch, RiskManager.getAccountBalance,
    getRisk, getWorld, log, record, modify, RiskManager.kellyMultiplier.
  cbv beta iota zeta delta [bind ret].
  rewrite (kelly_of_zero_distance signal Heq).
  assert (Hnan : forall x y z : num, min (mul (mul x (min NaN (Fin (25 # 100)))) y) z = NaN).
  { intros x y z. cbn [min cmp]. destruct x; cbn [mul]; destruct y; reflexivity. }
  rewrite Hnan. reflexivity.
Qed.

(** X16.  A signal whose stop is at its price has no Kelly fraction:
    [calculateKellyFraction] returns [NaN].  The Kelly test of
    [validateSignal], [kellyFraction < 0.01], is then false and does not
    reject the signal, and [calculatePositionSize] returns [NaN], after
    logging it as the size calculated. *)
Theorem stop_at_the_price_is_sized_NaN :
  forall (env : Env.t) (w : World.t) (signal : Signal.t),
    (Signal.stopLoss signal == Signal.price signal)%Q ->
    RiskManager.calculateKellyFraction signal = NaN
    /\ ltb (RiskManager.calculateKellyFraction signal) (Fin (1 # 100)) = false
    /\ RiskManager.calculatePositionSize signal env w
       = (Ok NaN,
          World.make (World.portfolioManager w) (World.riskManager w) (World.engine w)
                     (World.moment w)
                     (World.journal w
                      ++ [Log INFO (PositionSizeCalculated (Signal.symbol signal) NaN)])).
Proof.
  intros env w signal Heq.
  pose proof (kelly_of_zero_distance signal Heq) as Hkelly.
  split; [exact Hkelly|]. split; [rewrite Hkelly; reflexivity|].
  apply position_size_of_zero_distance. exact Heq.
Qed.

Lemma stop_at_the_price_witness :
  (Signal.stopLoss Cases.flat == Signal.price Cases.flat)%Q
  /\ RiskManager.calculateKellyFraction Cases.flat = NaN
  /\ fst (RiskManager.calculatePositionSize Cases.flat Scenario.calm Scenario.started)
     = Ok NaN.
Proof.
  assert (H : (Signal.stopLoss Cases.flat == Signal.price Cases.flat)%Q) by reflexivity.
  split; [exact H|].
  split.
  - exact (proj1 (@stop_at_the_price_is_sized_NaN Scenario.calm Scenario.started
                    Cases.flat H)).
  - exact (f_equal fst
             (proj2 (proj2 (@stop_at_the_price_is_sized_NaN Scenario.calm Scenario.started
                              Cases.flat H)))).
Defined.

(** ** The Risk Gate: the position size and the volatility *)







(** ** The Risk Gate: correlations *)

Lemma existsb_pointwise (A : Type) (f g : A -> bool) (xs : list A) :
  (forall x : A, f x = g x) -> existsb f xs = existsb g xs.
Proof.
  intros Hfg. induction xs as [|x rest IH]; cbn; [reflexivity|].
  rewrite Hfg, IH. reflexivity.
Qed.

(** X18.  [calculateBaseCorrelation] is symmetric, takes one of the
    three values 1, 0.7 and 0.3, and gives 1 exactly to two symbols with the
    same base asset. *)
Theorem base_correlation_is_symmetric :
  forall (symbol1 symbol2 : string),
    RiskManager.calculateBaseCorrelation symbol1 symbol2
      = RiskManager.calculateBaseCorrelation symbol2 symbol1
    /\ (RiskManager.calculateBaseCorrelation symbol1 symbol2 = 1
        \/ RiskManager.calculateBaseCorrelation symbol1 symbol2 = 7 # 10
        \/ RiskManager.calculateBaseCorrelation symbol1 symbol2 = 3 # 10)
    /\ (RiskManager.calculateBaseCorrelation symbol1 symbol2 = 1
        <-> fst (JsString.splitSlash symbol1) = fst (JsString.splitSlash symbol2)).
Proof.
  intros symbol1 symbol2. unfold RiskManager.calculateBaseCorrelation. cbv zeta.
  set (base1 := fst (JsString.splitSlash symbol1)).
  set (base2 := fst (JsString.splitSlash symbol2)).
  split; [|split].
  - rewrite (String.eqb_sym base2 base1).
    rewrite (existsb_pointwise
               (fun pair => RiskManager.includes pair base2
                            && RiskManager.includes pair base1)
               (fun pair => RiskManager.includes pair base1
                            && RiskManager.includes pair base2)
               RiskManager.highCorrelationPairs (fun pair => andb_comm _ _)).
    reflexivity.
  - destruct (String.eqb base1 base2); [left; reflexivity|].
    destruct (existsb _ _); [right; left | right; right]; reflexivity.
  - destruct (String.eqb base1 base2) eqn:E.
    + apply String.eqb_eq in E. split; [intros _; exact E | reflexivity].
    + apply String.eqb_neq in E.
      split; [|intros Heq; contradiction].
      destruct (existsb _ _); intros Hone; discriminate Hone.
Qed.

(** What [getCorrelation] returns and leaves, given the matrix after its
    first step. *)
Lemma getCorrelation_run (symbol1 symbol2 : string) (env : Env.t) (w : World.t) :
  let matrix := Risk.correlationMatrix (World.riskManager w) in
  let prepared :=
    if JsMap.has symbol1 matrix then matrix else JsMap.set symbol1 JsMap.empty matrix in
  let correlations :=
    match JsMap.get symbol1 prepared with Some inner => inner | None => JsMap.empty end in
  let with_matrix (m : JsMap.t string (JsMap.t string Q)) :=
    World.make (World.portfolioManager w)
      (Risk.make (Risk.maxPositionSize (World.riskManager w))
                 (Risk.maxDrawdown (World.riskManager w))
                 (Risk.riskPerTrade (World.riskManager w))
                 (Risk.maxOpenPositions (World.riskManager w))
                 (Risk.currentDrawdown (World.riskManager w))
                 (Risk.peakBalance (World.riskManager w)) m)
      (World.engine w) (World.moment w) (World.journal w) in
  RiskManager.getCorrelation symbol1 symbol2 env w
  = match JsMap.get symbol2 correlations with
    | Some correlation =>
        (Ok correlation, if JsMap.has symbol1 matrix then w else with_matrix prepared)
    | None =>
        (Ok (RiskManager.calculateBaseCorrelation symbol1 symbol2),
         with_matrix
           (JsMap.set symbol1
              (JsMap.set symbol2 (RiskManager.calculateBaseCorrelation symbol1 symbol2)
                         correlations)
              prepared))
    end.
Proof.
  intros matrix prepared correlations with_matrix.
  subst with_matrix correlations prepared matrix.
  unfold RiskManager.getCorrelation, RiskManager.setCorrelationMatrix, getRisk, getWorld,
    modifyRisk, modify.
  cbv beta iota zeta delta [bind ret].
  destruct (JsMap.has symbol1 (Risk.correlationMatrix (World.riskManager w))) eqn:Ehas;
    cbv beta iota zeta delta [bind ret];
    cbn [World.portfolioManager World.riskManager World.engine World.moment World.journal
         Risk.maxPositionSize Risk.maxDrawdown Risk.riskPerTrade Risk.maxOpenPositions
         Risk.currentDrawdown Risk.peakBalance Risk.correlationMatrix].
  - destruct (JsMap.get symbol1 (Risk.correlationMatrix (World.riskManager w)));
      destruct (JsMap.get symbol2 _); reflexivity.
  - destruct (JsMap.get symbol1 (JsMap.set symbol1 JsMap.empty _));
      destruct (JsMap.get symbol2 _); reflexivity.
Qed.

(** X19.  [getCorrelation] computes a correlation once: it never throws,
    a second call with the same two symbols returns the number that the
    first call returned and changes nothing, and a first call on a matrix
    that holds no row for the first symbol returns the base correlation. *)
Theorem correlation_is_computed_once :
  forall (env : Env.t) (w : World.t) (symbol1 symbol2 : string),
    exists correlation : Q,
      let w1 := snd (RiskManager.getCorrelation symbol1 symbol2 env w) in
      fst (RiskManager.getCorrelation symbol1 symbol2 env w) = Ok correlation
      /\ RiskManager.getCorrelation symbol1 symbol2 env w1 = (Ok correlation, w1)
      /\ (JsMap.has symbol1 (Risk.correlationMatrix (World.riskManager w)) = false ->
          correlation = RiskManager.calculateBaseCorrelation symbol1 symbol2).
Proof.
  intros env w symbol1 symbol2.
  rewrite (getCorrelation_run symbol1 symbol2 env w). cbv zeta.
  set (matrix := Risk.correlationMatrix (World.riskManager w)).
  destruct (JsMap.has symbol1 matrix) eqn:Ehas.
  - unfold JsMap.has in Ehas.
    destruct (JsMap.get symbol1 matrix) as [inner|] eqn:Einner; [|discriminate].
    destruct (JsMap.get symbol2 inner) as [correlation|] eqn:Ecached.
    + exists correlation. cbn [fst snd]. split; [reflexivity|]. split; [|discriminate].
      rewrite (getCorrelation_run symbol1 symbol2 env w). cbv zeta. fold matrix.
      unfold JsMap.has. rewrite Einner. cbv beta iota. rewrite Einner, Ecached.
      reflexivity.
    + eexists. cbn [fst snd]. split; [reflexivity|]. split; [|discriminate].
      rewrite getCorrelation_run. cbv zeta.
      cbn [World.portfolioManager World.riskManager World.engine World.moment World.journal
           Risk.maxPositionSize Risk.maxDrawdown Risk.riskPerTrade Risk.maxOpenPositions
           Risk.currentDrawdown Risk.peakBalance Risk.correlationMatrix].
      unfold JsMap.has. rewrite !(get_set_same string_key_spec).
      reflexivity.
  - unfold JsMap.has in Ehas.
    rewrite (get_set_same string_key_spec). cbn [JsMap.get JsMap.empty].
    eexists. cbn [fst snd]. split; [reflexivity|]. split; [|reflexivity].
    rewrite getCorrelation_run. cbv zeta.
    cbn [World.portfolioManager World.riskManager World.engine World.moment World.journal
         Risk.maxPositionSize Risk.maxDrawdown Risk.riskPerTrade Risk.maxOpenPositions
         Risk.currentDrawdown Risk.peakBalance Risk.correlationMatrix].
    unfold JsMap.has. rewrite !(get_set_same string_key_spec).
    reflexivity.
Qed.

(** ** The Risk Gate: the drawdown and the adjustment of the parameters *)

Lemma updateDrawdown_run (currentBalance : Q) (env : Env.t) (x : Wide.t) :
  let r := World.riskManager (Wide.world x) in
  let peakBalance :=
    if Qgtb currentBalance (Risk.peakBalance r) then currentBalance
    else Risk.peakBalance r in
  let currentDrawdown := div (Fin (peakBalance - currentBalance)) (Fin peakBalance) in
  let world :=
    World.make (World.portfolioManager (Wide.world x))
      (Risk.make (Risk.maxPositionSize r) (Risk.maxDrawdown r) (Risk.riskPerTrade r)
                 (Risk.maxOpenPositions r) currentDrawdown peakBalance
                 (Risk.correlationMatrix r))
      (World.engine (Wide.world x)) (World.moment (Wide.world x))
      (World.journal (Wide.world x)) in
  RiskManager.updateDrawdown currentBalance env x
  = (Ok tt,
     Wide.make world (Wide.predictionTask x) (Wide.executionTask x)
       (if gtb currentDrawdown (Fin (Risk.maxDrawdown r * (8 # 10)))
        then Wide.lines x
             ++ [(List.length (World.journal (Wide.world x)), WARN,
                  ApproachingMaximumDrawdown currentDrawdown)]
        else Wide.lines x)).
Proof.
  intros r peakBalance currentDrawdown world.
  subst world currentDrawdown peakBalance r.
  unfold RiskManager.updateDrawdown, bindW, lift, getRisk, getWorld, modifyRisk, modify,
    logLine, retW.
  cbv beta iota zeta delta [bind ret].
  cbn [Wide.world Wide.predictionTask Wide.executionTask Wide.lines World.riskManager
       World.journal fst snd].
  destruct (gtb _ _); reflexivity.
Qed.

(** X20.  [updateDrawdown] on a positive balance, for a peak that is not
    negative: the peak becomes the larger of the old peak and the balance,
    so it never decreases; the current drawdown becomes a finite number
    between 0 and 1, which is 0 exactly when the balance is a new peak or
    equals the old one.  The method never throws and leaves the other risk
    parameters, the ledger and the engine as they are. *)
Theorem drawdown_lies_between_zero_and_one :
  forall (env : Env.t) (x : Wide.t) (currentBalance : Q),
    let r := World.riskManager (Wide.world x) in
    (0 <= Risk.peakBalance r)%Q ->
    (0 < currentBalance)%Q ->
    let x' := snd (RiskManager.updateDrawdown currentBalance env x) in
    let r' := World.riskManager (Wide.world x') in
    fst (RiskManager.updateDrawdown currentBalance env x) = Ok tt
    /\ (Risk.peakBalance r' == Qmax (Risk.peakBalance r) currentBalance)%Q
    /\ (exists drawdown : Q,
          Risk.currentDrawdown r' = Fin drawdown
          /\ (0 <= drawdown)%Q /\ (drawdown <= 1)%Q
          /\ ((drawdown == 0)%Q <-> (Risk.peakBalance r <= currentBalance)%Q))
    /\ Risk.maxPositionSize r' = Risk.maxPositionSize r
    /\ Risk.maxDrawdown r' = Risk.maxDrawdown r
    /\ Risk.riskPerTrade r' = Risk.riskPerTrade r
    /\ Risk.maxOpenPositions r' = Risk.maxOpenPositions r
    /\ World.portfolioManager (Wide.world x') = World.portfolioManager (Wide.world x)
    /\ World.engine (Wide.world x') = World.engine (Wide.world x).
Proof.
  intros env x currentBalance r Hpeak Hbalance x' r'.
  subst r' x'. rewrite updateDrawdown_run. cbv zeta. fold r.
  cbn [fst snd Wide.world World.riskManager World.portfolioManager World.engine
       Risk.maxPositionSize Risk.maxDrawdown Risk.riskPerTrade Risk.maxOpenPositions
       Risk.currentDrawdown Risk.peakBalance].
  set (peak := if Qgtb currentBalance (Risk.peakBalance r) then currentBalance
               else Risk.peakBalance r).
  assert (Hpeak' : (peak == Qmax (Risk.peakBalance r) currentBalance)%Q
                   /\ (0 < peak)%Q /\ (currentBalance <= peak)%Q
                   /\ ((peak <= currentBalance)%Q
                       <-> (Risk.peakBalance r <= currentBalance)%Q)).
  { subst peak. destruct (Qgtb currentBalance (Risk.peakBalance r)) eqn:E.
    - apply Qgtb_true in E. rewrite Q.max_r by lra. repeat split; lra.
    - apply Qgtb_false in E. rewrite Q.max_l by lra. repeat split; lra. }
  destruct Hpeak' as (Hmax & Hpos & Hbelow & Hnew).
  clearbody peak.
  split; [reflexivity|]. split; [exact Hmax|].
  split; [|repeat split; reflexivity].
  exists ((peak - currentBalance) / peak)%Q.
  split; [apply div_Fin; exact Hpos|].
  split; [|split].
  - apply Qle_shift_div_l; [exact Hpos | lra].
  - apply Qle_shift_div_r; [exact Hpos | lra].
  - rewrite <- Hnew. split.
    + intros Hzero.
      assert (H0 : ((peak - currentBalance) / peak * peak == 0 * peak)%Q)
        by (rewrite Hzero; reflexivity).
      rewrite Qmult_comm, Qmult_div_r in H0 by lra. lra.
    + intros Hle. setoid_replace (peak - currentBalance)%Q with 0%Q by lra.
      unfold Qdiv. ring.
Qed.

Lemma adjustRiskParameters_run (metrics : RiskMetrics.t) (env : Env.t) (x : Wide.t) :
  let r := World.riskManager (Wide.world x) in
  let with_risk (riskPerTrade maxOpenPositions : Q) :=
    World.make (World.portfolioManager (Wide.world x))
      (Risk.make (Risk.maxPositionSize r) (Risk.maxDrawdown r) riskPerTrade
                 maxOpenPositions (Risk.currentDrawdown r) (Risk.peakBalance r)
                 (Risk.correlationMatrix r))
      (World.engine (Wide.world x)) (World.moment (Wide.world x))
      (World.journal (Wide.world x)) in
  let stamp := List.length (World.journal (Wide.world x)) in
  RiskManager.adjustRiskParameters metrics env x
  = (Ok tt,
     if gtb (RiskMetrics.currentDrawdown metrics) (Fin (Risk.maxDrawdown r * (5 # 10)))
     then
       Wide.make
         (with_risk (Risk.riskPerTrade r * (5 # 10))%Q
                    (Qmax (3 # 1) (RiskManager.floor (Risk.maxOpenPositions r * (5 # 10)))))
         (Wide.predictionTask x) (Wide.executionTask x)
         (Wide.lines x ++ [(stamp, WARN, RiskParametersReduced)])
     else if Qgtb (RiskMetrics.winRate metrics) (6 # 10)
             && Qgtb (RiskMetrics.profitFactor metrics) (2 # 1)
     then
       Wide.make
         (with_risk (Qmin (3 # 100) (Risk.riskPerTrade r * (11 # 10)))
                    (Qmin (15 # 1) (Risk.maxOpenPositions r + 1)))
         (Wide.predictionTask x) (Wide.executionTask x)
         (Wide.lines x ++ [(stamp, INFO, RiskParametersIncreased)])
     else x).
Proof.
  intros r with_risk stamp. subst stamp with_risk r.
  unfold RiskManager.adjustRiskParameters, bindW, lift, getRisk, getWorld, modifyRisk,
    modify, logLine, retW.
  cbv beta iota zeta delta [bind ret].
  cbn [Wide.world Wide.predictionTask Wide.executionTask Wide.lines World.riskManager
       World.journal fst snd].
  destruct (gtb _ _); [reflexivity|].
  destruct (_ && _); [reflexivity|].
  destruct x as [world predictionTask executionTask lines]. reflexivity.
Qed.

(** X21.  [adjustRiskParameters] keeps the risk parameters within
    bounds: when the maximum number of open positions lies between 3 and 15
    and the risk per trade between 0 and 0.03 before the call, they do so
    after it, whatever the metrics.  The maximum drawdown and the maximum
    position size are never adjusted, and the method never throws. *)
Theorem adjusted_parameters_stay_within_bounds :
  forall (env : Env.t) (x : Wide.t) (metrics : RiskMetrics.t),
    let r := World.riskManager (Wide.world x) in
    (3 <= Risk.maxOpenPositions r)%Q ->
    (Risk.maxOpenPositions r <= 15)%Q ->
    (0 <= Risk.riskPerTrade r)%Q ->
    (Risk.riskPerTrade r <= 3 # 100)%Q ->
    let r' :=
      World.riskManager (Wide.world (snd (RiskManager.adjustRiskParameters metrics env x))) in
    fst (RiskManager.adjustRiskParameters metrics env x) = Ok tt
    /\ (3 <= Risk.maxOpenPositions r')%Q
    /\ (Risk.maxOpenPositions r' <= 15)%Q
    /\ (0 <= Risk.riskPerTrade r')%Q
    /\ (Risk.riskPerTrade r' <= 3 # 100)%Q
    /\ Risk.maxDrawdown r' = Risk.maxDrawdown r
    /\ Risk.maxPositionSize r' = Risk.maxPositionSize r.
Proof.
  intros env x metrics r Hlow Hhigh Hpos Hcap r'. subst r'.
  rewrite adjustRiskParameters_run. cbv zeta. fold r. cbn [fst snd].
  split; [reflexivity|].
  destruct (gtb _ _).
  - cbn [Wide.world World.riskManager Risk.maxOpenPositions Risk.riskPerTrade
         Risk.maxDrawdown Risk.maxPositionSize].
    assert (Hfloor : (RiskManager.floor (Risk.maxOpenPositions r * (5 # 10))
                      <= Risk.maxOpenPositions r * (5 # 10))%Q).
    { unfold RiskManager.floor. apply Qfloor_le. }
    repeat split; try reflexivity.
    + apply Q.le_max_l.
    + apply Q.max_lub; lra.
    + lra.
    + lra.
  - destruct (_ && _).
    + cbn [Wide.world World.riskManager Risk.maxOpenPositions Risk.riskPerTrade
           Risk.maxDrawdown Risk.maxPositionSize].
      repeat split; try reflexivity.
      * apply Q.min_glb; lra.
      * apply Q.le_min_l.
      * apply Q.min_glb; lra.
      * apply Q.le_min_l.
    + fold r. repeat split; try reflexivity; assumption.
Qed.

Lemma floor_below (q : Q) (n : Z) :
  (q < inject_Z n)%Q -> (RiskManager.floor q <= inject_Z (n - 1))%Q.
Proof.
  intros Hlt. unfold RiskManager.floor. rewrite <- Zle_Qle.
  assert (H : (Qfloor q < n)%Z).
  { rewrite Zlt_Qlt. apply (Qle_lt_trans _ q); [apply Qfloor_le | exact Hlt]. }
  lia.
Qed.

(** X22.  Two adjustments in drawdown shut the gate.  Starting from a
    maximum number of open positions of at most 15 (the default is 10), two
    calls of [adjustRiskParameters] with metrics whose drawdown is above half
    the maximum leave a maximum of 3 open positions; from then on
    [validateSignal] rejects every signal, because it compares that maximum
    with the count 3 that [getOpenPositionsCount] always returns. *)
Theorem two_reductions_shut_the_gate :
  forall (env : Env.t) (x : Wide.t) (first second : RiskMetrics.t) (signal : Signal.t),
    let r := World.riskManager (Wide.world x) in
    (Risk.maxOpenPositions r <= 15)%Q ->
    gtb (RiskMetrics.currentDrawdown first) (Fin (Risk.maxDrawdown r * (5 # 10))) = true ->
    gtb (RiskMetrics.currentDrawdown second) (Fin (Risk.maxDrawdown r * (5 # 10))) = true ->
    let x1 := snd (RiskManager.adjustRiskParameters first env x) in
    let x2 := snd (RiskManager.adjustRiskParameters second env x1) in
    (Risk.maxOpenPositions (World.riskManager (Wide.world x2)) == 3)%Q
    /\ fst (RiskManager.validateSignal signal env (Wide.world x2)) = Ok false.
Proof.
  intros env x first second signal r Hmax Hfirst Hsecond x1 x2.
  assert (Hx1 : Risk.maxDrawdown (World.riskManager (Wide.world x1)) = Risk.maxDrawdown r
                /\ (Risk.maxOpenPositions (World.riskManager (Wide.world x1)) <= 7)%Q).
  { subst x1. rewrite adjustRiskParameters_run. cbv zeta. fold r. rewrite Hfirst.
    cbn [snd Wide.world World.riskManager Risk.maxDrawdown Risk.maxOpenPositions].
    split; [reflexivity|].
    apply Q.max_lub; [lra|].
    apply (@floor_below (Risk.maxOpenPositions r * (5 # 10)) 8).
    unfold inject_Z. lra. }
  destruct Hx1 as [Hdd1 Hmax1].
  assert (Hx2 : (Risk.maxOpenPositions (World.riskManager (Wide.world x2)) == 3)%Q).
  { subst x2. rewrite adjustRiskParameters_run. cbv zeta. rewrite Hdd1, Hsecond.
    cbn [snd Wide.world World.riskManager Risk.maxOpenPositions].
    apply Q.max_l.
    apply (@floor_below (Risk.maxOpenPositions (World.riskManager (Wide.world x1))
                         * (5 # 10)) 4).
    unfold inject_Z. lra. }
  split; [exact Hx2|].
  destruct (validateSignal_run signal env (Wide.world x2)) as (warnings & Hrun & _).
  rewrite Hrun. cbn [fst]. f_equal.
  assert (Hfull : Qgeb (3 # 1) (Risk.maxOpenPositions (World.riskManager (Wide.world x2)))
                  = true).
  { apply Qgeb_true. rewrite Hx2. lra. }
  rewrite Hfull. cbn [negb]. rewrite andb_false_r. reflexivity.
Qed.

(** ** The Risk Gate: the risk metrics *)

Lemma generate_random (g : Q -> Q) (n : nat) (env : Env.t) :
  forall w : World.t,
    RiskManager.generate n (bind (consult Env.random) (fun r => ret (g r))) env w
    = (Ok (map (fun i => g (Env.random env (World.moment w + i))) (seq 0 n)),
       World.make (World.portfolioManager w) (World.riskManager w) (World.engine w)
                  (World.moment w + n) (World.journal w)).
Proof.
  induction n as [|n IH]; intros w.
  - cbn. rewrite Nat.add_0_r. destruct w; reflexivity.
  - cbn [RiskManager.generate]. unfold bind at 1. unfold bind at 1. unfold consult at 1.
    unfold ret at 1. unfold bind at 1. rewrite IH. unfold ret.
    cbn [World.portfolioManager World.riskManager World.engine World.moment World.journal].
    cbn [seq map]. rewrite <- seq_shift, map_map. rewrite Nat.add_0_r.
    f_equal.
    + f_equal. f_equal. apply map_ext. intros i. rewrite Nat.add_succ_r. reflexivity.
    + rewrite Nat.add_succ_r. reflexivity.
Qed.

Lemma winRateOf_proportion (trades : list Q) :
  (0 <= RiskManager.winRateOf trades)%Q /\ (RiskManager.winRateOf trades <= 1)%Q.
Proof.
  unfold RiskManager.winRateOf. destruct trades as [|trade rest].
  - cbn. split; lra.
  - change (List.length (trade :: rest) =? 0)%nat with false. cbv iota zeta.
    pose proof (len_pos trade rest) as Hpos. unfold PortfolioManager.len in Hpos.
    split.
    + apply Qle_shift_div_l; [exact Hpos|]. rewrite Qmult_0_l.
      apply (len_nonneg (filter (fun profit => Qgtb profit 0) (trade :: rest))).
    + apply Qle_shift_div_r; [exact Hpos|]. rewrite Qmult_1_l.
      apply (len_le (filter (fun profit => Qgtb profit 0) (trade :: rest)) (trade :: rest)).
      apply filter_length_le.
Qed.

(** X23.  [getRiskMetrics] never throws and reads nothing of the
    ledger: whatever positions are open, it reports 0 open positions, a
    total exposure of 0 and an exposure ratio of 0, because the
    [getOpenPositions] of the Risk Gate always returns no position.  It
    reports the current drawdown and the limits of the Risk Gate as they
    are, a win rate between 0 and 1 and a beta of 1, and changes nothing: it
    only draws 260 random numbers for its four mock samples. *)
Theorem risk_metrics_report_no_exposure :
  forall (env : Env.t) (w : World.t),
    exists metrics : RiskMetrics.t,
      RiskManager.getRiskMetrics env w
      = (Ok metrics,
         World.make (World.portfolioManager w) (World.riskManager w) (World.engine w)
                    (World.moment w + 260) (World.journal w))
      /\ RiskMetrics.openPositions metrics = 0%nat
      /\ RiskMetrics.totalExposure metrics = Fin 0
      /\ (exists ratio : Q, RiskMetrics.exposureRatio metrics = Fin ratio /\ (ratio == 0)%Q)
      /\ RiskMetrics.currentDrawdown metrics = Risk.currentDrawdown (World.riskManager w)
      /\ RiskMetrics.maxDrawdown metrics = Risk.maxDrawdown (World.riskManager w)
      /\ RiskMetrics.maxOpenPositions metrics = Risk.maxOpenPositions (World.riskManager w)
      /\ (0 <= RiskMetrics.winRate metrics)%Q
      /\ (RiskMetrics.winRate metrics <= 1)%Q
      /\ RiskMetrics.beta metrics = 1.
Proof.
  intros env w.
  unfold RiskManager.getRiskMetrics, RiskManager.getOpenPositions,
    RiskManager.getAccountBalance, RiskManager.calculateSharpeRatio,
    RiskManager.calculateWinRate, RiskManager.calculateProfitFactor,
    RiskManager.calculateVaR, RiskManager.calculateBeta,
    RiskManager.getHistoricalReturns, RiskManager.getCompletedTrades.
  unfold bind at 1. unfold ret at 1. unfold bind at 1. unfold ret at 1.
  unfold bind at 1. unfold getRisk at 1, getWorld at 1, bind at 1, ret at 1.
  unfold bind at 1. unfold bind at 1. rewrite generate_random.
  unfold bind at 1. unfold bind at 1. rewrite generate_random. unfold ret at 1.
  unfold bind at 1. unfold bind at 1. rewrite generate_random. unfold ret at 1.
  unfold bind at 1. unfold bind at 1. rewrite generate_random. unfold ret at 1.
  unfold bind at 1. unfold ret.
  cbn [World.portfolioManager World.riskManager World.engine World.moment World.journal
       fold_left List.length].
  eexists. split.
  - f_equal. f_equal. lia.
  - cbn [RiskMetrics.openPositions RiskMetrics.totalExposure RiskMetrics.exposureRatio
         RiskMetrics.currentDrawdown RiskMetrics.maxDrawdown RiskMetrics.maxOpenPositions
         RiskMetrics.winRate RiskMetrics.beta].
    split; [reflexivity|]. split; [reflexivity|].
    split; [exists (0 / (10000 # 1))%Q; split; reflexivity|].
    split; [reflexivity|]. split; [reflexivity|]. split; [reflexivity|].
    split; [apply winRateOf_proportion|]. split; [apply winRateOf_proportion|].
    reflexivity.
Qed.

(** ** The engine: signal generation *)

(** The relative change that [analyzeSignal] tests, for a positive
    price. *)
Lemma priceChange_finite (predictedPrice currentPrice : Q) :
  (0 < currentPrice)%Q ->
  ltb (abs (mul (div (Fin (predictedPrice - currentPrice)) (Fin currentPrice))
                (Fin (100 # 1))))
      (Fin 1)
  = Qltb (Qabs ((predictedPrice - currentPrice) / currentPrice * (100 # 1))) 1.
Proof.
  intros Hpos. rewrite (div_Fin _ Hpos). cbn [mul abs]. apply ltb_Fin.
Qed.

Lemma relative_change_below_one (predictedPrice currentPrice : Q) :
  (0 < currentPrice)%Q ->
  (Qabs ((predictedPrice - currentPrice) / currentPrice * (100 # 1)) < 1)%Q
  <-> (Qabs (predictedPrice - currentPrice) * (100 # 1) < currentPrice)%Q.
Proof.
  intros Hpos.
  assert (Habs : (Qabs ((predictedPrice - currentPrice) / currentPrice * (100 # 1))
                  == Qabs (predictedPrice - currentPrice) * (100 # 1) / currentPrice)%Q).
  { unfold Qdiv. rewrite !Qabs_Qmult. rewrite Qabs_Qinv.
    rewrite (Qabs.Qabs_pos currentPrice) by lra.
    rewrite (Qabs.Qabs_pos (100 # 1)) by discriminate. ring. }
  rewrite Habs. split.
  - intros Hlt.
    assert (H := Qmult_lt_compat_r _ _ currentPrice Hpos Hlt).
    unfold Qdiv in H. rewrite <- Qmult_assoc, (Qmult_comm (/ currentPrice)) in H.
    rewrite Qmult_inv_r, Qmult_1_r, Qmult_1_l in H by lra. exact H.
  - intros Hlt. apply Qlt_shift_div_r; [exact Hpos|]. lra.
Qed.

(** X24.  [analyzeSignal] never throws, and for a positive market price
    it generates a signal exactly when the confidence of the prediction is
    at least 0.65 and the predicted price is at least 1% away from the market
    price. *)
Theorem signal_is_generated_above_both_thresholds :
  forall (env : Env.t) (w : World.t) (pair : string) (prediction : Prediction.t)
         (marketData : MarketData.t),
    (0 < MarketData.price marketData)%Q ->
    exists signal : option Signal.t,
      fst (TradingEngine.analyzeSignal pair prediction marketData env w) = Ok signal
      /\ (signal = None
          <-> (Prediction.confidence prediction < 65 # 100)%Q
              \/ (Qabs (Prediction.predictedPrice prediction - MarketData.price marketData)
                  * (100 # 1) < MarketData.price marketData)%Q).
Proof.
  intros env w pair prediction marketData Hpos.
  unfold TradingEngine.analyzeSignal. cbv zeta.
  rewrite (priceChange_finite _ Hpos).
  destruct (Qltb (Prediction.confidence prediction) (65 # 100)) eqn:Econfidence.
  - exists None. split; [reflexivity|].
    apply Qltb_true in Econfidence. split; [intros _; left; exact Econfidence | reflexivity].
  - apply Qltb_false in Econfidence.
    destruct (Qltb _ 1) eqn:Echange.
    + exists None. split; [reflexivity|].
      apply Qltb_true in Echange. apply (relative_change_below_one _ Hpos) in Echange.
      split; [intros _; right; exact Echange | reflexivity].
    + apply Qltb_false in Echange.
      eexists. split; [cbn; reflexivity|].
      split; [discriminate|].
      intros [Hlow | Hsmall]; [lra|].
      apply (relative_change_below_one _ Hpos) in Hsmall. lra.
Qed.

Lemma signal_threshold_witness :
  (0 < MarketData.price Scenario.btcMarket)%Q
  /\ exists signal : option Signal.t,
       fst (TradingEngine.analyzeSignal "BTC/USDT"
              (Prediction.make (8 # 10) up (1005 # 10) "1h" 1700000000000%Z)
              Scenario.btcMarket Scenario.calm Scenario.started) = Ok signal
       /\ (signal = None
           <-> (8 # 10 < 65 # 100)%Q
               \/ (Qabs ((1005 # 10) - MarketData.price Scenario.btcMarket) * (100 # 1)
                   < MarketData.price Scenario.btcMarket)%Q).
Proof.
  assert (H : (0 < MarketData.price Scenario.btcMarket)%Q) by reflexivity.
  split; [exact H|].
  exact (@signal_is_generated_above_both_thresholds Scenario.calm Scenario.started
           "BTC/USDT" (Prediction.make (8 # 10) up (1005 # 10) "1h" 1700000000000%Z)
           Scenario.btcMarket H).
Defined.

(** X25.  The protective levels of a generated signal bracket its price,
    for a market price that is a positive normal float: a buy signal has its
    stop below the price and its target above, a sell signal has its target
    below and its stop above.  The price of the signal is the market price
    and its target price the predicted price. *)
Theorem generated_levels_bracket_the_price :
  forall (env : Env.t) (w : World.t) (pair : string) (prediction : Prediction.t)
         (marketData : MarketData.t) (signal : Signal.t),
    (Binary64.smallestNormal <= MarketData.price marketData)%Q ->
    fst (TradingEngine.analyzeSignal pair prediction marketData env w) = Ok (Some signal) ->
    Signal.price signal = MarketData.price marketData
    /\ Signal.targetPrice signal = Prediction.predictedPrice prediction
    /\ match Signal.action signal with
       | BUY => (Signal.stopLoss signal < Signal.price signal)%Q
                /\ (Signal.price signal < Signal.takeProfit signal)%Q
       | SELL => (Signal.takeProfit signal < Signal.price signal)%Q
                 /\ (Signal.price signal < Signal.stopLoss signal)%Q
       end.
Proof.
  intros env w pair prediction marketData signal Hnormal.
  assert (Hpos : (0 < MarketData.price marketData)%Q).
  { apply (Qlt_le_trans _ Binary64.smallestNormal); [|exact Hnormal].
    unfold Qlt. vm_compute. reflexivity. }
  clear Hnormal.
  unfold TradingEngine.analyzeSignal.
  destruct (Qltb _ _); [cbn; discriminate|].
  destruct (ltb _ _); [cbn; discriminate|].
  cbn. intros H. injection H as <-.
  cbn [Signal.price Signal.targetPrice Signal.action Signal.stopLoss Signal.takeProfit].
  set (price := MarketData.price marketData) in *. clearbody price.
  split; [reflexivity|]. split; [reflexivity|].
  unfold TradingEngine.calculateStopLoss, TradingEngine.calculateTakeProfit.
  destruct (Prediction.direction prediction); cbv zeta; split; lra.
Qed.

Lemma generated_levels_witness :
  (Binary64.smallestNormal <= MarketData.price Scenario.btcMarket)%Q
  /\ fst (TradingEngine.analyzeSignal "BTC/USDT" Cases.rising Scenario.btcMarket
            Scenario.calm Scenario.started) = Ok (Some Cases.generated)
  /\ (Signal.stopLoss Cases.generated < Signal.price Cases.generated)%Q
  /\ (Signal.price Cases.generated < Signal.takeProfit Cases.generated)%Q.
Proof.
  assert (H1 : (Binary64.smallestNormal <= MarketData.price Scenario.btcMarket)%Q).
  { unfold Qle. vm_compute. discriminate. }
  assert (H2 : fst (TradingEngine.analyzeSignal "BTC/USDT" Cases.rising Scenario.btcMarket
                      Scenario.calm Scenario.started) = Ok (Some Cases.generated))
    by reflexivity.
  split; [exact H1|]. split; [exact H2|].
  exact (proj2 (proj2 (@generated_levels_bracket_the_price Scenario.calm
           Scenario.started "BTC/USDT" Cases.rising Scenario.btcMarket Cases.generated
           H1 H2))).
Defined.

(** ** The engine: sending an order *)

Ltac simpl_world :=
  cbv beta iota zeta;
  cbn [fst snd World.portfolioManager World.riskManager World.engine World.moment
       World.journal].

Lemma venueCalls_app (a b : list Effect) :
  Cases.venueCalls (a ++ b) = Cases.venueCalls a ++ Cases.venueCalls b.
Proof.
  induction a as [|effect rest IH]; [reflexivity|].
  destruct effect; cbn; rewrite IH; reflexivity.
Qed.

(** What [executeOrder] returns, leaves and sends. *)
Lemma executeOrder_run :
  forall (env : Env.t) (w : World.t) (signal : Signal.t) (amount : num),
    let limit :=
      VenueCall.make (Signal.symbol signal) "limit"
                     (TradingEngine.openingSide (Signal.action signal)) amount
                     (Some (Signal.price signal)) None in
    let stop :=
      VenueCall.make (Signal.symbol signal) "stop_loss"
                     (TradingEngine.closingSide (Signal.action signal)) amount
                     (Some (Signal.stopLoss signal)) (Some (Signal.stopLoss signal)) in
    let target :=
      VenueCall.make (Signal.symbol signal) "take_profit"
                     (TradingEngine.closingSide (Signal.action signal)) amount
                     (Some (Signal.takeProfit signal)) (Some (Signal.takeProfit signal)) in
    let w' := snd (TradingEngine.executeOrder signal amount env w) in
    fst (TradingEngine.executeOrder signal amount env w)
      = Ok (Env.createOrder env (World.moment w) limit)
    /\ World.portfolioManager w' = World.portfolioManager w
    /\ World.riskManager w' = World.riskManager w
    /\ World.engine w' = World.engine w
    /\ Cases.venueCalls (World.journal w')
       = Cases.venueCalls (World.journal w)
         ++ limit
            :: match Env.createOrder env (World.moment w) limit with
               | None => []
               | Some order =>
                   if String.eqb (Order.id order) "" then []
                   else match Env.createOrder env (S (World.moment w)) stop with
                        | None => [stop]
                        | Some _ => [stop; target]
                        end
               end.
Proof.
  intros env w signal amount limit stop target w'. subst w'.
  unfold TradingEngine.executeOrder, TradingEngine.setProtectionOrders,
    TradingEngine.createOrder, TradingEngine.await, tryCatch, log, record, consult,
    modify, throw.
  cbv beta iota zeta delta [bind ret].
  fold limit. fold stop. fold target.
  cbn [World.portfolioManager World.riskManager World.engine World.moment World.journal].
  assert (Hcalls : forall (journal : list Effect) (calls : list VenueCall.t)
                           (rest : list Effect),
             Cases.venueCalls rest = calls ->
             Cases.venueCalls (journal ++ rest) = Cases.venueCalls journal ++ calls).
  { intros journal calls rest <-. apply venueCalls_app. }
  destruct (Env.createOrder env (World.moment w) limit) as [order|]; simpl_world.
  - destruct (String.eqb (Order.id order) ""); cbn [negb]; simpl_world.
    + do 4 (split; [reflexivity|]). apply Hcalls. reflexivity.
    + destruct (Env.createOrder env (S (World.moment w)) stop) as [stopOrder|];
        simpl_world.
      * destruct (Env.createOrder env (S (S (World.moment w))) target) as [targetOrder|];
          simpl_world;
          do 4 (split; [reflexivity|]); rewrite <- !app_assoc; apply Hcalls; reflexivity.
      * do 4 (split; [reflexivity|]). rewrite <- !app_assoc. apply Hcalls. reflexivity.
  - do 4 (split; [reflexivity|]). rewrite <- !app_assoc. apply Hcalls. reflexivity.
Qed.

(** X26.  [executeOrder] never throws and returns the order that the
    exchange answered to the limit order, or [null] when none was obtained:
    the venue refused the order, or there is no exchange to send it to.  The
    limit order is for the side of the signal, the amount given and the
    price of the signal.  When an order was obtained, the limit order was
    sent first, and the protective orders follow only an order with a
    non-empty id: a stop-loss order, then a take-profit order if the venue
    accepted the stop-loss order, both on the opposite side and for the same
    amount; their failure changes neither the result nor the main order.
    When no order was obtained, nothing but the limit order was sent.  The
    ledger, the risk parameters and the engine are left as they are. *)
Theorem executed_order_is_the_answer_to_the_limit_order :
  forall (env : Env.t) (w : World.t) (signal : Signal.t) (amount : num),
    let limit :=
      VenueCall.make (Signal.symbol signal) "limit"
                     (TradingEngine.openingSide (Signal.action signal)) amount
                     (Some (Signal.price signal)) None in
    let stop :=
      VenueCall.make (Signal.symbol signal) "stop_loss"
                     (TradingEngine.closingSide (Signal.action signal)) amount
                     (Some (Signal.stopLoss signal)) (Some (Signal.stopLoss signal)) in
    let target :=
      VenueCall.make (Signal.symbol signal) "take_profit"
                     (TradingEngine.closingSide (Signal.action signal)) amount
                     (Some (Signal.takeProfit signal)) (Some (Signal.takeProfit signal)) in
    let w' := snd (TradingEngine.executeOrder signal amount env w) in
    fst (TradingEngine.executeOrder signal amount env w)
      = Ok (Env.createOrder env (World.moment w) limit)
    /\ World.portfolioManager w' = World.portfolioManager w
    /\ World.riskManager w' = World.riskManager w
    /\ World.engine w' = World.engine w
    /\ exists sent : list VenueCall.t,
         Cases.venueCalls (World.journal w') = Cases.venueCalls (World.journal w) ++ sent
         /\ match Env.createOrder env (World.moment w) limit with
            | Some order =>
                sent = limit
                       :: (if String.eqb (Order.id order) "" then []
                           else match Env.createOrder env (S (World.moment w)) stop with
                                | None => [stop]
                                | Some _ => [stop; target]
                                end)
            | None => forall call : VenueCall.t, In call sent -> call = limit
            end.
Proof.
  intros env w signal amount limit stop target w'.
  destruct (executeOrder_run env w signal amount)
    as (Hresult & Hledger & Hrisk & Hengine & Hcalls).
  fold limit in Hresult, Hcalls. fold stop in Hcalls. fold target in Hcalls.
  fold w' in Hledger, Hrisk, Hengine, Hcalls.
  do 4 (split; [assumption|]).
  eexists. split; [exact Hcalls|].
  destruct (Env.createOrder env (World.moment w) limit) as [order|]; [reflexivity|].
  intros call [<-|[]]. reflexivity.
Qed.

(** ** The engine: the two cycles *)

Lemma keeps_bind_with (A B : Type) (P : World.t -> Prop) (R : A -> Prop)
    (c : M A) (k : A -> M B) :
  (forall (env : Env.t) (w : World.t),
      P w -> P (snd (c env w)) /\ forall a : A, fst (c env w) = Ok a -> R a) ->
  (forall a : A, R a -> keeps P (k a)) ->
  keeps P (bind c k).
Proof.
  intros Hc Hk env w HP. unfold bind. destruct (Hc env w HP) as [Hkept Hresult].
  destruct (c env w) as [[a|e] w']; cbn in *.
  - apply Hk; [apply Hresult; reflexivity | exact Hkept].
  - exact Hkept.
Qed.

Lemma returns_throwless (A : Type) (c : M A) (a : A) :
  (forall (env : Env.t) (w : World.t), fst (c env w) = Ok a) -> returns c.
Proof. intros Hc env w. exists a. apply Hc. Qed.

Lemma analyzeSignal_keeps (P : World.t -> Prop) (pair : string)
    (prediction : Prediction.t) (marketData : MarketData.t) :
  (forall (oracle : Env.t -> nat -> Z), keeps P (consult oracle)) ->
  (forall (oracle : Env.t -> nat -> string), keeps P (consult oracle)) ->
  keeps P (TradingEngine.analyzeSignal pair prediction marketData).
Proof.
  intros HZ Hstring. unfold TradingEngine.analyzeSignal. cbv zeta.
  destruct (Qltb _ _); [apply keeps_ret|].
  destruct (ltb _ _); [apply keeps_ret|].
  unfold TradingEngine.generateSignalId, dateNow.
  repeat first [ apply HZ | apply Hstring | apply keeps_ret
               | apply keeps_bind; [|intros ?] ].
Qed.

Lemma predictPair_keeps (w0 : World.t) (pair : string) :
  keeps (Cases.predicting w0) (TradingEngine.predictPair pair).
Proof.
  unfold TradingEngine.predictPair.
  apply keeps_tryCatch; [|intros e; untouched].
  unfold TradingEngine.await.
  apply keeps_bind; [frame|]. intros marketData.
  apply keeps_bind; [frame|]. intros prediction.
  apply keeps_bind; [apply analyzeSignal_keeps; intros oracle; untouched|].
  intros [signal|]; [|apply keeps_ret].
  apply (@keeps_bind_with bool unit (Cases.predicting w0)
           (fun validated => validated = true -> (65 # 100 <= Signal.confidence signal)%Q)).
  - intros env w HP.
    destruct (validateSignal_run signal env w) as (warnings & Hrun & _).
    rewrite Hrun. cbn [fst snd]. split; [exact HP|].
    intros validated [= <-] Haccepted.
    apply andb_true_iff in Haccepted. destruct Haccepted as [Haccepted _].
    apply andb_true_iff in Haccepted. destruct Haccepted as [Haccepted _].
    apply andb_true_iff in Haccepted. destruct Haccepted as [_ Hconfidence].
    apply negb_true_iff in Hconfidence. apply Qltb_false in Hconfidence.
    exact Hconfidence.
  - intros [|] Hvalid; [|apply keeps_ret].
    apply keeps_bind; [|intros _; frame].
    unfold TradingEngine.setSignalQueue, modifyEngine. apply keeps_modify.
    intros w (Hledger & Hrisk & Hrunning & Hpairs & added & Hqueue & Hgood).
    unfold Cases.predicting.
    cbn [World.portfolioManager World.riskManager World.engine Engine.isRunning
         Engine.tradingPairs Engine.signalQueue].
    repeat (split; [assumption|]).
    exists (added ++ [signal]). split.
    + rewrite Hqueue, app_assoc. reflexivity.
    + apply Forall_app. split; [exact Hgood|].
      constructor; [apply Hvalid; reflexivity | constructor].
Qed.

Lemma predictPair_returns (pair : string) : returns (TradingEngine.predictPair pair).
Proof.
  unfold TradingEngine.predictPair. apply returns_tryCatch.
  intros e env w. exists tt. reflexivity.
Qed.

(** X27.  A prediction cycle never throws: what a pair throws is logged
    and the cycle goes on.  It only queues signals: the ledger and the
    risk parameters are left as they are, the engine keeps its state and its
    pairs, and the queue keeps its signals, in order, followed by the signals
    generated, each of a confidence of 0.65 at least.  On a stopped engine
    the cycle does nothing at all. *)
Theorem prediction_cycle_only_queues_signals :
  forall (env : Env.t) (w : World.t),
    let w' := snd (TradingEngine.runPredictionCycle env w) in
    fst (TradingEngine.runPredictionCycle env w) = Ok tt
    /\ World.portfolioManager w' = World.portfolioManager w
    /\ World.riskManager w' = World.riskManager w
    /\ Engine.isRunning (World.engine w') = Engine.isRunning (World.engine w)
    /\ Engine.tradingPairs (World.engine w') = Engine.tradingPairs (World.engine w)
    /\ (exists added : list Signal.t,
          Engine.signalQueue (World.engine w')
          = Engine.signalQueue (World.engine w) ++ added
          /\ Forall (fun signal => (65 # 100 <= Signal.confidence signal)%Q) added)
    /\ (if Engine.isRunning (World.engine w) then True else w' = w).
Proof.
  intros env w w'.
  assert (Hreturns : returns TradingEngine.runPredictionCycle).
  { unfold TradingEngine.runPredictionCycle.
    apply returns_bind; [intros env0 w0; eexists; reflexivity|]. intros e.
    destruct (negb (Engine.isRunning e)); [apply returns_ret|].
    apply returns_bind; [intros env0 w0; eexists; reflexivity|]. intros _.
    apply returns_forEach. apply predictPair_returns. }
  assert (Hkeeps : keeps (Cases.predicting w) TradingEngine.runPredictionCycle).
  { unfold TradingEngine.runPredictionCycle.
    apply keeps_bind; [untouched|]. intros e.
    destruct (negb (Engine.isRunning e)); [apply keeps_ret|].
    apply keeps_bind; [untouched|]. intros _.
    apply keeps_forEach. intros pair. apply predictPair_keeps. }
  assert (Hstart : Cases.predicting w w).
  { unfold Cases.predicting. repeat (split; [reflexivity|]).
    exists []. split; [rewrite app_nil_r; reflexivity | constructor]. }
  destruct (Hreturns env w) as [[] Hok].
  destruct (Hkeeps env w Hstart) as (Hledger & Hrisk & Hrunning & Hpairs & Hadded).
  fold w' in Hledger, Hrisk, Hrunning, Hpairs, Hadded.
  split; [exact Hok|].
  do 4 (split; [assumption|]). split; [exact Hadded|].
  destruct (Engine.isRunning (World.engine w)) eqn:E; [exact I|].
  subst w'. unfold TradingEngine.runPredictionCycle, getEngine, getWorld.
  cbv beta iota zeta delta [bind ret]. rewrite E. reflexivity.
Qed.

Lemma has_after_set (key id : string) (position : Position.t)
    (positions : JsMap.t string Position.t) :
  JsMap.has key positions = true -> JsMap.has key (JsMap.set id position positions) = true.
Proof.
  unfold JsMap.has. intros Hhas.
  destruct (string_dec key id) as [->|Hne].
  - rewrite (get_set_same string_key_spec). reflexivity.
  - rewrite (get_set_other string_key_spec) by exact Hne. exact Hhas.
Qed.

(** The steps of an execution cycle that touch the ledger. *)
Ltac ledger_step :=
  apply keeps_modify;
  let HP := fresh "HP" in
  intros ? HP; unfold Cases.executing in *;
  cbn [World.portfolioManager World.riskManager World.engine Ledger.positions
       Ledger.balance Ledger.performanceHistory Engine.isRunning Engine.tradingPairs
       Engine.signalQueue] in *;
  try exact HP.

Lemma executeSignal_keeps (w0 : World.t) (queue : list Signal.t) (signal : Signal.t) :
  keeps (Cases.executing w0 queue) (TradingEngine.executeSignal signal).
Proof.
  unfold TradingEngine.executeSignal.
  apply keeps_tryCatch; [|intros e; untouched].
  apply keeps_bind; [untouched|]. intros now.
  destruct (TradingEngine.expired now signal); [untouched|].
  apply keeps_bind.
  { unfold RiskManager.calculatePositionSize, RiskManager.getAccountBalance. cbv zeta.
    frame. }
  intros positionSize.
  destruct (eqb positionSize (Fin 0)); [untouched|].
  apply keeps_bind.
  { unfold TradingEngine.executeOrder, TradingEngine.setProtectionOrders,
      TradingEngine.createOrder, TradingEngine.await.
    frame. }
  intros [order|]; [|apply keeps_ret].
  apply keeps_bind; [untouched|]. intros timestamp.
  apply keeps_bind; [|intros _; frame].
  unfold PortfolioManager.addPosition, PortfolioManager.setPositions,
    PortfolioManager.balanceGet, PortfolioManager.balanceSet, modifyLedger.
  apply keeps_tryCatch; [|intros e; frame].
  apply keeps_bind.
  { ledger_step.
    destruct HP as (Hhistory & Hrisk & Hrunning & Hpairs & Hqueue & Hkeys).
    repeat (split; [assumption|]).
    intros key Hhas. apply has_after_set. apply Hkeys. exact Hhas. }
  intros _.
  repeat first [ ledger_step | frame_step ].
Qed.

Lemma executeSignal_returns (signal : Signal.t) :
  returns (TradingEngine.executeSignal signal).
Proof.
  unfold TradingEngine.executeSignal. apply returns_tryCatch.
  intros e env w. exists tt. reflexivity.
Qed.

Lemma drain_cons (signal : Signal.t) (rest : list Signal.t) (env : Env.t) (w : World.t) :
  TradingEngine.drain (signal :: rest) env w
  = match TradingEngine.executeSignal signal env
            (World.make (World.portfolioManager w) (World.riskManager w)
               (Engine.make (Engine.isRunning (World.engine w))
                            (Engine.tradingPairs (World.engine w)) rest)
               (World.moment w) (World.journal w)) with
    | (Ok _, w2) => TradingEngine.drain rest env w2
    | (Throw e, w2) => (Throw e, w2)
    end.
Proof. reflexivity. Qed.

Lemma drain_keeps (env : Env.t) (w0 : World.t) (queue : list Signal.t) :
  forall (w : World.t) (before : list Signal.t),
    Cases.executing w0 before w ->
    fst (TradingEngine.drain queue env w) = Ok tt
    /\ Cases.executing w0 (match queue with [] => before | _ :: _ => [] end)
                       (snd (TradingEngine.drain queue env w)).
Proof.
  induction queue as [|signal rest IH]; intros w before Hw.
  - split; [reflexivity | exact Hw].
  - rewrite drain_cons.
    set (w1 := World.make (World.portfolioManager w) (World.riskManager w)
                 (Engine.make (Engine.isRunning (World.engine w))
                              (Engine.tradingPairs (World.engine w)) rest)
                 (World.moment w) (World.journal w)).
    assert (Hw1 : Cases.executing w0 rest w1).
    { destruct Hw as (Hhistory & Hrisk & Hrunning & Hpairs & Hqueue & Hkeys).
      unfold Cases.executing. subst w1.
      cbn [World.portfolioManager World.riskManager World.engine Engine.isRunning
           Engine.tradingPairs Engine.signalQueue].
      repeat (split; [assumption|]). split; [reflexivity | exact Hkeys]. }
    pose proof (@executeSignal_keeps w0 rest signal env w1 Hw1) as Hstep.
    destruct (executeSignal_returns signal env w1) as [[] Hok].
    destruct (TradingEngine.executeSignal signal env w1) as [[[]|e] w2];
      cbn [fst snd] in *; [|discriminate].
    destruct (IH w2 rest Hstep) as [Hfst Hsnd].
    split; [exact Hfst|].
    destruct rest; exact Hsnd.
Qed.

(** X28.  An execution cycle never throws: what a signal throws is
    logged and the cycle goes on.  On a stopped engine or an empty queue it
    does nothing at all; otherwise it leaves the queue empty.  It only opens
    positions: every id that names an open position before the cycle names
    one after it, the history of closed trades and the risk parameters are
    left as they are, and the engine keeps its state and its pairs. *)
Theorem execution_cycle_only_opens_positions :
  forall (env : Env.t) (w : World.t),
    let w' := snd (TradingEngine.executeSignals env w) in
    let idle :=
      negb (Engine.isRunning (World.engine w))
      || (List.length (Engine.signalQueue (World.engine w)) =? 0)%nat in
    fst (TradingEngine.executeSignals env w) = Ok tt
    /\ (if idle then w' = w else Engine.signalQueue (World.engine w') = [])
    /\ Ledger.performanceHistory (World.portfolioManager w')
       = Ledger.performanceHistory (World.portfolioManager w)
    /\ World.riskManager w' = World.riskManager w
    /\ Engine.isRunning (World.engine w') = Engine.isRunning (World.engine w)
    /\ Engine.tradingPairs (World.engine w') = Engine.tradingPairs (World.engine w)
    /\ forall key : string,
         JsMap.has key (Ledger.positions (World.portfolioManager w)) = true ->
         JsMap.has key (Ledger.positions (World.portfolioManager w')) = true.
Proof.
  intros env w w' idle. subst w'.
  unfold TradingEngine.executeSignals, getEngine, getWorld.
  cbv beta iota zeta delta [bind ret]. fold idle.
  destruct idle eqn:Eidle.
  - cbn [fst snd]. repeat split; try reflexivity. intros key Hhas. exact Hhas.
  - unfold log, record, modify.
    set (w1 := World.make (World.portfolioManager w) (World.riskManager w) (World.engine w)
                 (World.moment w)
                 (World.journal w
                  ++ [Log DEBUG (ExecutingSignals
                                   (List.length (Engine.signalQueue (World.engine w))))])).
    assert (Hw1 : Cases.executing w (Engine.signalQueue (World.engine w)) w1).
    { unfold Cases.executing. subst w1.
      cbn [World.portfolioManager World.riskManager World.engine].
      repeat (split; [reflexivity|]). intros key Hhas. exact Hhas. }
    destruct (@drain_keeps env w (Engine.signalQueue (World.engine w)) w1
                (Engine.signalQueue (World.engine w)) Hw1)
      as (Hok & Hhistory & Hrisk & Hrunning & Hpairs & Hqueue & Hkeys).
    split; [exact Hok|]. split.
    + rewrite Hqueue. subst idle.
      destruct (Engine.signalQueue (World.engine w)); [|reflexivity].
      rewrite orb_true_r in Eidle. discriminate.
    + repeat (split; [assumption|]). exact Hkeys.
Qed.

(** ** The engine: stopping *)

Lemma ledger_closePosition_elsewhere (positionId : string) (exitPrice : option Q)
    (engine : Engine.t) (risk : Risk.t) :
  keeps (fun w => World.engine w = engine /\ World.riskManager w = risk)
        (PortfolioManager.closePosition positionId exitPrice).
Proof.
  unfold PortfolioManager.closePosition.
  apply keeps_bind; [untouched|]. intros l.
  destruct (JsMap.get positionId (Ledger.positions l)); [|apply keeps_throw].
  unfold PortfolioManager.balanceGet, PortfolioManager.balanceSet,
    PortfolioManager.setPositions, PortfolioManager.recordPerformance,
    PortfolioManager.setHistory, modifyLedger.
  repeat first [ apply keeps_modify; intros w Hw; exact Hw | frame_step ].
Qed.

Lemma createOrder_accepted (call : VenueCall.t) (order : Order.t) (env : Env.t)
    (w : World.t) :
  Env.createOrder env (World.moment w) call = Some order ->
  TradingEngine.createOrder call env w
  = (Ok order,
     World.make (World.portfolioManager w) (World.riskManager w) (World.engine w)
                (S (World.moment w)) (World.journal w ++ [Venue call])).
Proof.
  intros Haccepted.
  unfold TradingEngine.createOrder, TradingEngine.await, record, modify, consult.
  cbv beta iota zeta delta [bind ret]. cbn [World.moment]. rewrite Haccepted.
  reflexivity.
Qed.

(** One turn of the loop of [closeAllPositions], on the first position of
    the map, when the venue accepts the market order. *)
Lemma closeAllPositions_turn (env : Env.t) (x : Wide.t) (position : Position.t)
    (rest : JsMap.t string Position.t) (order : Order.t) :
  Ledger.positions (World.portfolioManager (Wide.world x))
    = (Position.id position, position) :: rest ->
  Env.createOrder env (World.moment (Wide.world x))
    (VenueCall.make (Position.symbol position) "market"
                    (TradingEngine.liquidationSide position)
                    (Fin (Position.quantity position)) None None)
    = Some order ->
  let x' :=
    snd (tryCatchW (TradingEngine.closePosition position)
           (fun e => logLine ERROR (FailedToClosePosition (Position.id position) e))
           env x) in
  fst (tryCatchW (TradingEngine.closePosition position)
         (fun e => logLine ERROR (FailedToClosePosition (Position.id position) e))
         env x) = Ok tt
  /\ Ledger.positions (World.portfolioManager (Wide.world x')) = rest
  /\ World.engine (Wide.world x') = World.engine (Wide.world x)
  /\ World.riskManager (Wide.world x') = World.riskManager (Wide.world x)
  /\ Wide.predictionTask x' = Wide.predictionTask x
  /\ Wide.executionTask x' = Wide.executionTask x.
Proof.
  intros Hpositions Haccepted x'.
  assert (Hrun : exists x1 : Wide.t,
             tryCatchW (TradingEngine.closePosition position)
               (fun e => logLine ERROR (FailedToClosePosition (Position.id position) e))
               env x = (Ok tt, x1)
             /\ Ledger.positions (World.portfolioManager (Wide.world x1)) = rest
             /\ World.engine (Wide.world x1) = World.engine (Wide.world x)
             /\ World.riskManager (Wide.world x1) = World.riskManager (Wide.world x)
             /\ Wide.predictionTask x1 = Wide.predictionTask x
             /\ Wide.executionTask x1 = Wide.executionTask x).
  { unfold tryCatchW, TradingEngine.closePosition, bindW.
    unfold lift at 1.
    rewrite (@createOrder_accepted _ order env (Wide.world x) Haccepted).
    cbv beta iota. unfold lift at 1.
    cbn [Wide.world Wide.predictionTask Wide.executionTask Wide.lines].
    set (w1 := World.make (World.portfolioManager (Wide.world x))
                 (World.riskManager (Wide.world x)) (World.engine (Wide.world x))
                 (S (World.moment (Wide.world x)))
                 (World.journal (Wide.world x)
                  ++ [Venue (VenueCall.make (Position.symbol position) "market"
                               (TradingEngine.liquidationSide position)
                               (Fin (Position.quantity position)) None None)])).
    assert (Hget : JsMap.get (Position.id position)
                     (Ledger.positions (World.portfolioManager w1)) = Some position).
    { subst w1. cbn [World.portfolioManager]. rewrite Hpositions.
      cbn [JsMap.get]. rewrite (key_eqb_refl string_key_spec). reflexivity. }
    pose proof (@closePosition_ledger (Position.id position) None position env w1 Hget)
      as Hledger.
    cbv zeta in Hledger.
    pose proof (@ledger_closePosition_elsewhere (Position.id position) None
                  (World.engine (Wide.world x)) (World.riskManager (Wide.world x))
                  env w1 (conj eq_refl eq_refl)) as [Hengine Hrisk].
    assert (Hrest : Ledger.positions
                      (World.portfolioManager
                         (snd (PortfolioManager.closePosition (Position.id position) None
                                 env w1))) = rest).
    { rewrite Hledger. cbn [Ledger.positions]. subst w1. cbn [World.portfolioManager].
      rewrite Hpositions. cbn [JsMap.delete].
      rewrite (key_eqb_refl string_key_spec). reflexivity. }
    clear Hledger.
    destruct (PortfolioManager.closePosition (Position.id position) None env w1)
      as [[[]|e] w2]; cbn [fst snd] in *;
      unfold logLine; eexists; (split; [reflexivity|]);
      cbn [Wide.world Wide.predictionTask Wide.executionTask];
      repeat split; assumption. }
  destruct Hrun as (x1 & Hrun & Hfacts).
  subst x'. rewrite Hrun. cbn [fst snd]. split; [reflexivity | exact Hfacts].
Qed.

Lemma closeAllPositions_loop (env : Env.t) :
  (forall (n : nat) (call : VenueCall.t), Env.createOrder env n call <> None) ->
  forall (entries : JsMap.t string Position.t) (x : Wide.t),
    Ledger.positions (World.portfolioManager (Wide.world x)) = entries ->
    Forall (fun entry => Position.id (snd entry) = fst entry) entries ->
    let body := fun position =>
      tryCatchW (TradingEngine.closePosition position)
        (fun e => logLine ERROR (FailedToClosePosition (Position.id position) e)) in
    let x' := snd (forEachW body (map snd entries) env x) in
    fst (forEachW body (map snd entries) env x) = Ok tt
    /\ Ledger.positions (World.portfolioManager (Wide.world x')) = []
    /\ World.engine (Wide.world x') = World.engine (Wide.world x)
    /\ World.riskManager (Wide.world x') = World.riskManager (Wide.world x)
    /\ Wide.predictionTask x' = Wide.predictionTask x
    /\ Wide.executionTask x' = Wide.executionTask x.
Proof.
  intros Hvenue entries.
  induction entries as [|[key position] rest IH]; intros x Hpositions Hstored body x'.
  - subst x'. cbn. repeat split; try reflexivity. exact Hpositions.
  - inversion Hstored as [|? ? Hid Hstored']; subst. cbn [snd fst] in Hid.
    subst x'. cbn [map snd forEachW]. unfold bindW.
    destruct (Env.createOrder env (World.moment (Wide.world x))
                (VenueCall.make (Position.symbol position) "market"
                   (TradingEngine.liquidationSide position)
                   (Fin (Position.quantity position)) None None)) as [order|] eqn:Hans;
      [|exfalso; apply (Hvenue _ _ Hans)].
    rewrite <- Hid in Hpositions.
    destruct (@closeAllPositions_turn env x position rest order Hpositions Hans)
      as (Hok & Hrest & Hengine & Hrisk & Hprediction & Hexecution).
    fold (body position) in Hok, Hrest, Hengine, Hrisk, Hprediction, Hexecution |- *.
    destruct (body position env x) as [[[]|e] x1]; cbn [fst snd] in *; [|discriminate].
    destruct (IH x1 Hrest Hstored') as (Hok' & Hrest' & Hengine' & Hrisk' & Hp' & He').
    fold body. cbv zeta in Hok', Hrest', Hengine', Hrisk', Hp', He'.
    subst body. rewrite Hengine', Hrisk', Hp', He'. repeat split; assumption.
Qed.

(** X29.  [stop] on a running engine whose ledger stores every position
    under its id, with a venue that accepts every order: the method never
    throws, the engine is no longer running, both scheduled tasks are
    stopped, and no position is left open, also when the database rejects
    the record of a closing.  The queue, the pairs and the risk parameters
    are left as they are. *)
Theorem stop_closes_every_position :
  forall (env : Env.t) (x : Wide.t),
    Engine.isRunning (World.engine (Wide.world x)) = true ->
    Forall (fun entry => Position.id (snd entry) = fst entry)
           (Ledger.positions (World.portfolioManager (Wide.world x))) ->
    (forall (n : nat) (call : VenueCall.t), Env.createOrder env n call <> None) ->
    let x' := snd (TradingEngine.stop env x) in
    fst (TradingEngine.stop env x) = Ok tt
    /\ Engine.isRunning (World.engine (Wide.world x')) = false
    /\ Ledger.positions (World.portfolioManager (Wide.world x')) = []
    /\ Wide.predictionTask x' = TradingEngine.halt (Wide.predictionTask x)
    /\ Wide.executionTask x' = TradingEngine.halt (Wide.executionTask x)
    /\ Engine.signalQueue (World.engine (Wide.world x'))
       = Engine.signalQueue (World.engine (Wide.world x))
    /\ Engine.tradingPairs (World.engine (Wide.world x'))
       = Engine.tradingPairs (World.engine (Wide.world x))
    /\ World.riskManager (Wide.world x') = World.riskManager (Wide.world x).
Proof.
  intros env x Hrunning Hstored Hvenue x'.
  assert (Hrun : exists x2 : Wide.t,
             TradingEngine.stop env x = (Ok tt, x2)
             /\ Engine.isRunning (World.engine (Wide.world x2)) = false
             /\ Ledger.positions (World.portfolioManager (Wide.world x2)) = []
             /\ Wide.predictionTask x2 = TradingEngine.halt (Wide.predictionTask x)
             /\ Wide.executionTask x2 = TradingEngine.halt (Wide.executionTask x)
             /\ Engine.signalQueue (World.engine (Wide.world x2))
                = Engine.signalQueue (World.engine (Wide.world x))
             /\ Engine.tradingPairs (World.engine (Wide.world x2))
                = Engine.tradingPairs (World.engine (Wide.world x))
             /\ World.riskManager (Wide.world x2) = World.riskManager (Wide.world x)).
  { unfold TradingEngine.stop, TradingEngine.closeAllPositions.
    unfold bindW at 1. unfold lift at 1, getEngine, getWorld.
    cbv beta iota zeta delta [bind ret]. rewrite Hrunning. cbn [negb].
    unfold bindW at 1. unfold logLine at 1.
    unfold bindW at 1. unfold lift at 1, TradingEngine.setRunning, modifyEngine, modify.
    cbn [Wide.world Wide.predictionTask Wide.executionTask Wide.lines].
    unfold bindW at 1. unfold setTasks at 1.
    cbn [Wide.world Wide.predictionTask Wide.executionTask Wide.lines].
    unfold bindW at 1. unfold setTasks at 1.
    cbn [Wide.world Wide.predictionTask Wide.executionTask Wide.lines].
    unfold bindW at 1. unfold bindW at 1.
    unfold lift at 1, PortfolioManager.getOpenPositions, getLedger, getWorld.
    cbv beta iota zeta delta [bind ret].
    cbn [Wide.world Wide.predictionTask Wide.executionTask Wide.lines
         World.portfolioManager].
    unfold JsMap.values.
    match goal with
    | |- context [forEachW ?body (map snd ?entries) env ?x0] =>
        destruct (@closeAllPositions_loop env Hvenue entries x0 eq_refl Hstored)
          as (Hok & Hrest & Hengine & Hrisk & Hprediction & Hexecution)
    end.
    cbv zeta in Hok, Hrest, Hengine, Hrisk, Hprediction, Hexecution.
    match goal with
    | |- context [forEachW ?body (map snd ?entries) env ?x0] =>
        destruct (forEachW body (map snd entries) env x0) as [[[]|e] x1]
    end; cbn [fst snd] in *; [|discriminate].
    unfold logLine. eexists. split; [reflexivity|].
    cbn [Wide.world Wide.predictionTask Wide.executionTask].
    rewrite Hengine, Hrisk, Hrest, Hprediction, Hexecution.
    cbn [Wide.world Wide.predictionTask Wide.executionTask World.engine World.riskManager
         Engine.isRunning Engine.signalQueue Engine.tradingPairs].
    repeat split; reflexivity. }
  destruct Hrun as (x2 & Hrun & Hfacts).
  subst x'. rewrite Hrun. cbn [fst snd]. split; [reflexivity | exact Hfacts].
Qed.

Lemma stop_witness :
  Engine.isRunning
    (World.engine (Wide.world (Cases.wide (Scenario.holding Scenario.longBtc [])))) = true
  /\ Forall (fun entry => Position.id (snd entry) = fst entry)
            (Ledger.positions
               (World.portfolioManager
                  (Wide.world (Cases.wide (Scenario.holding Scenario.longBtc [])))))
  /\ (forall (n : nat) (call : VenueCall.t), Env.createOrder Scenario.calm n call <> None)
  /\ Ledger.positions
       (World.portfolioManager
          (Wide.world
             (snd (TradingEngine.stop Scenario.calm
                     (Cases.wide (Scenario.holding Scenario.longBtc []))))))
     = [].
Proof.
  assert (H1 : Engine.isRunning
                 (World.engine (Wide.world (Cases.wide (Scenario.holding Scenario.longBtc []))))
               = true) by reflexivity.
  assert (H2 : Forall (fun entry => Position.id (snd entry) = fst entry)
                 (Ledger.positions
                    (World.portfolioManager
                       (Wide.world (Cases.wide (Scenario.holding Scenario.longBtc []))))))
    by (constructor; [reflexivity | constructor]).
  assert (H3 : forall (n : nat) (call : VenueCall.t),
             Env.createOrder Scenario.calm n call <> None)
    by (intros n call; discriminate).
  split; [exact H1|]. split; [exact H2|]. split; [exact H3|].
  exact (proj1 (proj2 (proj2 (@stop_closes_every_position Scenario.calm
           (Cases.wide (Scenario.holding Scenario.longBtc [])) H1 H2 H3)))).
Defined.

(** ** The engine: a signal whose stop is at its price *)

Lemma journal_grows_keeps (call : VenueCall.t) (x : Effect) :
  keeps (fun w => In call (Cases.venueCalls (World.journal w))) (record x).
Proof.
  intros env w HP. unfold record, modify. cbn [snd World.journal].
  rewrite venueCalls_app. apply in_or_app. left. exact HP.
Qed.

(** The steps that only add to the journal. *)
Ltac journal_step :=
  first
    [ apply journal_grows_keeps
    | unfold log, emit; apply journal_grows_keeps
    | apply keeps_modify; intros ? HP; exact HP
    | untouched
    | frame_step ].

(** X30.  An execution cycle sends an order without an amount for a
    signal whose stop is at its price.  The size of such a signal is [NaN],
    which is not 0, so the signal is not skipped: when it is not expired
    and the exchange answers the order, the body of the loop of
    [executeSignals] has sent the venue a limit order on the side of the
    signal whose amount is [NaN]. *)
Theorem stop_at_the_price_sends_an_order_without_amount :
  forall (env : Env.t) (w : World.t) (signal : Signal.t) (order : Order.t),
    (Signal.stopLoss signal == Signal.price signal)%Q ->
    TradingEngine.expired (Env.clock env (World.moment w)) signal = false ->
    Env.createOrder env (S (World.moment w))
      (VenueCall.make (Signal.symbol signal) "limit"
                      (TradingEngine.openingSide (Signal.action signal)) NaN
                      (Some (Signal.price signal)) None) = Some order ->
    In (VenueCall.make (Signal.symbol signal) "limit"
                       (TradingEngine.openingSide (Signal.action signal)) NaN
                       (Some (Signal.price signal)) None)
       (Cases.venueCalls (World.journal (snd (TradingEngine.executeSignal signal env w)))).
Proof.
  intros env w signal answered Heq Hfresh _.
  set (limit := VenueCall.make (Signal.symbol signal) "limit"
                  (TradingEngine.openingSide (Signal.action signal)) NaN
                  (Some (Signal.price signal)) None).
  unfold TradingEngine.executeSignal, tryCatch.
  unfold bind at 1. unfold dateNow at 1, consult at 1. rewrite Hfresh.
  unfold bind at 1. rewrite (position_size_of_zero_distance signal env _ Heq).
  change (eqb NaN (Fin 0)) with false. cbv iota.
  unfold bind at 1.
  match goal with
  | |- context [TradingEngine.executeOrder signal NaN env ?w2] =>
      pose proof (executeOrder_run env w2 signal NaN) as Hrun;
      cbv zeta in Hrun; destruct Hrun as (_ & _ & _ & _ & Hcalls);
      assert (Hsent : In limit
                        (Cases.venueCalls
                           (World.journal
                              (snd (TradingEngine.executeOrder signal NaN env w2)))));
      [ rewrite Hcalls; apply in_or_app; right; left; reflexivity |];
      clear Hcalls;
      destruct (TradingEngine.executeOrder signal NaN env w2) as [[order|e] w3]
  end; cbn [fst snd] in *.
  - assert (Htail : forall (order : option Order.t),
               keeps (fun w => In limit (Cases.venueCalls (World.journal w)))
                 (match order with
                  | Some order =>
                      bind dateNow (fun timestamp =>
                        bind (PortfolioManager.addPosition
                                (Position.make (Order.id order) (Signal.symbol signal)
                                   (actionName (Signal.action signal))
                                   (Order.price order) (Order.amount order)
                                   None None None None
                                   (Some (Signal.stopLoss signal))
                                   (Some (Signal.takeProfit signal))
                                   (Some timestamp)))
                          (fun _ =>
                             bind (log INFO (OrderExecutedLine (Signal.symbol signal)
                                               (Order.id order)))
                                  (fun _ => emit (OrderExecuted order))))
                  | None => ret tt
                  end)).
    { intros [filled|]; [|apply keeps_ret].
      unfold PortfolioManager.addPosition, PortfolioManager.setPositions,
        PortfolioManager.balanceGet, PortfolioManager.balanceSet, modifyLedger, database.
      repeat journal_step. }
    specialize (Htail order env w3 Hsent).
    destruct order as [filled|].
    + destruct (bind dateNow _ env w3) as [[[]|e] w4]; cbn [snd] in *.
      * exact Htail.
      * unfold log, record, modify. cbn [snd World.journal].
        rewrite venueCalls_app. apply in_or_app. left. exact Htail.
    + exact Htail.
  - unfold log, record, modify. cbn [snd World.journal].
    rewrite venueCalls_app. apply in_or_app. left. exact Hsent.
Qed.


Lemma order_without_amount_witness :
  (Signal.stopLoss Cases.flat == Signal.price Cases.flat)%Q
  /\ TradingEngine.expired (Env.clock Scenario.calm (World.moment Scenario.started))
       Cases.flat = false
  /\ exists order : Order.t,
       Env.createOrder Scenario.calm (S (World.moment Scenario.started))
         (VenueCall.make "BTC/USDT" "limit" "buy" NaN (Some 0) None) = Some order
       /\ In (VenueCall.make "BTC/USDT" "limit" "buy" NaN (Some 0) None)
             (Cases.venueCalls
                (World.journal
                   (snd (TradingEngine.executeSignal Cases.flat Scenario.calm
                           Scenario.started)))).
Proof.
  assert (H1 : (Signal.stopLoss Cases.flat == Signal.price Cases.flat)%Q) by reflexivity.
  assert (H2 : TradingEngine.expired
                 (Env.clock Scenario.calm (World.moment Scenario.started)) Cases.flat
               = false) by reflexivity.
  split; [exact H1|]. split; [exact H2|].
  eexists. split; [reflexivity|].
  exact (@stop_at_the_price_sends_an_order_without_amount Scenario.calm Scenario.started
           Cases.flat _ H1 H2 eq_refl).
Defined.

(** ** The properties above, on the scenarios *)


Lemma drawdown_witness :
  (0 <= Risk.peakBalance (World.riskManager (Wide.world Cases.atPeak)))%Q
  /\ (0 < 9000 # 1)%Q
  /\ cmp (Risk.currentDrawdown
            (World.riskManager
               (Wide.world
                  (snd (RiskManager.updateDrawdown (9000 # 1) Scenario.calm Cases.atPeak)))))
         (Fin (1 # 10)) = Some Eq
  /\ exists drawdown : Q,
       Risk.currentDrawdown
         (World.riskManager
            (Wide.world
               (snd (RiskManager.updateDrawdown (9000 # 1) Scenario.calm Cases.atPeak))))
       = Fin drawdown
       /\ (0 <= drawdown)%Q /\ (drawdown <= 1)%Q
       /\ ((drawdown == 0)%Q
           <-> (Risk.peakBalance (World.riskManager (Wide.world Cases.atPeak))
                <= 9000 # 1)%Q).
Proof.
  assert (H1 : (0 <= Risk.peakBalance (World.riskManager (Wide.world Cases.atPeak)))%Q)
    by (intros H; discriminate H).
  assert (H2 : (0 < 9000 # 1)%Q) by reflexivity.
  split; [exact H1|]. split; [exact H2|]. split; [reflexivity|].
  exact (proj1 (proj2 (proj2 (@drawdown_lies_between_zero_and_one Scenario.calm
                                Cases.atPeak (9000 # 1) H1 H2)))).
Defined.

Lemma adjusted_parameters_witness :
  (3 <= Risk.maxOpenPositions
          (World.riskManager (Wide.world (Cases.wide Scenario.started))))%Q
  /\ (3 <= Risk.maxOpenPositions
             (World.riskManager
                (Wide.world
                   (snd (RiskManager.adjustRiskParameters Cases.inDrawdown Scenario.calm
                           (Cases.wide Scenario.started))))))%Q
  /\ (0 <= Risk.riskPerTrade
             (World.riskManager
                (Wide.world
                   (snd (RiskManager.adjustRiskParameters Cases.inDrawdown Scenario.calm
                           (Cases.wide Scenario.started))))))%Q.
Proof.
  assert (H1 : (3 <= Risk.maxOpenPositions
                       (World.riskManager (Wide.world (Cases.wide Scenario.started))))%Q)
    by (intros H; discriminate H).
  assert (H2 : (Risk.maxOpenPositions
                  (World.riskManager (Wide.world (Cases.wide Scenario.started))) <= 15)%Q)
    by (intros H; discriminate H).
  assert (H3 : (0 <= Risk.riskPerTrade
                       (World.riskManager (Wide.world (Cases.wide Scenario.started))))%Q)
    by (intros H; discriminate H).
  assert (H4 : (Risk.riskPerTrade
                  (World.riskManager (Wide.world (Cases.wide Scenario.started)))
                <= 3 # 100)%Q)
    by (intros H; discriminate H).
  split; [exact H1|]. split.
  - exact (proj1 (proj2 (@adjusted_parameters_stay_within_bounds Scenario.calm
                           (Cases.wide Scenario.started) Cases.inDrawdown H1 H2 H3 H4))).
  - exact (proj1 (proj2 (proj2 (proj2 (@adjusted_parameters_stay_within_bounds
             Scenario.calm (Cases.wide Scenario.started) Cases.inDrawdown H1 H2 H3 H4))))).
Defined.

Lemma shut_gate_witness :
  fst (RiskManager.validateSignal (Scenario.buyBtc 1700000000000%Z) Scenario.calm
         (Wide.world
            (snd (RiskManager.adjustRiskParameters Cases.inDrawdown Scenario.calm
                    (snd (RiskManager.adjustRiskParameters Cases.inDrawdown Scenario.calm
                            (Cases.wide Scenario.started)))))))
  = Ok false.
Proof.
  assert (H1 : (Risk.maxOpenPositions
                  (World.riskManager (Wide.world (Cases.wide Scenario.started))) <= 15)%Q)
    by (intros H; discriminate H).
  assert (H2 : gtb (RiskMetrics.currentDrawdown Cases.inDrawdown)
                   (Fin (Risk.maxDrawdown
                           (World.riskManager (Wide.world (Cases.wide Scenario.started)))
                         * (5 # 10))) = true) by reflexivity.
  exact (proj2 (@two_reductions_shut_the_gate Scenario.calm (Cases.wide Scenario.started)
                  Cases.inDrawdown Cases.inDrawdown (Scenario.buyBtc 1700000000000%Z)
                  H1 H2 H2)).
Defined.
